(** * pujogone: nearest metro station search and coordinate maintenance

  A shallow embedding of [find_nearest_metro.py] and
  [fetch_metro_details.py].  Python floats are IEEE-754 binary64 values
  and are modelled by the primitive floats of the Standard Library
  ([PrimFloat], specified by [SpecFloat] through [FloatAxioms]); JSON
  objects are finite maps from strings to values; Python exceptions are
  an explicit error result.  The platform's [libm] functions ([sin],
  [cos], [asin], [pow]), the HTTP client and URL quoting are parameters
  of the sections that use them. *)

From Stdlib Require Import ZArith List String Ascii Floats Lia Bool DecimalString.
From Stdlib Require Import DecimalN DecimalPos.
From stdpp Require Import base gmap strings.
Import ListNotations.

#[local] Set Warnings "-inexact-float,-register-all".
#[local] Open Scope Z_scope.

(** ** Python values, exceptions and dictionaries *)

Inductive exn : Type :=
| KeyError (key : string)
| TypeError
| ValueError
| OverflowError
| RequestException.

Inductive result (A : Type) : Type :=
| Ok (a : A)
| Raise (e : exn).
Arguments Ok {A} a.
Arguments Raise {A} e.

Definition bind {A B : Type} (m : result A) (k : A -> result B) : result B :=
  match m with
  | Ok a => k a
  | Raise e => Raise e
  end.

Notation "'let*' x ':=' m 'in' k" := (bind m (fun x => k))
  (at level 10, x name, m at level 100, k at level 200).

(** The JSON values that [json.load] produces. *)
Inductive value : Type :=
| VNone
| VBool (b : bool)
| VInt (z : Z)
| VFloat (f : float)
| VStr (s : string)
| VList (l : list value).

(** A Python [dict] with string keys, as loaded from a JSON object. *)
Abbreviation pydict := (gmap string value).

(** [d[key]]: raises [KeyError] when the key is absent. *)
Definition getitem (d : pydict) (key : string) : result value :=
  match d !! key with
  | Some v => Ok v
  | None => Raise (KeyError key)
  end.

(** A Python [str] is a sequence of Unicode code points. *)
Abbreviation text := (list Z).

Definition code (c : ascii) : Z := Z.of_nat (nat_of_ascii c).
Definition text_of_string (s : string) : text := map code (list_ascii_of_string s).

(** ** Floating-point helpers *)

Module PyFloat.

(** [PyLong_AsDouble]: the nearest double (ties to even), or
    [OverflowError] when the integer is too large. *)
Definition of_int (z : Z) : result float :=
  let f := SF2Prim (binary_normalize prec emax z 0 false) in
  if is_infinity f then Raise OverflowError else Ok f.

(** [PyFloat_AsDouble] on a JSON value: floats as they are, integers and
    booleans converted, anything else is a [TypeError]. *)
Definition as_double (v : value) : result float :=
  match v with
  | VFloat f => Ok f
  | VInt z => of_int z
  | VBool b => Ok (if b then 1 else 0)%float
  | VNone | VStr _ | VList _ => Raise TypeError
  end.

(** [Py_MATH_PI / 180.0], the factor of [math.radians]. *)
Definition degToRad : float := Eval vm_compute in (0x1.921fb54442d18p+1 / 180)%float.

Definition math_radians (v : value) : result float :=
  let* x := as_double v in Ok (x * degToRad)%float.

(** [math_1] of [mathmodule.c]: the wrapper around one-argument [libm]
    functions; a NaN from a non-NaN argument is a domain error, an
    infinity from a finite argument a range or domain error.  The wrapper
    decides on the returned value; its [errno] test concerns finite
    results only and ignores underflow. *)
Definition math_1 (func : float -> float) (can_overflow : bool) (x : float)
  : result float :=
  let r := func x in
  if is_nan r && negb (is_nan x) then Raise ValueError
  else if is_infinity r && is_finite x
       then Raise (if can_overflow then OverflowError else ValueError)
  else Ok r.

Definition math_sqrt : float -> result float := math_1 PrimFloat.sqrt false.

(** [float.__pow__] with the integer exponent [2] ([float_pow] of
    [floatobject.c] at [iw = 2.0]): the special cases are decided before
    the platform's [pow] is called on a positive finite base.  An
    infinite result is the range error ([ERANGE]) of an overflow; a NaN
    there would be a domain error. *)
Definition float_pow_2 (libm_pow : float -> float -> float) (iv : float)
  : result float :=
  if is_nan iv then Ok iv
  else if is_infinity iv then Ok (abs iv)
  else if (iv =? 0)%float then Ok 0%float
  else
    let iv := if (iv <? 0)%float then (- iv)%float else iv in
    if (iv =? 1)%float then Ok 1%float
    else
      let ix := libm_pow iv 2%float in
      if is_infinity ix then Raise OverflowError
      else if is_nan ix then Raise ValueError
      else Ok ix.

(** *** Decimal conversions

    CPython converts between doubles and decimal strings with David Gay's
    correctly rounded [dtoa] and [strtod].  Both are modelled on exact
    integers: a finite double is [m * 2^e], a decimal is [N / 10^k]. *)

(** The integer nearest to [num / den], ties to the even one
    ([num >= 0], [den > 0]). *)
Definition div_half_even (num den : Z) : Z :=
  let q := num / den in
  let r := num mod den in
  match 2 * r ?= den with
  | Lt => q
  | Gt => q + 1
  | Eq => if Z.even q then q else q + 1
  end.

(** The smallest positive double is [2^-1074]; magnitudes are counted in
    this unit, so that only powers of two with natural exponents occur:
    the double [m * 2^e] is [m * 2^(e + 1074)] units. *)
Definition unit_exponent : Z := 1074.

(** The exponent [k] (in units) of the double nearest to [N2 / P] units:
    the one with [2^52 <= N2 / (P * 2^k) < 2^53], or [0] for the
    subnormal numbers. *)
Definition ratio_exponent (N2 P : Z) : Z :=
  let t := Z.log2 N2 - Z.log2 P in
  let k1 := if P * 2 ^ t <=? N2 then t - 52 else t - 53 in
  Z.max k1 0.

(** [strtod]: the double nearest to [N / P] (ties to even) with the given
    sign, for [N >= 0] and [P > 0].  The mantissa is the quotient at the
    chosen exponent, rounded to an integer; a mantissa rounded up to
    [2^53] moves to the next exponent, and an exponent above [971] is an
    overflow to infinity. *)
Definition nearest_double (neg : bool) (N P : Z) : spec_float :=
  if N <=? 0 then S754_zero neg
  else
    let N2 := N * 2 ^ unit_exponent in
    let k := ratio_exponent N2 P in
    let m := div_half_even N2 (P * 2 ^ k) in
    let '(m, k) := if m =? 2 ^ 53 then (2 ^ 52, k + 1) else (m, k) in
    match m with
    | Zpos p =>
        if k - unit_exponent <=? 971 then S754_finite neg p (k - unit_exponent)
        else S754_infinity neg
    | _ => S754_zero neg
    end.

(** [dtoa] in mode 3: the magnitude of a finite [x] times [10^nd], rounded
    to an integer (ties to even); its decimal digits are the digits of
    [x] with [nd] places after the point. *)
Definition scaled_digits (x : spec_float) (nd : Z) : Z :=
  match x with
  | S754_finite _ m e =>
      div_half_even (Zpos m * 2 ^ (e + unit_exponent) * 10 ^ nd) (2 ^ unit_exponent)
  | _ => 0
  end.

(** [round(x, nd)] for [nd >= 0] ([double_round] of [floatobject.c]): NaN
    and the infinities round to themselves; a finite [x] is printed with
    [nd] places and the string read back. *)
Definition round (x : float) (nd : Z) : float :=
  match Prim2SF x with
  | S754_finite s _ _ =>
      SF2Prim (nearest_double s (scaled_digits (Prim2SF x) nd) (10 ^ nd))
  | _ => x
  end.

Definition digit_char (d : Z) : ascii := ascii_of_nat (48 + Z.to_nat d).

(** The last [k] decimal digits of [n], with leading zeros. *)
Fixpoint fixed_digits (k : nat) (n : Z) : string :=
  match k with
  | O => EmptyString
  | S k' => fixed_digits k' (n / 10) ++ String (digit_char (n mod 10)) EmptyString
  end.

(** The decimal digits of [n >= 0], without leading zeros. *)
Definition int_digits (n : Z) : string := NilEmpty.string_of_uint (N.to_uint (Z.to_N n)).

(** [format(x, '.<nd>f')] for a float and [nd > 0]. *)
Definition format_f (x : float) (nd : nat) : string :=
  match Prim2SF x with
  | S754_nan => "nan"
  | S754_infinity s => if s then "-inf" else "inf"
  | S754_zero s | S754_finite s _ _ =>
      let n := scaled_digits (Prim2SF x) (Z.of_nat nd) in
      let p := 10 ^ Z.of_nat nd in
      (if s then "-" else "") ++ int_digits (n / p) ++ "." ++ fixed_digits nd (n mod p)
  end%string.

(** [float(s)] for a string over the alphabet of the capture groups of the
    coordinate patterns (digits, [.] and [-]).  On that alphabet Python
    accepts an optional leading [-], then digits with at most one [.]
    among them and at least one digit; everything else is a
    [ValueError]. *)
Fixpoint read_digits (s : text) (acc : Z) (count : nat) : Z * nat * text :=
  match s with
  | c :: rest =>
      if (48 <=? c) && (c <=? 57)
      then read_digits rest (10 * acc + (c - 48)) (S count)
      else (acc, count, s)
  | [] => (acc, count, s)
  end.

Definition float_of_capture (s : text) : result float :=
  let '(neg, s1) :=
    match s with
    | c :: rest => if c =? 45 then (true, rest) else (false, s)
    | [] => (false, s)
    end in
  let '(ip, ni, s2) := read_digits s1 0 0 in
  let '(N, nf, s3) :=
    match s2 with
    | c :: rest => if c =? 46 then read_digits rest ip 0 else (ip, 0%nat, s2)
    | [] => (ip, 0%nat, s2)
    end in
  match s3 with
  | [] =>
      if (ni + nf =? 0)%nat then Raise ValueError
      else Ok (SF2Prim (nearest_double neg N (10 ^ Z.of_nat nf)))
  | _ :: _ => Raise ValueError
  end.

End PyFloat.

(** ** Regular expressions

    The coordinate patterns are sequences of greedy character-class
    repetitions, some of them inside capture groups.  [match_here] is the
    backtracking matcher of [re] on such sequences: a repetition first
    takes as many characters as it can and gives them back one at a time
    while the rest of the pattern fails. *)

Module Re.

Inductive piece : Type :=
| Chars (cls : Z -> bool) (lo : nat) (hi : option nat)
| GroupOpen
| GroupClose.

Abbreviation pattern := (list piece).

Definition lit (s : string) : pattern :=
  map (fun c => Chars (Z.eqb c) 1 (Some 1%nat)) (text_of_string s).
Definition chr (c : Z) : pattern := [Chars (Z.eqb c) 1 (Some 1%nat)].
Definition plus (cls : Z -> bool) : pattern := [Chars cls 1 None].
Definition star (cls : Z -> bool) : pattern := [Chars cls 0 None].
Definition rep (cls : Z -> bool) (lo hi : nat) : pattern := [Chars cls lo (Some hi)].
Definition group (p : pattern) : pattern := GroupOpen :: p ++ [GroupClose].

(** [[0-9]] *)
Definition digit (c : Z) : bool := (48 <=? c) && (c <=? 57).
(** [[0-9.-]] *)
Definition coord (c : Z) : bool := digit c || (c =? 46) || (c =? 45).
(** [\s] on [str]: the characters for which [str.isspace] holds. *)
Definition space (c : Z) : bool :=
  ((9 <=? c) && (c <=? 13)) || ((28 <=? c) && (c <=? 32)) || (c =? 133) || (c =? 160)
  || (c =? 5760) || ((8192 <=? c) && (c <=? 8202)) || (c =? 8232) || (c =? 8233)
  || (c =? 8239) || (c =? 8287) || (c =? 12288).

(** The length of the longest prefix of [s] in the class, at most [limit]. *)
Fixpoint run_length (cls : Z -> bool) (limit : option nat) (s : text) : nat :=
  match s, limit with
  | _, Some O => O
  | c :: rest, Some (S k) => if cls c then S (run_length cls (Some k) rest) else O
  | c :: rest, None => if cls c then S (run_length cls None rest) else O
  | [], _ => O
  end.

(** Tries [k n], [k (n - 1)], ..., [k lo] and keeps the first success. *)
Fixpoint try_counts {A : Type} (k : nat -> option A) (lo n : nat) : option A :=
  if (n <? lo)%nat then None
  else
    match k n with
    | Some r => Some r
    | None =>
        match n with
        | O => None
        | S n' => try_counts k lo n'
        end
    end.

(** A match of [p] at the start of [s]: the captured groups and the number
    of characters consumed.  [cur] is the text of the group that is open,
    [done] the groups already closed. *)
Fixpoint match_here (p : pattern) (s : text) (cur : option text) (done : list text)
    (consumed : nat) : option (list text * nat) :=
  match p with
  | [] => Some (done, consumed)
  | GroupOpen :: p' => match_here p' s (Some []) done consumed
  | GroupClose :: p' => match_here p' s None (done ++ [default [] cur]) consumed
  | Chars cls lo hi :: p' =>
      try_counts
        (fun n => match_here p' (drop n s) (option_map (fun g => g ++ take n s) cur)
                    done (consumed + n)%nat)
        lo (run_length cls hi s)
  end.

(** [re.findall]: the groups of the non-overlapping matches, scanning from
    left to right; [skip] counts the characters of the last match that
    are still to be passed over. *)
Fixpoint findall_from (p : pattern) (skip : nat) (s : text) : list (list text) :=
  match s with
  | [] =>
      match skip, match_here p [] None [] 0 with
      | O, Some (groups, _) => [groups]
      | _, _ => []
      end
  | c :: rest =>
      match skip with
      | S k => findall_from p k rest
      | O =>
          match match_here p (c :: rest) None [] 0 with
          | Some (groups, n) => groups :: findall_from p (Nat.pred n) rest
          | None => findall_from p 0 rest
          end
      end
  end.

Definition findall (p : pattern) (s : text) : list (list text) := findall_from p 0 s.

End Re.

(** ** [find_nearest_metro.py] *)

Section NearestMetro.

(** The platform's C library. *)
Variables libm_sin libm_cos libm_asin : float -> float.
Variable libm_pow : float -> float -> float.

Definition math_sin := PyFloat.math_1 libm_sin false.
Definition math_cos := PyFloat.math_1 libm_cos false.
Definition math_asin := PyFloat.math_1 libm_asin false.

(** [haversine_distance]: great-circle distance in metres. *)
Definition haversine_distance (lat1 lon1 lat2 lon2 : value) : result float :=
  let* lat1 := PyFloat.math_radians lat1 in
  let* lon1 := PyFloat.math_radians lon1 in
  let* lat2 := PyFloat.math_radians lat2 in
  let* lon2 := PyFloat.math_radians lon2 in
  let dlat := (lat2 - lat1)%float in
  let dlon := (lon2 - lon1)%float in
  let* s1 := math_sin (dlat / 2)%float in
  let* p1 := PyFloat.float_pow_2 libm_pow s1 in
  let* c1 := math_cos lat1 in
  let* c2 := math_cos lat2 in
  let* s2 := math_sin (dlon / 2)%float in
  let* p2 := PyFloat.float_pow_2 libm_pow s2 in
  let a := (p1 + c1 * c2 * p2)%float in
  let* q := PyFloat.math_sqrt a in
  let* t := math_asin q in
  let c := (2 * t)%float in
  let r := 6371000%float in
  Ok (c * r)%float.

(** The distance from a query point to one station record, as the loop
    body of [find_nearest_metro_station] computes it. *)
Definition station_distance (pandal_lat pandal_lon : value) (station : pydict)
  : result float :=
  let* slat := getitem station "latitude" in
  let* slon := getitem station "longitude" in
  haversine_distance pandal_lat pandal_lon slat slon.

(** The [for station in metro_stations] loop, with the two loop
    variables [min_distance] and [nearest_station] as accumulators. *)
Fixpoint nearest_loop (pandal_lat pandal_lon : value) (metro_stations : list pydict)
    (min_distance : float) (nearest_station : option pydict)
  : result (option pydict * float) :=
  match metro_stations with
  | [] => Ok (nearest_station, min_distance)
  | station :: rest =>
      let* distance := station_distance pandal_lat pandal_lon station in
      if (distance <? min_distance)%float
      then nearest_loop pandal_lat pandal_lon rest distance (Some station)
      else nearest_loop pandal_lat pandal_lon rest min_distance nearest_station
  end.

Definition find_nearest_metro_station (pandal_lat pandal_lon : value)
    (metro_stations : list pydict) : result (option pydict * float) :=
  nearest_loop pandal_lat pandal_lon metro_stations infinity None.

End NearestMetro.

(** [first_minimum dist F i s d]: station [s] stands at index [i] of [F],
    its distance [d] is no greater than the distance of any station of
    [F], and every station before index [i] is strictly farther. *)
Definition first_minimum (dist : pydict -> result float) (F : list pydict)
    (i : nat) (s : pydict) (d : float) : Prop :=
  F !! i = Some s /\ dist s = Ok d /\
  (forall (j : nat) (s' : pydict) (d' : float),
      F !! j = Some s' -> dist s' = Ok d' -> (d <=? d')%float = true) /\
  (forall (j : nat) (s' : pydict) (d' : float),
      (j < i)%nat -> F !! j = Some s' -> dist s' = Ok d' -> (d <? d')%float = true).

(** A station whose distance is computed without an exception and is a
    number below [float('inf')]. *)
Definition measurable (dist : pydict -> result float) (s : pydict) : Prop :=
  exists d : float, dist s = Ok d /\ (d <? infinity)%float = true.

(** [process_pandals_with_metro_data], from the two loaded documents to
    the document that is written and the closing statistics; the lines
    that are printed are not part of the model. *)
Section Enrichment.

Variables libm_sin libm_cos libm_asin : float -> float.
Variable libm_pow : float -> float -> float.

(** [nearest_station[key]] where [nearest_station] may be [None]. *)
Definition subscript (d : option pydict) (key : string) : result value :=
  match d with
  | Some d => getitem d key
  | None => Raise TypeError
  end.

(** The body of the loop over [pandals_data['data']]. *)
Definition enrich_pandal (metro_stations : list pydict) (pandal : pydict)
  : result pydict :=
  let* pandal_lat := getitem pandal "latitude" in
  let* pandal_lon := getitem pandal "longitude" in
  let* found :=
    find_nearest_metro_station libm_sin libm_cos libm_asin libm_pow
      pandal_lat pandal_lon metro_stations in
  let '(nearest_station, distance) := found in
  let updated_pandal := pandal in
  let* v := subscript nearest_station "short_code" in
  let updated_pandal := <[ "nearest_metro_id"%string := v ]> updated_pandal in
  let* v := subscript nearest_station "name" in
  let updated_pandal := <[ "nearest_metro_name"%string := v ]> updated_pandal in
  let* v := subscript nearest_station "location" in
  let updated_pandal := <[ "nearest_metro_location"%string := v ]> updated_pandal in
  let* v := subscript nearest_station "lines" in
  let updated_pandal := <[ "nearest_metro_lines"%string := v ]> updated_pandal in
  let* v := subscript nearest_station "latitude" in
  let updated_pandal := <[ "nearest_metro_latitude"%string := v ]> updated_pandal in
  let* v := subscript nearest_station "longitude" in
  let updated_pandal := <[ "nearest_metro_longitude"%string := v ]> updated_pandal in
  Ok (<[ "nearest_metro_distance_meters"%string := VFloat (PyFloat.round distance 2) ]>
        updated_pandal).

Fixpoint enrich_loop (metro_stations : list pydict) (pandals : list pydict)
    (updated_pandals : list pydict) : result (list pydict) :=
  match pandals with
  | [] => Ok updated_pandals
  | pandal :: rest =>
      let* updated_pandal := enrich_pandal metro_stations pandal in
      enrich_loop metro_stations rest (updated_pandals ++ [updated_pandal])
  end.

Record output_data : Type := {
  statusCode : Z;
  data : list pydict;
  total_pandals : nat;
  metro_stations_used : nat;
  processing_completed : bool
}.

(** The closing statistics, computed after the document is written:
    [distances] reads the stored distance of every record back, and the
    minimum, the maximum and the average are printed.  The records hold
    the floats that the loop has just stored; a value of another type
    would be a [TypeError] of the model and does not occur
    ([read_distances_enriched] below). *)
Definition stored_distance (pandal : pydict) : result float :=
  let* v := getitem pandal "nearest_metro_distance_meters" in
  match v with
  | VFloat f => Ok f
  | _ => Raise TypeError
  end.

Fixpoint read_distances (updated_pandals : list pydict) : result (list float) :=
  match updated_pandals with
  | [] => Ok []
  | pandal :: rest =>
      let* d := stored_distance pandal in
      let* ds := read_distances rest in
      Ok (d :: ds)
  end.

(** [min(distances)] and [max(distances)]: the first item, replaced by
    every later item that is smaller (greater) than the one held;
    [ValueError] on an empty list. *)
Fixpoint min_loop (items : list float) (minitem : float) : float :=
  match items with
  | [] => minitem
  | item :: rest => min_loop rest (if (item <? minitem)%float then item else minitem)
  end.

Definition py_min (items : list float) : result float :=
  match items with
  | [] => Raise ValueError
  | item :: rest => Ok (min_loop rest item)
  end.

Fixpoint max_loop (items : list float) (maxitem : float) : float :=
  match items with
  | [] => maxitem
  | item :: rest => max_loop rest (if (maxitem <? item)%float then item else maxitem)
  end.

Definition py_max (items : list float) : result float :=
  match items with
  | [] => Raise ValueError
  | item :: rest => Ok (max_loop rest item)
  end.

(** The minimum and the maximum that are printed.  The average,
    [sum(distances)/len(distances)], comes after them: on a non-empty
    list of floats it raises nothing. *)
Definition distance_statistics (updated_pandals : list pydict) : result (float * float) :=
  let* distances := read_distances updated_pandals in
  let* lo := py_min distances in
  let* hi := py_max distances in
  Ok (lo, hi).

(** The run: the document that is written to [output_file], if the run
    gets that far, and how the run ends after that, with the printed
    minimum and maximum or with an exception. *)
Definition process_pandals_with_metro_data (pandals metro_stations : list pydict)
  : option output_data * result (float * float) :=
  match enrich_loop metro_stations pandals [] with
  | Raise e => (None, Raise e)
  | Ok updated_pandals =>
      let output_data :=
        {| statusCode := 200;
           data := updated_pandals;
           total_pandals := length updated_pandals;
           metro_stations_used := length metro_stations;
           processing_completed := true |} in
      (Some output_data, distance_statistics updated_pandals)
  end.

End Enrichment.

(** ** [fetch_metro_details.py] *)

(** The five coordinate patterns, in the order of the source:
    [@(C+),(C+)], [!3d(C+)!4d(C+)], [center=(C+)%2C(C+)],
    ["lat":\s*(C+),\s*"lng":\s*(C+)] with [C = [0-9.-]], and
    [([0-9]{2}\.[0-9]{6,7}),([0-9]{2,3}\.[0-9]{6,7})]. *)
Definition coord_group : Re.pattern := Re.group (Re.plus Re.coord).
Definition pattern_at : Re.pattern :=
  Re.lit "@" ++ coord_group ++ Re.lit "," ++ coord_group.
Definition pattern_3d4d : Re.pattern :=
  Re.lit "!3d" ++ coord_group ++ Re.lit "!4d" ++ coord_group.
Definition pattern_center : Re.pattern :=
  Re.lit "center=" ++ coord_group ++ Re.lit "%2C" ++ coord_group.
Definition pattern_json : Re.pattern :=
  Re.chr 34 ++ Re.lit "lat" ++ Re.chr 34 ++ Re.lit ":" ++ Re.star Re.space
  ++ coord_group ++ Re.lit "," ++ Re.star Re.space
  ++ Re.chr 34 ++ Re.lit "lng" ++ Re.chr 34 ++ Re.lit ":" ++ Re.star Re.space
  ++ coord_group.
Definition pattern_plain : Re.pattern :=
  Re.group (Re.rep Re.digit 2 2 ++ Re.lit "." ++ Re.rep Re.digit 6 7)
  ++ Re.lit ","
  ++ Re.group (Re.rep Re.digit 2 3 ++ Re.lit "." ++ Re.rep Re.digit 6 7).

Definition patterns : list Re.pattern :=
  [pattern_at; pattern_3d4d; pattern_center; pattern_json; pattern_plain].

(** [22.0 <= lat_f <= 23.0 and 87.0 <= lng_f <= 89.0] *)
Definition in_kolkata (lat_f lng_f : float) : bool :=
  (22.0 <=? lat_f)%float && (lat_f <=? 23.0)%float
  && (87.0 <=? lng_f)%float && (lng_f <=? 89.0)%float.

(** [for lat, lng in matches] of [get_google_maps_coordinates]: [Some] is
    the [return] inside the loop, [None] the end of the loop. *)
Fixpoint scan_matches (matches : list (list text)) : result (option (float * float)) :=
  match matches with
  | [] => Ok None
  | [lat; lng] :: rest =>
      let* lat_f := PyFloat.float_of_capture lat in
      let* lng_f := PyFloat.float_of_capture lng in
      if in_kolkata lat_f lng_f
      then Ok (Some (PyFloat.round lat_f 7, PyFloat.round lng_f 7))
      else scan_matches rest
  | _ :: _ => Raise ValueError
  end.

(** [for pattern in patterns]. *)
Fixpoint scan_patterns (ps : list Re.pattern) (response_text : text)
  : result (option (float * float)) :=
  match ps with
  | [] => Ok None
  | pattern :: rest =>
      let matches := Re.findall pattern response_text in
      let* found := scan_matches matches in
      match found with
      | Some r => Ok (Some r)
      | None => scan_patterns rest response_text
      end
  end.

(** [lat, lng = matches[0]] and the validation of
    [get_coordinates_alternative]; [float(lng)] is evaluated only when
    the latitude lies in the box. *)
Definition first_match_valid (matches : list (list text)) : result (option (float * float)) :=
  match matches with
  | [] => Ok None
  | [lat; lng] :: _ =>
      let* lat_f := PyFloat.float_of_capture lat in
      if (22.0 <=? lat_f)%float && (lat_f <=? 23.0)%float then
        let* lng_f := PyFloat.float_of_capture lng in
        if (87.0 <=? lng_f)%float && (lng_f <=? 89.0)%float
        then Ok (Some (lat_f, lng_f))
        else Ok None
      else Ok None
  | _ :: _ => Raise ValueError
  end.

Fixpoint scan_patterns_alternative (ps : list Re.pattern) (response_text : text)
  : result (option (float * float)) :=
  match ps with
  | [] => Ok None
  | pattern :: rest =>
      let* found := first_match_valid (Re.findall pattern response_text) in
      match found with
      | Some r => Ok (Some r)
      | None => scan_patterns_alternative rest response_text
      end
  end.

Section Resolver.

(** [urllib.parse.quote] and [requests.get]: the response is its status
    code and its text, or the exception of a failed request. *)
Variable quote : string -> string.
Variable requests_get : string -> result (Z * text).

(** [get_google_maps_coordinates]: every exception of the body is caught
    and answered with [(None, None)]. *)
Definition get_google_maps_coordinates (station_name location : string) : value * value :=
  let body :=
    let search_query := (station_name ++ " metro station " ++ location)%string in
    let encoded_query := quote search_query in
    let url := ("https://www.google.com/maps/search/" ++ encoded_query)%string in
    let* response := requests_get url in
    let '(status_code, response_text) := response in
    if status_code =? 200 then
      let* found := scan_patterns patterns response_text in
      match found with
      | Some (lat, lng) => Ok (VFloat lat, VFloat lng)
      | None => Ok (VNone, VNone)
      end
    else Ok (VNone, VNone) in
  match body with
  | Ok r => r
  | Raise _ => (VNone, VNone)
  end.

(** One pass of [for url in urls]: an exception skips to the next URL. *)
Definition try_url (url : string) : option (float * float) :=
  let body :=
    let* response := requests_get url in
    let '(status_code, response_text) := response in
    if status_code =? 200
    then scan_patterns_alternative patterns response_text
    else Ok None in
  match body with
  | Ok r => r
  | Raise _ => None
  end.

Fixpoint try_urls (urls : list string) : option (float * float) :=
  match urls with
  | [] => None
  | url :: rest =>
      match try_url url with
      | Some r => Some r
      | None => try_urls rest
      end
  end.

Fixpoint try_queries (search_queries : list string) : option (float * float) :=
  match search_queries with
  | [] => None
  | query :: rest =>
      let encoded_query := quote query in
      let urls :=
        [ "https://maps.google.com/maps?q=" ++ encoded_query;
          "https://www.google.com/maps/search/" ++ encoded_query;
          "https://maps.google.com/maps/place/" ++ encoded_query ]%string in
      match try_urls urls with
      | Some r => Some r
      | None => try_queries rest
      end
  end.

Definition get_coordinates_alternative (station_name location : string) : value * value :=
  let search_queries :=
    [ station_name ++ " metro station " ++ location;
      station_name ++ " station " ++ location;
      "metro " ++ station_name ++ " " ++ location ]%string in
  match try_queries search_queries with
  | Some (lat, lng) => (VFloat lat, VFloat lng)
  | None => (VNone, VNone)
  end.

End Resolver.

(** *** Precision of the stored coordinates *)

(** [s.split('.')]: never empty. *)
Fixpoint split_dot (s : string) : list string :=
  match s with
  | EmptyString => [EmptyString]
  | String c rest =>
      if Ascii.eqb c "."
      then EmptyString :: split_dot rest
      else
        match split_dot rest with
        | field :: fields => String c field :: fields
        | [] => [String c EmptyString]
        end
  end.

(** [len(s.split('.')[-1])] *)
Definition decimals (s : string) : nat := String.length (List.last (split_dot s) EmptyString).

(** [station.get(key, 0)] *)
Definition get_or_zero (station : pydict) (key : string) : value :=
  default (VInt 0) (station !! key).

(** [f'{v:.7f}']: integers and booleans are converted to floats, strings
    know no format code [f], and [None] and lists take no format at all. *)
Definition format_7f (v : value) : result string :=
  match v with
  | VFloat f => Ok (PyFloat.format_f f 7)
  | VInt z => let* f := PyFloat.of_int z in Ok (PyFloat.format_f f 7)
  | VBool b => Ok (PyFloat.format_f (if b then 1 else 0)%float 7)
  | VStr _ => Raise ValueError
  | VNone | VList _ => Raise TypeError
  end.

(** The loop of [verify_coordinate_precision]; both branches of the report
    read [station['name']]. *)
Fixpoint verify_loop (stations : list pydict) (all_correct : bool) : result bool :=
  match stations with
  | [] => Ok all_correct
  | station :: rest =>
      let lat := get_or_zero station "latitude" in
      let lng := get_or_zero station "longitude" in
      let* lat_str := format_7f lat in
      let* lng_str := format_7f lng in
      let lat_decimals := decimals lat_str in
      let lng_decimals := decimals lng_str in
      let is_correct := (lat_decimals =? 7)%nat && (lng_decimals =? 7)%nat in
      let* _name := getitem station "name" in
      verify_loop rest (if negb is_correct then false else all_correct)
  end.

Definition verify_coordinate_precision (stations : list pydict) : result bool :=
  verify_loop stations true.

(** [isinstance(v, (int, float))] *)
Definition is_number (v : value) : bool :=
  match v with
  | VInt _ | VFloat _ | VBool _ => true
  | VNone | VStr _ | VList _ => false
  end.

Definition is_none (v : value) : bool :=
  match v with
  | VNone => true
  | _ => false
  end.

(** [round(v, 7)] on a value: an integer rounds to itself. *)
Definition round_7 (v : value) : result value :=
  match v with
  | VFloat f => Ok (VFloat (PyFloat.round f 7))
  | VInt z => Ok (VInt z)
  | VBool b => Ok (VInt (if b then 1 else 0))
  | VNone | VStr _ | VList _ => Raise TypeError
  end.

(** The test at the head of the loop of [scrape_all_coordinates]: the
    station is passed over when it holds. *)
Definition already_precise (station : pydict) : result bool :=
  match station !! "latitude", station !! "longitude" with
  | Some lat, Some lng =>
      if is_number lat && is_number lng then
        let* lat_str := format_7f lat in
        let* lng_str := format_7f lng in
        Ok ((7 <=? decimals lat_str)%nat && (7 <=? decimals lng_str)%nat)
      else Ok false
  | _, _ => Ok false
  end.

Section Scraper.

(** [self.get_google_maps_coordinates], as the loop calls it with
    [station['name']]. *)
Variable get_coordinates : value -> value * value.

(** The loop of [scrape_all_coordinates]: [done] are the stations already
    visited, as they stand in the list after the visit. *)
Fixpoint scrape_loop (stations done : list pydict) (updated_count : Z)
    (failed_stations : list value) : result (list pydict * Z * list value) :=
  match stations with
  | [] => Ok (done, updated_count, failed_stations)
  | station :: rest =>
      let* station_name := getitem station "name" in
      let* precise := already_precise station in
      if precise then scrape_loop rest (done ++ [station]) updated_count failed_stations
      else
        let '(lat, lng) := get_coordinates station_name in
        if negb (is_none lat) && negb (is_none lng) then
          let* lat := round_7 lat in
          let* lng := round_7 lng in
          let station :=
            <[ "longitude"%string := lng ]> (<[ "latitude"%string := lat ]> station) in
          scrape_loop rest (done ++ [station]) (updated_count + 1) failed_stations
        else
          scrape_loop rest (done ++ [station]) updated_count
            (failed_stations ++ [station_name])
  end.

(** [scrape_all_coordinates] on the loaded list: [None] is the early
    [return] on an empty list; otherwise the list that is saved, the
    number of updated stations and the names of the failed ones. *)
Definition scrape_all_coordinates (stations : list pydict)
  : result (option (list pydict * Z * list value)) :=
  match stations with
  | [] => Ok None
  | _ :: _ =>
      let* r := scrape_loop stations [] 0 [] in Ok (Some r)
  end.

End Scraper.

(** [round(float(current_lat), 7)] of [final_fix_coordinates], on a float. *)
Definition normalize (x : float) : float := PyFloat.round x 7.

(** ** Closed test data

    A stand-in for the C library in closed examples: the small-angle
    approximations [sin x = x], [cos x = 1], [asin x = x], and [pow x y]
    as [x * x] (the program calls [pow] with the exponent [2] only). *)

Module SmallAngle.

Definition sin (x : float) : float := x.
Definition cos (x : float) : float := 1%float.
Definition asin (x : float) : float := x.
Definition pow (x y : float) : float := (x * x)%float.

End SmallAngle.

Definition station (name short_code location : string) (lines : list string)
    (latitude longitude : float) : pydict :=
  <[ "name"%string := VStr name ]>
  (<[ "short_code"%string := VStr short_code ]>
  (<[ "location"%string := VStr location ]>
  (<[ "lines"%string := VList (map VStr lines) ]>
  (<[ "latitude"%string := VFloat latitude ]>
  (<[ "longitude"%string := VFloat longitude ]> ∅))))).

(** The two stations of [create_initial_stations_data], and a third one
    that duplicates the position of the second. *)
Definition kavi_subhash : pydict :=
  station "Kavi Subhash" "KKVS" "New Garia" ["Blue Line"; "Orange Line"]%string
    22.4721796 88.3952919.
Definition shahid_khudiram : pydict :=
  station "Shahid Khudiram" "KSKD" "Briji/Dhalai Bridge" ["Blue Line"]%string
    22.48 88.381.
Definition khudiram_twin : pydict :=
  station "Khudiram (Orange)" "KSKO" "Briji" ["Orange Line"]%string
    22.48 88.381.

(** Three query points; the second one carries no latitude. *)
Definition pandal (id : Z) (name : string) (latitude longitude : float) : pydict :=
  <[ "id"%string := VInt id ]>
  (<[ "name"%string := VStr name ]>
  (<[ "latitude"%string := VFloat latitude ]>
  (<[ "longitude"%string := VFloat longitude ]> ∅))).

Definition pandal_garia : pydict := pandal 1 "Garia Sarbojanin" 22.4661 88.3920.
Definition pandal_no_latitude : pydict :=
  <[ "id"%string := VInt 2 ]>
  (<[ "name"%string := VStr "Naktala" ]>
  (<[ "longitude"%string := VFloat 88.3712 ]> ∅)).
Definition pandal_briji : pydict := pandal 3 "Briji Club" 22.4790 88.3795.

(** The keys that [enrich_pandal] writes. *)
Definition enrichment_keys : list string :=
  [ "nearest_metro_id"; "nearest_metro_name"; "nearest_metro_location";
    "nearest_metro_lines"; "nearest_metro_latitude"; "nearest_metro_longitude";
    "nearest_metro_distance_meters" ]%string.

(** A station record with the fields that the enrichment copies. *)
Definition complete_station (s : pydict) : Prop :=
  is_Some (s !! "short_code"%string) /\ is_Some (s !! "name"%string) /\
  is_Some (s !! "location"%string) /\ is_Some (s !! "lines"%string).

(** * Properties *)

(** Splits a conjunction into its parts, and nothing else. *)
Ltac conjuncts := repeat match goal with |- _ /\ _ => split end.

(** ** The order of binary64 values

  [PrimFloat.ltb] and [PrimFloat.leb] are Python's [<] and [<=] on
  floats.  Their specification [SFcompare] is a strict total order on
  the values that are not NaN. *)

Module FloatOrder.

(** A key that embeds the non-NaN values in the lexicographic order of
    [Z * Z * Z]: the class first, then exponent and mantissa (negated
    for negative numbers). *)
Definition key (x : spec_float) : Z * Z * Z :=
  match x with
  | S754_zero _ => (0, 0, 0)
  | S754_infinity s => (if s then -2 else 2, 0, 0)
  | S754_nan => (0, 0, 0)
  | S754_finite false m e => (1, e, Zpos m)
  | S754_finite true m e => (-1, - e, Zneg m)
  end.

Definition lex_lt (p q : Z * Z * Z) : Prop :=
  let '(a1, a2, a3) := p in
  let '(b1, b2, b3) := q in
  a1 < b1 \/ (a1 = b1 /\ (a2 < b2 \/ (a2 = b2 /\ a3 < b3))).

Definition not_nan (x : spec_float) : Prop := x <> S754_nan.

Lemma SFcompare_None (a b : spec_float) :
  not_nan a -> not_nan b -> SFcompare a b <> None.
Proof.
  unfold not_nan; destruct a, b; simpl; congruence.
Qed.

Lemma SFcompare_Lt_iff (a b : spec_float) :
  not_nan a -> not_nan b ->
  SFcompare a b = Some Lt <-> lex_lt (key a) (key b).
Proof.
  unfold not_nan.
  destruct a as [sa|sa| |sa ma ea], b as [sb|sb| |sb mb eb]; intros Ha Hb;
    try congruence; simpl;
    try destruct sa; try destruct sb; simpl;
    try (split; [ (discriminate || (intros _; lia)) | (lia || reflexivity) ]).
  - change (PosDef.Pos.compare_cont Eq ma mb) with (Pos.compare ma mb).
    destruct (Z.compare_spec ea eb); destruct (Pos.compare_spec ma mb);
      simpl; split; intros; try discriminate; try reflexivity; subst; lia.
  - change (PosDef.Pos.compare_cont Eq ma mb) with (Pos.compare ma mb).
    destruct (Z.compare_spec ea eb); destruct (Pos.compare_spec ma mb);
      simpl; split; intros; try discriminate; try reflexivity; subst; lia.
Qed.

Lemma SFcompare_Gt_iff (a b : spec_float) :
  not_nan a -> not_nan b ->
  SFcompare a b = Some Gt <-> lex_lt (key b) (key a).
Proof.
  unfold not_nan.
  destruct a as [sa|sa| |sa ma ea], b as [sb|sb| |sb mb eb]; intros Ha Hb;
    try congruence; simpl;
    try destruct sa; try destruct sb; simpl;
    try (split; [ (discriminate || (intros _; lia)) | (lia || reflexivity) ]).
  - change (PosDef.Pos.compare_cont Eq ma mb) with (Pos.compare ma mb).
    destruct (Z.compare_spec ea eb); destruct (Pos.compare_spec ma mb);
      simpl; split; intros; try discriminate; try reflexivity; subst; lia.
  - change (PosDef.Pos.compare_cont Eq ma mb) with (Pos.compare ma mb).
    destruct (Z.compare_spec ea eb); destruct (Pos.compare_spec ma mb);
      simpl; split; intros; try discriminate; try reflexivity; subst; lia.
Qed.

Lemma prim_not_nan_of_ltb (a b : float) :
  (a <? b)%float = true -> not_nan (Prim2SF a) /\ not_nan (Prim2SF b).
Proof.
  rewrite ltb_spec. unfold SFltb, not_nan.
  destruct (Prim2SF a), (Prim2SF b); simpl; intros H; split; congruence.
Qed.

Lemma ltb_true_iff (a b : float) :
  not_nan (Prim2SF a) -> not_nan (Prim2SF b) ->
  (a <? b)%float = true <-> lex_lt (key (Prim2SF a)) (key (Prim2SF b)).
Proof.
  intros Ha Hb. rewrite ltb_spec, <- SFcompare_Lt_iff by assumption.
  unfold SFltb. destruct (SFcompare _ _) as [[]|]; split; congruence.
Qed.

Lemma leb_true_iff (a b : float) :
  not_nan (Prim2SF a) -> not_nan (Prim2SF b) ->
  (a <=? b)%float = true <-> ~ lex_lt (key (Prim2SF b)) (key (Prim2SF a)).
Proof.
  intros Ha Hb. rewrite leb_spec, <- SFcompare_Gt_iff by assumption.
  unfold SFleb. pose proof (SFcompare_None _ _ Ha Hb).
  destruct (SFcompare _ _) as [[]|]; split; congruence.
Qed.

Lemma lex_lt_trans (p q r : Z * Z * Z) : lex_lt p q -> lex_lt q r -> lex_lt p r.
Proof. destruct p as [[? ?] ?], q as [[? ?] ?], r as [[? ?] ?]; simpl; lia. Qed.

Lemma lex_lt_total (p q : Z * Z * Z) : lex_lt p q \/ ~ lex_lt p q.
Proof. destruct p as [[? ?] ?], q as [[? ?] ?]; simpl; lia. Qed.

Lemma lex_lt_le_trans (p q r : Z * Z * Z) : lex_lt p q -> ~ lex_lt r q -> lex_lt p r.
Proof. destruct p as [[? ?] ?], q as [[? ?] ?], r as [[? ?] ?]; simpl; lia. Qed.

Lemma lex_le_trans (p q r : Z * Z * Z) : ~ lex_lt q p -> ~ lex_lt r q -> ~ lex_lt r p.
Proof. destruct p as [[? ?] ?], q as [[? ?] ?], r as [[? ?] ?]; simpl; lia. Qed.

Lemma lex_lt_irrefl (p : Z * Z * Z) : ~ lex_lt p p.
Proof. destruct p as [[? ?] ?]; simpl; lia. Qed.

Definition ordered (x : float) : Prop := not_nan (Prim2SF x).

Lemma ordered_of_ltb (a b : float) : (a <? b)%float = true -> ordered a /\ ordered b.
Proof. apply prim_not_nan_of_ltb. Qed.

Lemma ltb_leb_trans (a b c : float) :
  ordered c -> (a <? b)%float = true -> (b <=? c)%float = true -> (a <? c)%float = true.
Proof.
  intros Hc Hab Hbc. destruct (ordered_of_ltb _ _ Hab) as [Ha Hb].
  rewrite ltb_true_iff in * by assumption. rewrite leb_true_iff in Hbc by assumption.
  eapply lex_lt_le_trans; eassumption.
Qed.

Lemma ltb_leb (a b : float) : (a <? b)%float = true -> (a <=? b)%float = true.
Proof.
  intros Hab. destruct (ordered_of_ltb _ _ Hab) as [Ha Hb].
  rewrite ltb_true_iff in Hab by assumption. rewrite leb_true_iff by assumption.
  intros Hba. exact (lex_lt_irrefl _ (lex_lt_trans _ _ _ Hab Hba)).
Qed.

Lemma leb_refl (a : float) : ordered a -> (a <=? a)%float = true.
Proof. intros Ha. rewrite leb_true_iff by assumption. apply lex_lt_irrefl. Qed.

Lemma leb_of_ltb_false (a b : float) :
  ordered a -> ordered b -> (a <? b)%float = false -> (b <=? a)%float = true.
Proof.
  intros Ha Hb Hab. rewrite leb_true_iff by assumption.
  intros H. rewrite <- ltb_true_iff in H by assumption. congruence.
Qed.

End FloatOrder.

(** ** The nearest-station scan *)

Section NearestMetroFacts.

Variables libm_sin libm_cos libm_asin : float -> float.
Variable libm_pow : float -> float -> float.
Variables pandal_lat pandal_lon : value.

Let dist : pydict -> result float :=
  station_distance libm_sin libm_cos libm_asin libm_pow pandal_lat pandal_lon.
Let scan := nearest_loop libm_sin libm_cos libm_asin libm_pow pandal_lat pandal_lon.

Lemma measurable_ordered (s : pydict) (d : float) :
  measurable dist s -> dist s = Ok d -> FloatOrder.ordered d.
Proof.
  intros [d' [H1 H2]] H. rewrite H in H1. injection H1 as ->.
  apply (FloatOrder.ordered_of_ltb _ _ H2).
Qed.

Lemma first_minimum_take (pre : list pydict) (i : nat) (s x : pydict) (m d : float) :
  Forall (measurable dist) pre ->
  first_minimum dist pre i s m -> dist x = Ok d ->
  (d <? m)%float = true ->
  first_minimum dist (pre ++ [x]) (length pre) x d.
Proof.
  intros Hpre (Hi & Hs & Hmin & Hfirst) Hx Hlt.
  assert (Hj : forall j s' d', pre !! j = Some s' -> dist s' = Ok d' ->
                               (d <? d')%float = true).
  { intros j s' d' Hl Hd.
    apply FloatOrder.ltb_leb_trans with m; eauto.
    apply measurable_ordered with s'; [|assumption].
    rewrite Forall_lookup in Hpre. eauto. }
  repeat split.
  - apply list_lookup_middle. reflexivity.
  - assumption.
  - intros j s' d' Hl Hd.
    apply lookup_app_Some in Hl as [Hl | [_ Hl]].
    + apply FloatOrder.ltb_leb. eauto.
    + apply list_lookup_singleton_Some in Hl as [_ <-].
      rewrite Hx in Hd. injection Hd as <-.
      apply FloatOrder.leb_refl. apply (FloatOrder.ordered_of_ltb _ _ Hlt).
  - intros j s' d' Hlt' Hl Hd.
    rewrite lookup_app_l in Hl by assumption. eauto.
Qed.

Lemma first_minimum_keep (pre : list pydict) (i : nat) (s x : pydict) (m d : float) :
  measurable dist s -> measurable dist x ->
  first_minimum dist pre i s m -> dist x = Ok d ->
  (d <? m)%float = false ->
  first_minimum dist (pre ++ [x]) i s m.
Proof.
  intros Hms Hmx (Hi & Hs & Hmin & Hfirst) Hx Hlt.
  repeat split.
  - apply lookup_app_l_Some. assumption.
  - assumption.
  - intros j s' d' Hl Hd.
    apply lookup_app_Some in Hl as [Hl | [_ Hl]]; [eauto|].
    apply list_lookup_singleton_Some in Hl as [_ <-].
    rewrite Hx in Hd. injection Hd as <-.
    apply FloatOrder.leb_of_ltb_false; [| |assumption].
    + apply measurable_ordered with x; assumption.
    + apply measurable_ordered with s; assumption.
  - intros j s' d' Hlt' Hl Hd.
    apply lookup_app_Some in Hl as [Hl | [Hge Hl]]; [eauto|].
    apply lookup_lt_Some in Hi. lia.
Qed.

Lemma nearest_loop_first_minimum (rest : list pydict) :
  forall (pre : list pydict) (i : nat) (s : pydict) (m : float),
    Forall (measurable dist) (pre ++ rest) ->
    first_minimum dist pre i s m ->
    exists (i' : nat) (s' : pydict) (d' : float),
      scan rest m (Some s) = Ok (Some s', d') /\
      first_minimum dist (pre ++ rest) i' s' d'.
Proof.
  induction rest as [|x rest IH]; intros pre i s m Hall Hinv.
  - rewrite app_nil_r. exists i, s, m. split; [reflexivity | assumption].
  - apply Forall_app in Hall as Hsplit. destruct Hsplit as [Hpre Hrest].
    apply Forall_cons in Hrest as [Hx Hrest].
    destruct Hx as [d [Hd Hfin]].
    assert (Hs : measurable dist s).
    { destruct Hinv as [Hi _]. rewrite Forall_lookup in Hpre. eauto. }
    replace (pre ++ x :: rest) with ((pre ++ [x]) ++ rest) in *
      by (rewrite <- app_assoc; reflexivity).
    unfold scan; simpl. fold dist. rewrite Hd. simpl. fold scan.
    destruct (d <? m)%float eqn:Hlt.
    + eapply IH; [eassumption|].
      eapply first_minimum_take; eassumption.
    + eapply IH; [eassumption|].
      eapply first_minimum_keep; try eassumption.
      exists d; auto.
Qed.

Lemma nearest_search_spec (metro_stations : list pydict) :
  metro_stations <> [] ->
  Forall (measurable dist) metro_stations ->
  exists (i : nat) (s : pydict) (d : float),
    find_nearest_metro_station libm_sin libm_cos libm_asin libm_pow
      pandal_lat pandal_lon metro_stations = Ok (Some s, d) /\
    first_minimum dist metro_stations i s d.
Proof.
  intros Hne Hall. destruct metro_stations as [|x rest]; [congruence|].
  apply Forall_cons in Hall as Hsplit. destruct Hsplit as [[d [Hd Hfin]] Hrest].
  unfold find_nearest_metro_station; simpl. fold dist. rewrite Hd. simpl.
  rewrite Hfin. fold scan.
  apply (nearest_loop_first_minimum rest [x] 0%nat x d Hall).
  repeat split; try assumption.
  - intros j s' d' Hl Hd'. apply list_lookup_singleton_Some in Hl as [_ <-].
    rewrite Hd in Hd'. injection Hd' as <-.
    apply FloatOrder.leb_refl. apply (FloatOrder.ordered_of_ltb _ _ Hfin).
  - intros j s' d' Hj. lia.
Qed.

(** C1. On a non-empty station list whose distances to the query point are
    all computed and are numbers below infinity, the search returns the
    first station (in list order) of minimal distance, with that distance:
    no station is nearer, and every earlier station is strictly farther,
    so that on a tie the earlier station is returned.  The distance is
    the haversine distance between the query point and the coordinates
    stored in the station, and the comparison is with the haversine
    distance of every station of the list. *)
Theorem find_nearest_first_minimum (metro_stations : list pydict) :
  metro_stations <> [] ->
  Forall (measurable dist) metro_stations ->
  exists (i : nat) (s : pydict) (d : float),
    find_nearest_metro_station libm_sin libm_cos libm_asin libm_pow
      pandal_lat pandal_lon metro_stations = Ok (Some s, d) /\
    (metro_stations !! i = Some s /\ dist s = Ok d /\
     (forall (j : nat) (s' : pydict) (d' : float),
         metro_stations !! j = Some s' -> dist s' = Ok d' -> (d <=? d')%float = true) /\
     (forall (j : nat) (s' : pydict) (d' : float),
         (j < i)%nat -> metro_stations !! j = Some s' -> dist s' = Ok d' ->
         (d <? d')%float = true)) /\
    (exists slat slon : value,
        s !! "latitude"%string = Some slat /\ s !! "longitude"%string = Some slon /\
        haversine_distance libm_sin libm_cos libm_asin libm_pow
          pandal_lat pandal_lon slat slon = Ok d) /\
    (forall (j : nat) (s' : pydict) (slat slon : value) (d' : float),
        metro_stations !! j = Some s' ->
        s' !! "latitude"%string = Some slat -> s' !! "longitude"%string = Some slon ->
        haversine_distance libm_sin libm_cos libm_asin libm_pow
          pandal_lat pandal_lon slat slon = Ok d' ->
        (d <=? d')%float = true /\ ((j < i)%nat -> (d <? d')%float = true)).
Proof.
  intros Hne Hall.
  destruct (nearest_search_spec metro_stations Hne Hall) as (i & s & d & Hret & Hmin).
  exists i, s, d. split; [exact Hret|]. split; [exact Hmin|].
  destruct Hmin as (Hi & Hd & Hle & Hlt). split.
  - unfold dist, station_distance, getitem in Hd.
    destruct (s !! "latitude"%string) as [slat|]; [|discriminate Hd].
    destruct (s !! "longitude"%string) as [slon|]; [|discriminate Hd].
    exists slat, slon. auto.
  - intros j s' slat slon d' Hj Hslat Hslon Hd'.
    assert (Hdist : dist s' = Ok d').
    { unfold dist, station_distance, getitem. rewrite Hslat, Hslon. exact Hd'. }
    split; [exact (Hle j s' d' Hj Hdist) | intros Hlt'; exact (Hlt j s' d' Hlt' Hj Hdist)].
Qed.

(** C2 (as the code has it). With an empty station list the search raises
    nothing: it returns the pair of [None] and [float('inf')]. *)
Theorem find_nearest_empty_returns_none :
  find_nearest_metro_station libm_sin libm_cos libm_asin libm_pow
    pandal_lat pandal_lon [] = Ok (None, infinity).
Proof. reflexivity. Qed.

End NearestMetroFacts.

(** The search of C1 on the three test stations, from a point near the two
    co-located ones: the hypotheses hold there. *)
Lemma find_nearest_first_minimum_witness :
  exists (i : nat) (s : pydict) (d : float),
    find_nearest_metro_station SmallAngle.sin SmallAngle.cos SmallAngle.asin
      SmallAngle.pow (VFloat 22.49) (VFloat 88.38)
      [kavi_subhash; shahid_khudiram; khudiram_twin] = Ok (Some s, d) /\
    first_minimum
      (station_distance SmallAngle.sin SmallAngle.cos SmallAngle.asin
         SmallAngle.pow (VFloat 22.49) (VFloat 88.38))
      [kavi_subhash; shahid_khudiram; khudiram_twin] i s d /\
    (exists slat slon : value,
        s !! "latitude"%string = Some slat /\ s !! "longitude"%string = Some slon /\
        haversine_distance SmallAngle.sin SmallAngle.cos SmallAngle.asin SmallAngle.pow
          (VFloat 22.49) (VFloat 88.38) slat slon = Ok d) /\
    (forall (j : nat) (s' : pydict) (slat slon : value) (d' : float),
        [kavi_subhash; shahid_khudiram; khudiram_twin] !! j = Some s' ->
        s' !! "latitude"%string = Some slat -> s' !! "longitude"%string = Some slon ->
        haversine_distance SmallAngle.sin SmallAngle.cos SmallAngle.asin SmallAngle.pow
          (VFloat 22.49) (VFloat 88.38) slat slon = Ok d' ->
        (d <=? d')%float = true /\ ((j < i)%nat -> (d <? d')%float = true)).
Proof.
  unfold first_minimum.
  apply (find_nearest_first_minimum SmallAngle.sin SmallAngle.cos SmallAngle.asin
           SmallAngle.pow (VFloat 22.49) (VFloat 88.38)).
  - discriminate.
  - repeat constructor; eexists; split; vm_compute; reflexivity.
Defined.

(** The name of the station that a search returns, and the distance. *)
Definition found_name (r : result (option pydict * float)) : option (value * float) :=
  match r with
  | Ok (Some s, d) =>
      match s !! "name"%string with
      | Some name => Some (name, d)
      | None => None
      end
  | _ => None
  end.

(** Two stations at the same position are equally far: the one that comes
    first in the list is returned. *)
Example find_nearest_tie_returns_first :
  station_distance SmallAngle.sin SmallAngle.cos SmallAngle.asin SmallAngle.pow
    (VFloat 22.49) (VFloat 88.38) shahid_khudiram
  = station_distance SmallAngle.sin SmallAngle.cos SmallAngle.asin SmallAngle.pow
    (VFloat 22.49) (VFloat 88.38) khudiram_twin /\
  found_name
    (find_nearest_metro_station SmallAngle.sin SmallAngle.cos SmallAngle.asin
       SmallAngle.pow (VFloat 22.49) (VFloat 88.38)
       [kavi_subhash; shahid_khudiram; khudiram_twin])
  = Some (VStr "Shahid Khudiram", 1117.4951824770271%float) /\
  found_name
    (find_nearest_metro_station SmallAngle.sin SmallAngle.cos SmallAngle.asin
       SmallAngle.pow (VFloat 22.49) (VFloat 88.38)
       [kavi_subhash; khudiram_twin; shahid_khudiram])
  = Some (VStr "Khudiram (Orange)", 1117.4951824770271%float).
Proof. conjuncts; vm_compute; reflexivity. Qed.

(** C2, refuted as stated: on the empty list the search raises no
    exception at all. *)
Lemma find_nearest_empty_does_not_raise :
  ~ exists e : exn,
      find_nearest_metro_station SmallAngle.sin SmallAngle.cos SmallAngle.asin
        SmallAngle.pow (VFloat 22.5726) (VFloat 88.3639) [] = Raise e.
Proof. intros [e H]. discriminate H. Qed.

(** ** The enrichment pipeline *)

(** Looks a literal key up in a chain of insertions with literal keys. *)
Ltac map_lookup :=
  repeat (rewrite lookup_insert_ne by (intro; discriminate));
  try rewrite lookup_insert_eq; try reflexivity.

Section EnrichmentFacts.

Variables libm_sin libm_cos libm_asin : float -> float.
Variable libm_pow : float -> float -> float.

Let nearest := find_nearest_metro_station libm_sin libm_cos libm_asin libm_pow.
Let dist := station_distance libm_sin libm_cos libm_asin libm_pow.
Let enrich := enrich_pandal libm_sin libm_cos libm_asin libm_pow.
Let loop := enrich_loop libm_sin libm_cos libm_asin libm_pow.
Let process := process_pandals_with_metro_data libm_sin libm_cos libm_asin libm_pow.

(** A query point with both coordinates, from which every station of the
    list can be measured. *)
Definition locatable (metro_stations : list pydict) (pandal : pydict) : Prop :=
  exists lat lon : value,
    pandal !! "latitude"%string = Some lat /\ pandal !! "longitude"%string = Some lon /\
    Forall (measurable (dist lat lon)) metro_stations.

(** What [enrich_pandal] returns for a query point [p] whose nearest
    station is [s] at distance [d]. *)
Definition enriched (p s u : pydict) (d : float) : Prop :=
  u !! "nearest_metro_id"%string = s !! "short_code"%string /\
  u !! "nearest_metro_name"%string = s !! "name"%string /\
  u !! "nearest_metro_location"%string = s !! "location"%string /\
  u !! "nearest_metro_lines"%string = s !! "lines"%string /\
  u !! "nearest_metro_latitude"%string = s !! "latitude"%string /\
  u !! "nearest_metro_longitude"%string = s !! "longitude"%string /\
  u !! "nearest_metro_distance_meters"%string = Some (VFloat (PyFloat.round d 2)) /\
  (forall k : string, k ∉ enrichment_keys -> u !! k = p !! k).

Lemma enrich_pandal_spec (metro_stations : list pydict) (p : pydict) :
  metro_stations <> [] ->
  Forall complete_station metro_stations ->
  locatable metro_stations p ->
  exists (lat lon : value) (s u : pydict) (d : float),
    p !! "latitude"%string = Some lat /\ p !! "longitude"%string = Some lon /\
    nearest lat lon metro_stations = Ok (Some s, d) /\
    s ∈ metro_stations /\ dist lat lon s = Ok d /\
    enrich metro_stations p = Ok u /\ enriched p s u d.
Proof.
  intros Hne Hcomplete (lat & lon & Hlat & Hlon & Hmeas).
  destruct (nearest_search_spec _ _ _ _ lat lon metro_stations Hne Hmeas)
    as (i & s & d & Hret & Hi & Hd & _).
  assert (Hs : complete_station s).
  { rewrite Forall_lookup in Hcomplete. eauto. }
  destruct Hs as ([v1 H1] & [v2 H2] & [v3 H3] & [v4 H4]).
  assert (H5 : is_Some (s !! "latitude"%string) /\ is_Some (s !! "longitude"%string)).
  { unfold station_distance, getitem in Hd.
    destruct (s !! "latitude"%string); [|discriminate].
    destruct (s !! "longitude"%string); [|discriminate]. split; eauto. }
  destruct H5 as [[v5 H5] [v6 H6]].
  exists lat, lon, s.
  exists (<[ "nearest_metro_distance_meters"%string := VFloat (PyFloat.round d 2) ]>
         (<[ "nearest_metro_longitude"%string := v6 ]>
         (<[ "nearest_metro_latitude"%string := v5 ]>
         (<[ "nearest_metro_lines"%string := v4 ]>
         (<[ "nearest_metro_location"%string := v3 ]>
         (<[ "nearest_metro_name"%string := v2 ]>
         (<[ "nearest_metro_id"%string := v1 ]> p))))))).
  exists d. split; [exact Hlat|]. split; [exact Hlon|]. split; [exact Hret|].
  split; [eapply list_elem_of_lookup_2; exact Hi|]. split; [exact Hd|].
  split; [|repeat split].
  - unfold enrich, enrich_pandal, getitem. rewrite Hlat, Hlon. simpl.
    rewrite Hret. simpl. unfold getitem.
    rewrite H1, H2, H3, H4, H5, H6. simpl. reflexivity.
  - rewrite H1. map_lookup.
  - rewrite H2. map_lookup.
  - rewrite H3. map_lookup.
  - rewrite H4. map_lookup.
  - rewrite H5. map_lookup.
  - rewrite H6. map_lookup.
  - map_lookup.
  - intros k Hk. unfold enrichment_keys in Hk.
    repeat (rewrite not_elem_of_cons in Hk; destruct Hk as [? Hk]).
    repeat (rewrite lookup_insert_ne by congruence). reflexivity.
Qed.

Lemma enrich_loop_spec (metro_stations : list pydict) (pandals : list pydict) :
  metro_stations <> [] ->
  Forall complete_station metro_stations ->
  Forall (locatable metro_stations) pandals ->
  forall acc : list pydict,
  exists us : list pydict,
    loop metro_stations pandals acc = Ok (acc ++ us) /\
    Forall2 (fun p u => enrich metro_stations p = Ok u) pandals us.
Proof.
  intros Hne Hcomplete Hall. induction Hall as [|p rest Hp Hrest IH]; intros acc.
  - exists []. rewrite app_nil_r. split; [reflexivity | constructor].
  - destruct (enrich_pandal_spec metro_stations p Hne Hcomplete Hp)
      as (lat & lon & s & u & d & _ & _ & _ & _ & _ & Hu & _).
    destruct (IH (acc ++ [u])) as (us & Hloop & Hus).
    exists (u :: us). split.
    + unfold loop; simpl. fold enrich. rewrite Hu. simpl. fold loop.
      rewrite Hloop, <- app_assoc. reflexivity.
    + constructor; assumption.
Qed.

(** The record that [enrich_pandal] returns stores a float as its
    distance. *)
Lemma enrich_pandal_stores_float (metro_stations : list pydict) (p u : pydict) :
  enrich metro_stations p = Ok u ->
  exists d : float, u !! "nearest_metro_distance_meters"%string = Some (VFloat d).
Proof.
  unfold enrich, enrich_pandal. intros H.
  destruct (getitem p "latitude") as [lat|]; [|discriminate H].
  destruct (getitem p "longitude") as [lon|]; [|discriminate H].
  cbn [bind] in H.
  destruct (find_nearest_metro_station _ _ _ _ lat lon metro_stations)
    as [[[s|] d]|]; cbn [bind subscript] in H; try discriminate H.
  destruct (getitem s "short_code") as [v1|]; [|discriminate H].
  destruct (getitem s "name") as [v2|]; [|discriminate H].
  destruct (getitem s "location") as [v3|]; [|discriminate H].
  destruct (getitem s "lines") as [v4|]; [|discriminate H].
  destruct (getitem s "latitude") as [v5|]; [|discriminate H].
  destruct (getitem s "longitude") as [v6|]; [|discriminate H].
  cbn [bind] in H. injection H as <-.
  exists (PyFloat.round d 2). apply lookup_insert_eq.
Qed.

(** On records that store floats, the distances are read back without an
    exception, one for each record. *)
Lemma read_distances_enriched (us : list pydict) :
  Forall (fun u => exists d : float,
            u !! "nearest_metro_distance_meters"%string = Some (VFloat d)) us ->
  exists ds : list float, read_distances us = Ok ds /\ length ds = length us.
Proof.
  induction 1 as [|u us [d Hd] _ (ds & Hds & Hlen)].
  - exists []. split; reflexivity.
  - exists (d :: ds). cbn [read_distances]. unfold stored_distance, getitem.
    rewrite Hd. cbn [bind]. rewrite Hds. cbn [bind length]. auto.
Qed.

(** The statistics fail on an empty list of records only. *)
Lemma distance_statistics_nonempty (us : list pydict) :
  us <> [] ->
  Forall (fun u => exists d : float,
            u !! "nearest_metro_distance_meters"%string = Some (VFloat d)) us ->
  exists lo hi : float, distance_statistics us = Ok (lo, hi).
Proof.
  intros Hne Hall. destruct (read_distances_enriched us Hall) as (ds & Hds & Hlen).
  unfold distance_statistics. rewrite Hds. cbn [bind].
  destruct ds as [|d ds]; [destruct us; [congruence | discriminate Hlen]|].
  cbn [py_min py_max bind]. eauto.
Qed.

(** C7. With a non-empty list of complete stations, and query points that
    all carry coordinates from which the stations can be measured, the
    run writes a document with one record per query point, at the same
    index, and the record's distance field is the haversine distance from
    the query point to the station the search returns for it, rounded to
    two places; the record keeps the other fields of the query point.
    After the document is written the run prints the least and the
    greatest distance; on an empty list of query points it ends there
    with the [ValueError] of [min([])]. *)
Theorem process_one_record_per_pandal (pandals metro_stations : list pydict) :
  metro_stations <> [] ->
  Forall complete_station metro_stations ->
  Forall (locatable metro_stations) pandals ->
  exists (out : output_data) (r : result (float * float)),
    process pandals metro_stations = (Some out, r) /\
    length (data out) = length pandals /\
    total_pandals out = length pandals /\
    (forall (i : nat) (p : pydict),
      pandals !! i = Some p ->
      exists (lat lon : value) (s u : pydict) (d : float),
        data out !! i = Some u /\
        p !! "latitude"%string = Some lat /\ p !! "longitude"%string = Some lon /\
        nearest lat lon metro_stations = Ok (Some s, d) /\
        s ∈ metro_stations /\ dist lat lon s = Ok d /\
        u !! "nearest_metro_distance_meters"%string = Some (VFloat (PyFloat.round d 2)) /\
        u !! "nearest_metro_id"%string = s !! "short_code"%string /\
        (forall k : string, k ∉ enrichment_keys -> u !! k = p !! k)) /\
    (pandals = [] -> r = Raise ValueError) /\
    (pandals <> [] -> exists lo hi : float, r = Ok (lo, hi)).
Proof.
  intros Hne Hcomplete Hall.
  destruct (enrich_loop_spec metro_stations pandals Hne Hcomplete Hall [])
    as (us & Hloop & Hus).
  simpl in Hloop.
  exists {| statusCode := 200; data := us; total_pandals := length us;
            metro_stations_used := length metro_stations;
            processing_completed := true |}, (distance_statistics us).
  split; [|split; [|split; [|split; [|split]]]].
  - unfold process, process_pandals_with_metro_data. fold loop. rewrite Hloop.
    reflexivity.
  - simpl. symmetry. eapply Forall2_length. eassumption.
  - simpl. symmetry. eapply Forall2_length. eassumption.
  - intros i p Hp. simpl.
    destruct (Forall2_lookup_l _ _ _ _ _ Hus Hp) as (u & Hu & Hpu).
    rewrite Forall_lookup in Hall. specialize (Hall i p Hp).
    destruct (enrich_pandal_spec metro_stations p Hne Hcomplete Hall)
      as (lat & lon & s & u' & d & Hlat & Hlon & Hret & Hin & Hd & Hu' & Hen).
    rewrite Hu' in Hpu. injection Hpu as <-.
    destruct Hen as (Hid & _ & _ & _ & _ & _ & Hdist & Hkeep).
    exists lat, lon, s, u', d. repeat split; assumption.
  - intros ->. inversion Hus. reflexivity.
  - intros Hpne. apply distance_statistics_nonempty.
    + intros ->. inversion Hus. congruence.
    + clear - Hus. induction Hus as [|p u ps us' Hu _ IH]; [constructor|].
      constructor; [exact (enrich_pandal_stores_float _ _ _ Hu) | exact IH].
Qed.

Lemma enrich_loop_raises (metro_stations : list pydict) (pandals : list pydict) :
  (exists p : pydict, p ∈ pandals /\
     (p !! "latitude"%string = None \/ p !! "longitude"%string = None)) ->
  forall acc : list pydict, exists e : exn, loop metro_stations pandals acc = Raise e.
Proof.
  intros (p & Hin & Hbad). induction pandals as [|q rest IH]; intros acc.
  - apply elem_of_nil in Hin. contradiction.
  - unfold loop; simpl. fold loop.
    destruct (enrich_pandal libm_sin libm_cos libm_asin libm_pow metro_stations q)
      as [u|e] eqn:Hq; simpl.
    + apply elem_of_cons in Hin as [-> | Hin].
      * exfalso. unfold enrich_pandal, getitem in Hq.
        destruct Hbad as [Hbad | Hbad].
        -- rewrite Hbad in Hq. discriminate.
        -- destruct (q !! "latitude"%string); [|discriminate].
           rewrite Hbad in Hq. discriminate.
      * apply IH. assumption.
    + exists e. reflexivity.
Qed.

(** The loop ends with the exception of the first query point that
    cannot be enriched. *)
Lemma enrich_loop_first_error (metro_stations : list pydict) (pre : list pydict)
    (p : pydict) (post : list pydict) (e : exn) :
  Forall (fun q => exists u : pydict, enrich metro_stations q = Ok u) pre ->
  enrich metro_stations p = Raise e ->
  forall acc : list pydict, loop metro_stations (pre ++ p :: post) acc = Raise e.
Proof.
  intros Hpre Hp. induction Hpre as [|q pre [u Hq] _ IH]; intros acc.
  - unfold loop; cbn [app enrich_loop]. fold enrich. rewrite Hp. reflexivity.
  - unfold loop; cbn [app enrich_loop]. fold enrich. rewrite Hq. cbn [bind].
    fold loop. apply IH.
Qed.

(** C3 (as the code has it). A query point without latitude or longitude
    is not skipped: whatever the stations are, the whole run ends with an
    exception and no document is written.  When the query points before
    it are enriched, the exception is the [KeyError] of the missing
    key. *)
Theorem process_aborts_on_malformed_pandal (pandals metro_stations : list pydict) :
  (exists p : pydict, p ∈ pandals /\
     (p !! "latitude"%string = None \/ p !! "longitude"%string = None)) ->
  (exists e : exn, process pandals metro_stations = (None, Raise e)) /\
  (forall (pre post : list pydict) (p : pydict),
      pandals = pre ++ p :: post ->
      Forall (fun q => exists u : pydict, enrich metro_stations q = Ok u) pre ->
      (p !! "latitude"%string = None ->
       process pandals metro_stations = (None, Raise (KeyError "latitude"))) /\
      (is_Some (p !! "latitude"%string) -> p !! "longitude"%string = None ->
       process pandals metro_stations = (None, Raise (KeyError "longitude")))).
Proof.
  intros Hbad. split.
  - destruct (enrich_loop_raises metro_stations pandals Hbad []) as [e He].
    exists e. unfold process, process_pandals_with_metro_data. fold loop.
    rewrite He. reflexivity.
  - intros pre post p -> Hpre.
    assert (Hrun : forall e : exn,
               enrich metro_stations p = Raise e ->
               process (pre ++ p :: post) metro_stations = (None, Raise e)).
    { intros e He. unfold process, process_pandals_with_metro_data. fold loop.
      rewrite (enrich_loop_first_error metro_stations pre p post e Hpre He []).
      reflexivity. }
    split.
    + intros Hlat. apply Hrun. unfold enrich, enrich_pandal, getitem.
      rewrite Hlat. reflexivity.
    + intros [lat Hlat] Hlon. apply Hrun. unfold enrich, enrich_pandal, getitem.
      rewrite Hlat, Hlon. reflexivity.
Qed.

End EnrichmentFacts.

(** C7 on two of the test query points and the two seed stations. *)
Lemma process_one_record_per_pandal_witness :
  exists (out : output_data) (r : result (float * float)),
    process_pandals_with_metro_data SmallAngle.sin SmallAngle.cos SmallAngle.asin
      SmallAngle.pow [pandal_garia; pandal_briji] [kavi_subhash; shahid_khudiram]
    = (Some out, r) /\
    length (data out) = 2%nat /\
    total_pandals out = 2%nat /\
    (forall (i : nat) (p : pydict),
      [pandal_garia; pandal_briji] !! i = Some p ->
      exists (lat lon : value) (s u : pydict) (d : float),
        data out !! i = Some u /\
        p !! "latitude"%string = Some lat /\ p !! "longitude"%string = Some lon /\
        find_nearest_metro_station SmallAngle.sin SmallAngle.cos SmallAngle.asin
          SmallAngle.pow lat lon [kavi_subhash; shahid_khudiram] = Ok (Some s, d) /\
        s ∈ [kavi_subhash; shahid_khudiram] /\
        station_distance SmallAngle.sin SmallAngle.cos SmallAngle.asin SmallAngle.pow
          lat lon s = Ok d /\
        u !! "nearest_metro_distance_meters"%string = Some (VFloat (PyFloat.round d 2)) /\
        u !! "nearest_metro_id"%string = s !! "short_code"%string /\
        (forall k : string, k ∉ enrichment_keys -> u !! k = p !! k)) /\
    ([pandal_garia; pandal_briji] = [] -> r = Raise ValueError) /\
    ([pandal_garia; pandal_briji] <> [] -> exists lo hi : float, r = Ok (lo, hi)).
Proof.
  apply (process_one_record_per_pandal SmallAngle.sin SmallAngle.cos SmallAngle.asin
           SmallAngle.pow [pandal_garia; pandal_briji] [kavi_subhash; shahid_khudiram]).
  - discriminate.
  - repeat constructor; eexists; vm_compute; reflexivity.
  - repeat constructor.
    + exists (VFloat 22.4661), (VFloat 88.3920).
      split; [vm_compute; reflexivity|]. split; [vm_compute; reflexivity|].
      repeat constructor; eexists; split; vm_compute; reflexivity.
    + exists (VFloat 22.4790), (VFloat 88.3795).
      split; [vm_compute; reflexivity|]. split; [vm_compute; reflexivity|].
      repeat constructor; eexists; split; vm_compute; reflexivity.
Defined.

(** The first record of that run: the nearest station of the first query
    point is Kavi Subhash, 768.76 m away under the small-angle stand-in. *)
Example process_first_record :
  match process_pandals_with_metro_data SmallAngle.sin SmallAngle.cos SmallAngle.asin
          SmallAngle.pow [pandal_garia; pandal_briji] [kavi_subhash; shahid_khudiram] with
  | (Some out, statistics) =>
      match data out with
      | u :: _ =>
          (u !! "nearest_metro_id"%string, u !! "nearest_metro_distance_meters"%string,
           u !! "name"%string, statistics)
      | [] => (None, None, None, statistics)
      end
  | (None, statistics) => (None, None, None, statistics)
  end = (Some (VStr "KKVS"), Some (VFloat 768.76), Some (VStr "Garia Sarbojanin"),
         Ok (200.46, 768.76)%float).
Proof. vm_compute. reflexivity. Qed.

(** A run without query points writes a document without records, and
    then fails in the statistics: [min] of an empty list is a
    [ValueError]. *)
Example process_no_pandals :
  process_pandals_with_metro_data SmallAngle.sin SmallAngle.cos SmallAngle.asin
    SmallAngle.pow [] [kavi_subhash; shahid_khudiram]
  = (Some {| statusCode := 200; data := []; total_pandals := 0;
             metro_stations_used := 2; processing_completed := true |},
     Raise ValueError).
Proof. reflexivity. Qed.

(** C3 on the three test query points, the second of which has no
    latitude. *)
Lemma process_aborts_on_malformed_pandal_witness :
  exists e : exn,
    process_pandals_with_metro_data SmallAngle.sin SmallAngle.cos SmallAngle.asin
      SmallAngle.pow [pandal_garia; pandal_no_latitude; pandal_briji]
      [kavi_subhash; shahid_khudiram] = (None, Raise e).
Proof.
  apply (process_aborts_on_malformed_pandal SmallAngle.sin SmallAngle.cos
           SmallAngle.asin SmallAngle.pow [pandal_garia; pandal_no_latitude; pandal_briji]
           [kavi_subhash; shahid_khudiram]).
  exists pandal_no_latitude. split.
  - right. left.
  - left. vm_compute. reflexivity.
Defined.

(** C3, refuted as stated: with one query point that lacks its latitude
    between two good ones, the run produces no records at all; it ends
    with the [KeyError] of the missing key. *)
Lemma process_malformed_pandal_is_not_skipped :
  process_pandals_with_metro_data SmallAngle.sin SmallAngle.cos SmallAngle.asin
    SmallAngle.pow [pandal_garia; pandal_no_latitude; pandal_briji]
    [kavi_subhash; shahid_khudiram] = (None, Raise (KeyError "latitude")).
Proof. vm_compute. reflexivity. Qed.

(** ** Finite doubles and their decimal rendering *)

Module PyFloatFacts.

(** The values of [Prim2SF] that are numbers: zeros and finite doubles. *)
Definition SFfinite (x : spec_float) : bool :=
  match x with
  | S754_zero _ | S754_finite _ _ _ => true
  | S754_infinity _ | S754_nan => false
  end.

Lemma SFcompare_refl (x : spec_float) :
  x <> S754_nan -> SFcompare x x = Some Eq.
Proof.
  destruct x as [s|s| |s m e]; simpl; try congruence; intros _;
    try (destruct s; reflexivity).
  change (PosDef.Pos.compare_cont Eq m m) with (Pos.compare m m).
  rewrite Z.compare_refl, Pos.compare_refl. destruct s; reflexivity.
Qed.

Lemma is_nan_SF (x : float) :
  is_nan x = match Prim2SF x with S754_nan => true | _ => false end.
Proof.
  unfold is_nan. rewrite FloatAxioms.eqb_spec. unfold SFeqb.
  destruct (Prim2SF x) eqn:Hx; try reflexivity;
    rewrite SFcompare_refl by discriminate; reflexivity.
Qed.

Lemma is_infinity_SF (x : float) :
  is_infinity x = match Prim2SF x with S754_infinity _ => true | _ => false end.
Proof.
  unfold is_infinity. rewrite FloatAxioms.eqb_spec, abs_spec. unfold SFeqb.
  replace (Prim2SF infinity) with (S754_infinity false) by reflexivity.
  destruct (Prim2SF x) as [s|s| |s m e]; reflexivity.
Qed.

Lemma is_finite_SF (x : float) : is_finite x = SFfinite (Prim2SF x).
Proof.
  unfold is_finite. rewrite is_nan_SF, is_infinity_SF.
  destruct (Prim2SF x); reflexivity.
Qed.

Fixpoint no_dot (s : string) : bool :=
  match s with
  | EmptyString => true
  | String c rest => negb (Ascii.eqb c ".") && no_dot rest
  end.

Lemma split_dot_not_nil (s : string) : split_dot s <> [].
Proof.
  induction s as [|c rest IH]; simpl; [discriminate|].
  destruct (Ascii.eqb c "."); [discriminate|].
  destruct (split_dot rest); discriminate.
Qed.

Lemma split_dot_no_dot (s : string) : no_dot s = true -> split_dot s = [s].
Proof.
  induction s as [|c rest IH]; simpl; [reflexivity|].
  intros H. apply andb_prop in H as [Hc Hrest].
  destruct (Ascii.eqb c "."); [discriminate|].
  rewrite (IH Hrest). reflexivity.
Qed.

Lemma last_cons_not_nil {A : Type} (x d : A) (l : list A) :
  l <> [] -> List.last (x :: l) d = List.last l d.
Proof. destruct l; [congruence | reflexivity]. Qed.

Lemma append_cons (c : ascii) (a b : string) :
  (String c a ++ b)%string = String c (a ++ b).
Proof. reflexivity. Qed.

Lemma append_nil_l (b : string) : (EmptyString ++ b)%string = b.
Proof. reflexivity. Qed.

Lemma split_dot_two_fields (a b : string) :
  exists (f g : string) (fs : list string),
    split_dot (a ++ String "." b) = f :: g :: fs.
Proof.
  induction a as [|c a IH].
  - rewrite append_nil_l. simpl.
    destruct (split_dot b) as [|g fs] eqn:Hb; [destruct (split_dot_not_nil _ Hb)|].
    eauto.
  - rewrite append_cons. simpl. destruct IH as (f & g & fs & ->).
    destruct (Ascii.eqb c "."); eauto.
Qed.

Lemma last_split_dot_app (a b : string) :
  List.last (split_dot (a ++ String "." b)) EmptyString
  = List.last (split_dot b) EmptyString.
Proof.
  induction a as [|c a IH].
  - rewrite append_nil_l. simpl split_dot.
    apply last_cons_not_nil, split_dot_not_nil.
  - rewrite append_cons. simpl split_dot.
    destruct (split_dot_two_fields a b) as (f & g & fs & Hsplit).
    rewrite Hsplit in *.
    destruct (Ascii.eqb c ".").
    + rewrite last_cons_not_nil by discriminate. exact IH.
    + rewrite last_cons_not_nil by discriminate.
      rewrite last_cons_not_nil in IH by discriminate. exact IH.
Qed.

Lemma decimals_after_dot (a b : string) :
  no_dot b = true -> decimals (a ++ String "." b) = String.length b.
Proof.
  intros Hb. unfold decimals.
  rewrite last_split_dot_app, (split_dot_no_dot b Hb). reflexivity.
Qed.

Lemma append_assoc (a b c : string) : ((a ++ b) ++ c = a ++ (b ++ c))%string.
Proof.
  induction a as [|x a IH]; [reflexivity|].
  rewrite !append_cons, IH. reflexivity.
Qed.

Lemma length_append (a b : string) :
  String.length (a ++ b) = (String.length a + String.length b)%nat.
Proof.
  induction a as [|x a IH]; [reflexivity|].
  rewrite append_cons. simpl. rewrite IH. reflexivity.
Qed.

Lemma no_dot_append (a b : string) :
  no_dot a = true -> no_dot b = true -> no_dot (a ++ b) = true.
Proof.
  induction a as [|x a IH]; [auto|].
  rewrite append_cons. simpl.
  intros H Hb. apply andb_prop in H as [Hx Ha]. rewrite Hx, (IH Ha Hb). reflexivity.
Qed.

Lemma digit_char_not_dot (d : Z) :
  0 <= d < 10 -> Ascii.eqb (PyFloat.digit_char d) "." = false.
Proof.
  intros Hd.
  assert (H : d = 0 \/ d = 1 \/ d = 2 \/ d = 3 \/ d = 4 \/ d = 5 \/ d = 6 \/ d = 7
              \/ d = 8 \/ d = 9) by lia.
  repeat (destruct H as [-> | H]; [reflexivity|]). subst. reflexivity.
Qed.

Lemma fixed_digits_S (k : nat) (n : Z) :
  PyFloat.fixed_digits (S k) n
  = (PyFloat.fixed_digits k (n / 10)
     ++ String (PyFloat.digit_char (n mod 10)) EmptyString)%string.
Proof. reflexivity. Qed.

Lemma fixed_digits_spec (k : nat) (n : Z) :
  String.length (PyFloat.fixed_digits k n) = k /\ no_dot (PyFloat.fixed_digits k n) = true.
Proof.
  revert n. induction k as [|k IH]; intros n; [split; reflexivity|].
  rewrite fixed_digits_S.
  destruct (IH (n / 10)) as [Hlen Hdot]. split.
  - rewrite length_append, Hlen.
    change (String.length (String (PyFloat.digit_char (n mod 10)) EmptyString)) with 1%nat.
    lia.
  - apply no_dot_append; [assumption|].
    change (no_dot (String (PyFloat.digit_char (n mod 10)) EmptyString))
      with (negb (Ascii.eqb (PyFloat.digit_char (n mod 10)) ".") && true).
    rewrite digit_char_not_dot; [reflexivity|].
    apply Z.mod_pos_bound. lia.
Qed.

(** A number printed with [nd > 0] places has exactly [nd] characters
    after its last point, whatever its value. *)
Lemma decimals_format_f (x : float) (nd : nat) :
  SFfinite (Prim2SF x) = true -> decimals (PyFloat.format_f x nd) = nd.
Proof.
  intros Hx. unfold PyFloat.format_f.
  destruct (fixed_digits_spec nd
              (PyFloat.scaled_digits (Prim2SF x) (Z.of_nat nd) mod 10 ^ Z.of_nat nd))
    as [Hlen Hdot].
  destruct (Prim2SF x) as [s|s| |s m e] eqn:Hsf; try discriminate.
  - rewrite <- append_assoc.
    change ("." ++ ?b)%string with (String "." b).
    rewrite decimals_after_dot by assumption. assumption.
  - rewrite <- append_assoc.
    change ("." ++ ?b)%string with (String "." b).
    rewrite decimals_after_dot by assumption. assumption.
Qed.

End PyFloatFacts.

(** ** Arithmetic of binary64 values

    Facts about [PrimFloat]'s operations, derived from their
    specification in [SpecFloat]. *)

Module FloatArith.

(** *** Signs and symmetries of the operations *)

Lemma round_aux_negb (s : bool) (m e : Z) (l : location) :
  binary_round_aux prec emax (negb s) m e l
  = SFopp (binary_round_aux prec emax s m e l).
Proof.
  unfold binary_round_aux.
  destruct (shr_fexp prec emax m e l) as [mrs' e'].
  destruct (shr_fexp prec emax _ e' loc_Exact) as [mrs'' e''].
  destruct (shr_m mrs''); [reflexivity| |reflexivity].
  destruct (e'' <=? emax - prec); reflexivity.
Qed.

Lemma round_negb (s : bool) (m : positive) (e : Z) :
  binary_round prec emax (negb s) m e = SFopp (binary_round prec emax s m e).
Proof.
  unfold binary_round. destruct (shl_align m e _) as [mz ez]. apply round_aux_negb.
Qed.

Lemma SFopp_involutive (x : spec_float) : SFopp (SFopp x) = x.
Proof. destruct x; simpl; rewrite ?negb_involutive; reflexivity. Qed.

Lemma SFmul_comm (x y : spec_float) : SFmul prec emax x y = SFmul prec emax y x.
Proof.
  destruct x as [sx|sx| |sx mx ex], y as [sy|sy| |sy my ey]; simpl;
    rewrite ?(xorb_comm sx sy); try reflexivity.
  rewrite (Pos.mul_comm mx my), (Z.add_comm ex ey). reflexivity.
Qed.

Lemma SFdiv_opp_l (x y : spec_float) :
  SFdiv prec emax (SFopp x) y = SFopp (SFdiv prec emax x y).
Proof.
  destruct x as [sx|sx| |sx mx ex], y as [sy|sy| |sy my ey]; simpl;
    try reflexivity; try (destruct sx, sy; reflexivity).
  destruct (SFdiv_core_binary prec emax (Z.pos mx) ex (Z.pos my) ey) as [[mz ez] lz].
  rewrite <- round_aux_negb, negb_xorb_l. reflexivity.
Qed.

Lemma SFsub_antisym (x y : spec_float) :
  SFsub prec emax x y = SFopp (SFsub prec emax y x)
  \/ (SFsub prec emax x y = S754_zero false /\ SFsub prec emax y x = S754_zero false).
Proof.
  destruct x as [sx|sx| |sx mx ex], y as [sy|sy| |sy my ey];
    try (left; reflexivity);
    try (destruct sx, sy; simpl; auto; fail).
  cbn [SFsub]. rewrite (Z.min_comm ey ex).
  set (X := cond_Zopp sx (Z.pos (fst (shl_align mx ex (Z.min ex ey))))).
  set (Y := cond_Zopp sy (Z.pos (fst (shl_align my ey (Z.min ex ey))))).
  replace (Y - X) with (- (X - Y)) by lia.
  destruct (X - Y) as [|p|p]; cbn [Z.opp binary_normalize].
  - right. split; reflexivity.
  - left. apply (round_negb true).
  - left. apply (round_negb false).
Qed.

Lemma mul_comm (x y : float) : (x * y = y * x)%float.
Proof. apply Prim2SF_inj. rewrite !mul_spec. apply SFmul_comm. Qed.

Lemma opp_involutive (x : float) : (- - x = x)%float.
Proof. apply Prim2SF_inj. rewrite !opp_spec. apply SFopp_involutive. Qed.

Lemma div_opp_l (x y : float) : (- x / y = - (x / y))%float.
Proof. apply Prim2SF_inj. rewrite opp_spec, !div_spec, opp_spec. apply SFdiv_opp_l. Qed.

Lemma sub_antisym (x y : float) :
  (x - y = - (y - x))%float \/ ((x - y = 0)%float /\ (y - x = 0)%float).
Proof.
  destruct (SFsub_antisym (Prim2SF x) (Prim2SF y)) as [H | [H1 H2]].
  - left. apply Prim2SF_inj. rewrite opp_spec, !sub_spec. exact H.
  - right. split; apply Prim2SF_inj; rewrite sub_spec; assumption.
Qed.

(** *** Sizes of mantissas *)

Lemma digits2_size (p : positive) : digits2_pos p = Pos.size p.
Proof. induction p as [p IH|p IH|]; simpl; rewrite ?IH; reflexivity. Qed.

Lemma Zdigits2_log2 (m : Z) : 0 < m -> Zdigits2 m = Z.log2 m + 1.
Proof.
  destruct m as [|p|p]; try lia. intros _.
  destruct p as [p|p|]; cbn [Zdigits2 digits2_pos Z.log2];
    rewrite ?digits2_size; lia.
Qed.

Lemma Zdigits2_nonneg (m : Z) : 0 <= Zdigits2 m.
Proof. destruct m; simpl; lia. Qed.

Lemma Zdigits2_le (a b : Z) : 0 <= a <= b -> Zdigits2 a <= Zdigits2 b.
Proof.
  intros [Ha Hab].
  destruct (Z.eq_dec a 0) as [-> | Hne]; [apply Zdigits2_nonneg|].
  rewrite !Zdigits2_log2 by lia.
  pose proof (Z.log2_le_mono a b Hab). lia.
Qed.

Lemma Zdigits2_succ (a : Z) : 0 <= a -> Zdigits2 (a + 1) <= Zdigits2 a + 1.
Proof.
  intros Ha. destruct (Z.eq_dec a 0) as [-> | Hne]; [simpl; lia|].
  rewrite !Zdigits2_log2 by lia.
  pose proof (Z.log2_succ_le a). unfold Z.succ in *. lia.
Qed.

Lemma Zdigits2_mul (a b : positive) :
  Zdigits2 (Z.pos (a * b)) <= Z.pos (digits2_pos a) + Z.pos (digits2_pos b).
Proof.
  change (Z.pos (digits2_pos a)) with (Zdigits2 (Z.pos a)).
  change (Z.pos (digits2_pos b)) with (Zdigits2 (Z.pos b)).
  rewrite !Zdigits2_log2 by lia. rewrite Pos2Z.inj_mul.
  pose proof (Z.log2_mul_above (Z.pos a) (Z.pos b)). lia.
Qed.

Lemma Zdigits2_shiftr (m n : Z) :
  0 <= m -> 0 <= n -> Zdigits2 (Z.shiftr m n) + n <= Z.max (Zdigits2 m) n.
Proof.
  intros Hm Hn.
  assert (Hs : 0 <= Z.shiftr m n) by (apply Z.shiftr_nonneg; assumption).
  destruct (Z.eq_dec (Z.shiftr m n) 0) as [H0 | Hne].
  - rewrite H0. simpl. lia.
  - destruct (Z.eq_dec m 0) as [-> | Hm0]; [rewrite Z.shiftr_0_l in Hne; lia|].
    assert (Hlog : n <= Z.log2 m).
    { destruct (Z.lt_ge_cases (Z.log2 m) n) as [Hlt | Hge]; [|exact Hge].
      exfalso. apply Hne. apply Z.shiftr_eq_0; assumption. }
    rewrite !Zdigits2_log2 by lia.
    rewrite Z.log2_shiftr by lia. lia.
Qed.

(** *** The shifts of [binary_round_aux] *)

Lemma shr_1_m (mrs : shr_record) :
  0 <= shr_m mrs -> shr_m (shr_1 mrs) = Z.div2 (shr_m mrs).
Proof.
  destruct mrs as [m r s]. simpl. destruct m as [|p|p]; [reflexivity| |lia].
  intros _. destruct p; reflexivity.
Qed.

Lemma iter_shr_m (n : positive) :
  forall mrs : shr_record,
    0 <= shr_m mrs ->
    shr_m (SpecFloat.iter_pos shr_1 n mrs) = Z.shiftr (shr_m mrs) (Z.pos n).
Proof.
  induction n as [n IH|n IH|]; intros mrs Hm; cbn [SpecFloat.iter_pos].
  - assert (H1 : 0 <= shr_m (shr_1 mrs)).
    { rewrite shr_1_m by assumption. rewrite Z.div2_spec. apply Z.shiftr_nonneg. assumption. }
    assert (H2 : 0 <= shr_m (SpecFloat.iter_pos shr_1 n (shr_1 mrs))).
    { rewrite IH by assumption. apply Z.shiftr_nonneg. assumption. }
    rewrite IH by assumption. rewrite IH by assumption.
    rewrite shr_1_m by assumption. rewrite Z.div2_spec.
    rewrite !Z.shiftr_shiftr by lia. f_equal. rewrite Pos2Z.inj_xI. lia.
  - assert (H2 : 0 <= shr_m (SpecFloat.iter_pos shr_1 n mrs)).
    { rewrite IH by assumption. apply Z.shiftr_nonneg. assumption. }
    rewrite IH by assumption. rewrite IH by assumption.
    rewrite !Z.shiftr_shiftr by lia. f_equal. rewrite Pos2Z.inj_xO. lia.
  - rewrite shr_1_m by assumption. apply Z.div2_spec.
Qed.

Lemma shr_record_of_loc_m (m : Z) (l : location) : shr_m (shr_record_of_loc m l) = m.
Proof. destruct l as [|[]]; reflexivity. Qed.

(** The exponent and the mantissa that [shr_fexp] leaves. *)
Lemma shr_fexp_spec (m e : Z) (l : location) :
  0 <= m ->
  exists (mrs : shr_record) (e' : Z),
    shr_fexp prec emax m e l = (mrs, e') /\
    e' = Z.max e (fexp prec emax (Zdigits2 m + e)) /\
    shr_m mrs = Z.shiftr m (e' - e).
Proof.
  intros Hm. unfold shr_fexp, shr.
  destruct (fexp prec emax (Zdigits2 m + e) - e) as [|n|n] eqn:Hn.
  - eexists _, _. split; [reflexivity|]. split; [lia|].
    replace (e - e) with 0 by lia. rewrite Z.shiftr_0_r. apply shr_record_of_loc_m.
  - eexists _, _. split; [reflexivity|]. split; [lia|].
    rewrite iter_shr_m by (rewrite shr_record_of_loc_m; assumption).
    rewrite shr_record_of_loc_m. f_equal. lia.
  - eexists _, _. split; [reflexivity|]. split; [lia|].
    replace (e - e) with 0 by lia. rewrite Z.shiftr_0_r. apply shr_record_of_loc_m.
Qed.

Lemma round_nearest_even_bounds (m : Z) (l : location) :
  m <= round_nearest_even m l <= m + 1.
Proof. unfold round_nearest_even. destruct l as [|[]]; try destruct (Z.even m); lia. Qed.

(** Rounding a magnitude below [2^1023] does not overflow. *)
Lemma round_aux_finite (s : bool) (m e : Z) (l : location) :
  0 <= m -> Zdigits2 m + e <= 1023 -> e <= 970 ->
  PyFloatFacts.SFfinite (binary_round_aux prec emax s m e l) = true.
Proof.
  intros Hm Hd He. unfold binary_round_aux.
  destruct (shr_fexp_spec m e l Hm) as (mrs' & e' & -> & He' & Hm').
  set (m1 := round_nearest_even (shr_m mrs') (loc_of_shr_record mrs')).
  assert (Hm'0 : 0 <= shr_m mrs') by (rewrite Hm'; apply Z.shiftr_nonneg; assumption).
  pose proof (round_nearest_even_bounds (shr_m mrs') (loc_of_shr_record mrs')) as Hr.
  fold m1 in Hr.
  destruct (shr_fexp_spec m1 e' loc_Exact ltac:(lia)) as (mrs'' & e'' & -> & He'' & Hm'').
  assert (Hfexp : forall z, fexp prec emax z = Z.max (z - 53) (-1074)) by reflexivity.
  assert (Hpos : 0 <= shr_m mrs'') by (rewrite Hm''; apply Z.shiftr_nonneg; lia).
  assert (Hbound : e'' <= 971).
  { rewrite Hfexp in He', He''.
    assert (Hd1 : Zdigits2 m1 + e' <= 1024).
    { pose proof (Zdigits2_le m1 (shr_m mrs' + 1) ltac:(lia)).
      pose proof (Zdigits2_succ (shr_m mrs') Hm'0).
      pose proof (Zdigits2_shiftr m (e' - e) Hm ltac:(lia)).
      rewrite <- Hm' in *. pose proof (Zdigits2_nonneg m). lia. }
    lia. }
  destruct (shr_m mrs'') as [|p|p]; [reflexivity| |lia].
  change (emax - prec) with 971.
  destruct (Z.leb_spec e'' 971); [reflexivity | lia].
Qed.

(** *** Finite results *)

(** The mantissa of a double has at most 53 bits and its exponent is at
    most 971. *)
Lemma Prim2SF_finite_bounds (x : float) (s : bool) (m : positive) (e : Z) :
  Prim2SF x = S754_finite s m e -> Z.pos (digits2_pos m) <= 53 /\ e <= 971.
Proof.
  intros Hx. pose proof (Prim2SF_valid x) as Hv. rewrite Hx in Hv.
  unfold SpecFloat.valid_binary, bounded, canonical_mantissa in Hv.
  apply andb_prop in Hv as [Hc He].
  apply Z.eqb_eq in Hc. apply Z.leb_le in He.
  change (emax - prec) with 971 in He.
  change (fexp prec emax (Z.pos (digits2_pos m) + e))
    with (Z.max (Z.pos (digits2_pos m) + e - 53) (-1074)) in Hc.
  lia.
Qed.

Lemma SFmul_finite (x y : spec_float) :
  PyFloatFacts.SFfinite x = true -> PyFloatFacts.SFfinite y = true ->
  (forall sx mx ex sy my ey,
      x = S754_finite sx mx ex -> y = S754_finite sy my ey ->
      Z.pos (digits2_pos mx) + Z.pos (digits2_pos my) + (ex + ey) <= 1023
      /\ ex + ey <= 970) ->
  PyFloatFacts.SFfinite (SFmul prec emax x y) = true.
Proof.
  intros Hx Hy Hb.
  destruct x as [sx|sx| |sx mx ex], y as [sy|sy| |sy my ey];
    try discriminate; try reflexivity.
  destruct (Hb sx mx ex sy my ey eq_refl eq_refl) as [Hd He].
  cbn [SFmul]. apply round_aux_finite; [lia| |exact He].
  pose proof (Zdigits2_mul mx my). lia.
Qed.

Lemma sub_diag (x : float) : is_finite x = true -> (x - x = 0)%float.
Proof.
  rewrite PyFloatFacts.is_finite_SF. intros Hx.
  apply Prim2SF_inj. rewrite sub_spec.
  change (Prim2SF 0) with (S754_zero false).
  destruct (Prim2SF x) as [s|s| |s m e]; try discriminate.
  - destruct s; reflexivity.
  - unfold SF64sub. cbn [SFsub]. rewrite Z.sub_diag. reflexivity.
Qed.

(** A finite number times zero is a zero. *)
Lemma mul_zero_r (x : float) :
  is_finite x = true -> (x * 0 = 0)%float \/ (x * 0 = neg_zero)%float.
Proof.
  rewrite PyFloatFacts.is_finite_SF. intros Hx.
  assert (H : Prim2SF (x * 0) = S754_zero false \/ Prim2SF (x * 0) = S754_zero true).
  { rewrite mul_spec. change (Prim2SF 0) with (S754_zero false).
    destruct (Prim2SF x) as [s|s| |s m e]; try discriminate;
      destruct s; simpl; auto. }
  destruct H as [H | H]; [left | right]; apply Prim2SF_inj; rewrite H; reflexivity.
Qed.

(** Degrees to radians: no overflow. *)
Lemma mul_degToRad_finite (x : float) :
  is_finite x = true -> is_finite (x * PyFloat.degToRad) = true.
Proof.
  rewrite !PyFloatFacts.is_finite_SF, mul_spec. intros Hx.
  change (Prim2SF PyFloat.degToRad) with (S754_finite false 5030569068109113 (-58)).
  apply SFmul_finite; [assumption | reflexivity |].
  intros sx mx ex sy my ey Hsx Hsy. injection Hsy as <- <- <-.
  destruct (Prim2SF_finite_bounds x sx mx ex Hsx) as [Hd He].
  change (Z.pos (digits2_pos 5030569068109113)) with 53. lia.
Qed.

(** The product of two numbers of magnitude at most one is finite. *)
Lemma mul_unit_finite (x y : float) :
  (abs x <=? 1)%float = true -> (abs y <=? 1)%float = true ->
  is_finite (x * y) = true.
Proof.
  assert (Hunit : forall z s m e,
             (abs z <=? 1)%float = true -> Prim2SF z = S754_finite s m e ->
             Z.pos (digits2_pos m) <= 53 /\ e <= -52).
  { intros z s m e Hle Hz.
    destruct (Prim2SF_finite_bounds z s m e Hz) as [Hd _]. split; [exact Hd|].
    rewrite leb_spec, abs_spec, Hz in Hle.
    change (Prim2SF 1) with (S754_finite false 4503599627370496 (-52)) in Hle.
    unfold SFleb in Hle. cbn [SFabs SFcompare] in Hle.
    destruct (Z.compare_spec e (-52)); [lia | lia | discriminate]. }
  assert (Hfin : forall z, (abs z <=? 1)%float = true ->
                           PyFloatFacts.SFfinite (Prim2SF z) = true).
  { intros z Hle. rewrite leb_spec, abs_spec in Hle.
    destruct (Prim2SF z); try reflexivity; discriminate. }
  intros Hx Hy. rewrite PyFloatFacts.is_finite_SF, mul_spec.
  apply SFmul_finite; [apply Hfin, Hx | apply Hfin, Hy |].
  intros sx mx ex sy my ey Hsx Hsy.
  destruct (Hunit x sx mx ex Hx Hsx). destruct (Hunit y sy my ey Hy Hsy). lia.
Qed.

Lemma unit_finite (x : float) : (abs x <=? 1)%float = true -> is_finite x = true.
Proof.
  intros Hle. rewrite PyFloatFacts.is_finite_SF.
  rewrite leb_spec, abs_spec in Hle.
  destruct (Prim2SF x); try reflexivity; discriminate.
Qed.

(** *** Negation and the classification tests *)

Lemma is_nan_opp (x : float) : is_nan (- x) = is_nan x.
Proof. rewrite !PyFloatFacts.is_nan_SF, opp_spec. destruct (Prim2SF x); reflexivity. Qed.

Lemma is_infinity_opp (x : float) : is_infinity (- x) = is_infinity x.
Proof.
  rewrite !PyFloatFacts.is_infinity_SF, opp_spec. destruct (Prim2SF x); reflexivity.
Qed.

Lemma is_finite_opp (x : float) : is_finite (- x) = is_finite x.
Proof. unfold is_finite. rewrite is_nan_opp, is_infinity_opp. reflexivity. Qed.

Lemma abs_opp (x : float) : abs (- x) = abs x.
Proof.
  apply Prim2SF_inj. rewrite !abs_spec, opp_spec. destruct (Prim2SF x); reflexivity.
Qed.

Lemma opp_nan (x : float) : is_nan x = true -> (- x)%float = x.
Proof.
  rewrite PyFloatFacts.is_nan_SF. intros Hx. apply Prim2SF_inj. rewrite opp_spec.
  destruct (Prim2SF x); try discriminate. reflexivity.
Qed.

Lemma eqb_zero_opp (x : float) : (- x =? 0)%float = (x =? 0)%float.
Proof.
  rewrite !FloatAxioms.eqb_spec, opp_spec. change (Prim2SF 0) with (S754_zero false).
  destruct (Prim2SF x) as [s|s| |s m e]; try reflexivity; destruct s; reflexivity.
Qed.

(** Away from NaN and zero, negation flips the sign test. *)
Lemma ltb_zero_opp (x : float) :
  is_nan x = false -> (x =? 0)%float = false ->
  (- x <? 0)%float = negb (x <? 0)%float.
Proof.
  rewrite PyFloatFacts.is_nan_SF, FloatAxioms.eqb_spec, !ltb_spec, opp_spec.
  change (Prim2SF 0) with (S754_zero false).
  destruct (Prim2SF x) as [s|s| |s m e]; try discriminate; intros _ _;
    destruct s; reflexivity.
Qed.

End FloatArith.

(** ** Correct rounding between decimals and doubles *)

Module RoundFacts.

Import PyFloat.

(** *** Rounding a quotient to the nearest integer *)

Lemma div_half_even_cases (num den : Z) :
  0 < den ->
  let q := div_half_even num den in
  (q = num / den \/ q = num / den + 1) /\ 2 * Z.abs (q * den - num) <= den.
Proof.
  intros Hden. unfold div_half_even.
  pose proof (Z.div_mod num den ltac:(lia)) as Hdm.
  pose proof (Z.mod_pos_bound num den Hden) as Hmod.
  destruct (Z.compare_spec (2 * (num mod den)) den) as [H|H|H];
    [destruct (Z.even (num / den))| |]; split; auto; nia.
Qed.

Lemma div_half_even_error (num den : Z) :
  0 < den -> 2 * Z.abs (div_half_even num den * den - num) <= den.
Proof. intros H. apply (div_half_even_cases num den H). Qed.

(** An integer strictly within half a step of the quotient is the
    rounded quotient. *)
Lemma div_half_even_unique (num den q : Z) :
  0 < den -> 2 * Z.abs (q * den - num) < den -> div_half_even num den = q.
Proof.
  intros Hden Hq.
  destruct (div_half_even_cases num den Hden) as [Hc He].
  pose proof (Z.div_mod num den ltac:(lia)) as Hdm.
  pose proof (Z.mod_pos_bound num den Hden) as Hmod.
  unfold div_half_even in *.
  destruct (Z.compare_spec (2 * (num mod den)) den) as [H|H|H];
    [destruct (Z.even (num / den))| |]; nia.
Qed.

Lemma div_half_even_exact (q den : Z) : 0 < den -> div_half_even (q * den) den = q.
Proof. intros Hden. apply div_half_even_unique; [assumption|]. rewrite Z.sub_diag. simpl. lia. Qed.

Lemma div_half_even_between (num den a b : Z) :
  0 < den -> a * den <= num <= b * den -> a <= div_half_even num den <= b.
Proof.
  intros Hden [Ha Hb].
  destruct (div_half_even_cases num den Hden) as [Hc He].
  pose proof (Z.div_mod num den ltac:(lia)) as Hdm.
  pose proof (Z.mod_pos_bound num den Hden) as Hmod.
  unfold div_half_even in *.
  destruct (Z.compare_spec (2 * (num mod den)) den) as [H|H|H];
    [destruct (Z.even (num / den))| |]; nia.
Qed.

(** *** The exponent of a quotient *)

Lemma pow2_pos (k : Z) : 0 <= k -> 0 < 2 ^ k.
Proof. intros Hk. apply Z.pow_pos_nonneg; lia. Qed.

Lemma pow2_succ (k : Z) : 0 <= k -> 2 ^ (k + 1) = 2 * 2 ^ k.
Proof. intros Hk. rewrite Z.pow_add_r by lia. lia. Qed.

Lemma pow2_lt_double (a b : Z) : 0 <= a < b -> 2 * 2 ^ a <= 2 ^ b.
Proof.
  intros [Ha Hab]. rewrite <- pow2_succ by assumption.
  apply Z.pow_le_mono_r; lia.
Qed.

(** [k] is the exponent of [N2 / P]: the quotient at this exponent lies
    below [2^53], and not below [2^52] unless [k = 0]. *)
Definition exponent_of (N2 P k : Z) : Prop :=
  0 <= k /\ (k = 0 \/ 2 ^ 52 * (P * 2 ^ k) <= N2) /\ N2 < 2 ^ 53 * (P * 2 ^ k).

Lemma ratio_exponent_spec (N2 P : Z) :
  0 < N2 -> 0 < P -> exponent_of N2 P (ratio_exponent N2 P).
Proof.
  intros HN HP. unfold exponent_of, ratio_exponent.
  destruct (Z.log2_spec N2 HN) as [Ha1 Ha2].
  destruct (Z.log2_spec P HP) as [Hb1 Hb2].
  pose proof (Z.log2_nonneg N2) as Ha0. pose proof (Z.log2_nonneg P) as Hb0.
  set (a := Z.log2 N2) in *. set (b := Z.log2 P) in *.
  rewrite <- !Z.add_1_r in *.
  rewrite (pow2_succ a Ha0) in Ha2. rewrite (pow2_succ b Hb0) in Hb2.
  set (t := a - b).
  destruct (Z.leb_spec (P * 2 ^ t) N2) as [Hbr | Hbr].
  - (* 2^t <= N2 / P *)
    destruct (Z.max_spec (t - 52) 0) as [[Hk ->] | [Hk ->]].
    + (* k = 0 *)
      split; [lia|]. split; [left; reflexivity|].
      rewrite Z.pow_0_r, Z.mul_1_r.
      assert (2 ^ a <= 2 ^ (b + 52)) by (apply Z.pow_le_mono_r; lia).
      rewrite Z.pow_add_r in * by lia. nia.
    + split; [lia|]. split.
      * right. replace (2 ^ 52 * (P * 2 ^ (t - 52))) with (P * (2 ^ 52 * 2 ^ (t - 52))) by lia.
        rewrite <- Z.pow_add_r by lia. replace (52 + (t - 52)) with t by lia. exact Hbr.
      * replace (2 ^ 53 * (P * 2 ^ (t - 52))) with (2 * P * (2 ^ 52 * 2 ^ (t - 52))) by lia.
        rewrite <- Z.pow_add_r by lia. replace (52 + (t - 52)) with t by lia.
        assert (Hab : 2 ^ a = 2 ^ b * 2 ^ t).
        { rewrite <- Z.pow_add_r by lia. f_equal. lia. }
        pose proof (pow2_pos t ltac:(lia)). nia.
  - (* N2 / P < 2^t *)
    assert (Ht : 0 <= t).
    { destruct (Z.lt_ge_cases t 0) as [Hneg | Hge]; [|exact Hge].
      rewrite (Z.pow_neg_r 2 t Hneg) in Hbr. lia. }
    destruct (Z.max_spec (t - 53) 0) as [[Hk ->] | [Hk ->]].
    + split; [lia|]. split; [left; reflexivity|].
      rewrite Z.pow_0_r, Z.mul_1_r.
      assert (2 ^ t <= 2 ^ 53) by (apply Z.pow_le_mono_r; lia). nia.
    + split; [lia|]. split.
      * right.
        assert (Hab : 2 ^ a = 2 ^ b * 2 ^ t).
        { rewrite <- Z.pow_add_r by lia. f_equal. lia. }
        assert (Ht53 : 2 ^ t = 2 ^ 53 * 2 ^ (t - 53)).
        { rewrite <- Z.pow_add_r by lia. f_equal. lia. }
        pose proof (pow2_pos (t - 53) ltac:(lia)).
        change (2 ^ 53) with (2 * 2 ^ 52) in Ht53. nia.
      * replace (2 ^ 53 * (P * 2 ^ (t - 53))) with (P * (2 ^ 53 * 2 ^ (t - 53))) by lia.
        rewrite <- Z.pow_add_r by lia. replace (53 + (t - 53)) with t by lia. exact Hbr.
Qed.

Lemma exponent_of_unique (N2 P k k' : Z) :
  0 < P -> exponent_of N2 P k -> exponent_of N2 P k' -> k = k'.
Proof.
  assert (Hlt : forall a b, exponent_of N2 P a -> exponent_of N2 P b -> 0 < P -> ~ a < b).
  { intros a b (Ha0 & _ & Haup) (Hb0 & Hblow & _) HP Hab.
    destruct Hblow as [-> | Hblow]; [lia|].
    pose proof (pow2_lt_double a b ltac:(lia)).
    change (2 ^ 53) with (2 * 2 ^ 52) in Haup.
    pose proof (pow2_pos a Ha0). nia. }
  intros HP Hk Hk'.
  pose proof (Hlt k k' Hk Hk' HP). pose proof (Hlt k' k Hk' Hk HP). lia.
Qed.

Lemma ratio_exponent_unique (N2 P k : Z) :
  0 < N2 -> 0 < P -> exponent_of N2 P k -> ratio_exponent N2 P = k.
Proof.
  intros HN HP Hk.
  apply (exponent_of_unique N2 P _ _ HP (ratio_exponent_spec N2 P HN HP) Hk).
Qed.

(** *** The nearest double of a quotient *)

Abbreviation U := (2 ^ unit_exponent).

Lemma nearest_double_intro (s : bool) (N P k : Z) (m : positive) :
  0 < N -> 0 < P ->
  exponent_of (N * U) P k ->
  div_half_even (N * U) (P * 2 ^ k) = Z.pos m ->
  Z.pos m < 2 ^ 53 -> k <= 2045 ->
  nearest_double s N P = S754_finite s m (k - unit_exponent).
Proof.
  intros HN HP Hk Hm Hlt Hk'. unfold nearest_double.
  destruct (Z.leb_spec N 0) as [H|_]; [lia|]. cbv zeta.
  assert (HU : 0 < U) by (apply pow2_pos; unfold unit_exponent; lia).
  rewrite (ratio_exponent_unique (N * U) P k) by (assumption || nia).
  rewrite Hm.
  destruct (Z.eqb_spec (Z.pos m) (2 ^ 53)) as [H|_]; [lia|].
  destruct (Z.leb_spec (k - unit_exponent) 971) as [_|H];
    [reflexivity | unfold unit_exponent in H; lia].
Qed.

(** What a finite result of [nearest_double] looks like: it is canonical
    and lies within half a unit in the last place of the quotient. *)
Lemma nearest_double_finite_inv (s s' : bool) (N P : Z) (m : positive) (e : Z) :
  0 < P ->
  nearest_double s N P = S754_finite s' m e ->
  s' = s /\ 0 < N /\
  exists k : Z,
    e = k - unit_exponent /\ 0 <= k <= 2045 /\
    (k = 0 \/ 2 ^ 52 <= Z.pos m) /\ Z.pos m < 2 ^ 53 /\
    2 * Z.abs (Z.pos m * (P * 2 ^ k) - N * U) <= P * 2 ^ k.
Proof.
  intros HP. unfold nearest_double.
  destruct (Z.leb_spec N 0) as [H|HN]; [discriminate|]. cbv zeta.
  assert (HU : 0 < U) by (apply pow2_pos; unfold unit_exponent; lia).
  assert (HN2 : 0 < N * U) by nia.
  destruct (ratio_exponent_spec (N * U) P HN2 HP) as (Hk0 & Hlow & Hup).
  set (k := ratio_exponent (N * U) P) in *.
  pose proof (pow2_pos k Hk0) as H2k.
  assert (HD : 0 < P * 2 ^ k) by nia.
  pose proof (div_half_even_error (N * U) (P * 2 ^ k) HD) as Herr.
  assert (Hm53 : 0 <= div_half_even (N * U) (P * 2 ^ k) <= 2 ^ 53).
  { apply div_half_even_between; [assumption | lia]. }
  assert (Hm52 : k = 0 \/ 2 ^ 52 <= div_half_even (N * U) (P * 2 ^ k)).
  { destruct Hlow as [-> | Hlow]; [left; reflexivity | right].
    apply (div_half_even_between (N * U) (P * 2 ^ k) (2 ^ 52) (2 ^ 53) HD). lia. }
  set (m0 := div_half_even (N * U) (P * 2 ^ k)) in *.
  destruct (Z.eqb_spec m0 (2 ^ 53)) as [Heq | Hne].
  - change (2 ^ 52) with (Z.pos 4503599627370496).
    destruct (Z.leb_spec (k + 1 - unit_exponent) 971) as [Hle|_]; [|discriminate].
    intros H. injection H as <- <- <-.
    split; [reflexivity|]. split; [assumption|].
    exists (k + 1). unfold unit_exponent in Hle.
    split; [reflexivity|]. split; [lia|]. split; [right; lia|]. split; [lia|].
    rewrite pow2_succ by assumption.
    change (Z.pos 4503599627370496) with (2 ^ 52).
    change (2 ^ 53) with (2 * 2 ^ 52) in Heq. rewrite Heq in Herr. lia.
  - destruct m0 as [|p|p] eqn:Hm0; [discriminate| |discriminate].
    destruct (Z.leb_spec (k - unit_exponent) 971) as [Hle|_]; [|discriminate].
    intros H. injection H as <- <- <-.
    split; [reflexivity|]. split; [assumption|].
    exists k. unfold unit_exponent in Hle.
    split; [reflexivity|]. split; [lia|]. split; [assumption|]. split; [lia|].
    exact Herr.
Qed.

Lemma digits2_pos_53 (m : positive) :
  2 ^ 52 <= Z.pos m < 2 ^ 53 -> Z.pos (digits2_pos m) = 53.
Proof.
  intros [Hlo Hhi].
  change (Z.pos (digits2_pos m)) with (Zdigits2 (Z.pos m)).
  rewrite FloatArith.Zdigits2_log2 by lia.
  rewrite (Z.log2_unique (Z.pos m) 52); lia.
Qed.

Lemma digits2_pos_le_53 (m : positive) :
  Z.pos m < 2 ^ 53 -> Z.pos (digits2_pos m) <= 53.
Proof.
  intros Hhi.
  change (Z.pos (digits2_pos m)) with (Zdigits2 (Z.pos m)).
  rewrite FloatArith.Zdigits2_log2 by lia.
  assert (Z.log2 (Z.pos m) < 53) by (apply Z.log2_lt_pow2; lia). lia.
Qed.

Lemma nearest_double_valid (s : bool) (N P : Z) :
  0 < P -> SpecFloat.valid_binary prec emax (nearest_double s N P) = true.
Proof.
  intros HP. destruct (nearest_double s N P) as [s'|s'| |s' m e] eqn:Hnd; try reflexivity.
  destruct (nearest_double_finite_inv s s' N P m e HP Hnd)
    as (_ & _ & k & -> & Hk & Hlow & Hhi & _).
  unfold SpecFloat.valid_binary, bounded, canonical_mantissa, unit_exponent.
  apply andb_true_intro. split.
  - apply Z.eqb_eq.
    change (fexp prec emax (Z.pos (digits2_pos m) + (k - 1074)))
      with (Z.max (Z.pos (digits2_pos m) + (k - 1074) - 53) (-1074)).
    destruct Hlow as [-> | Hlow].
    + pose proof (digits2_pos_le_53 m Hhi). lia.
    + rewrite (digits2_pos_53 m) by lia. lia.
  - apply Z.leb_le. change (emax - prec) with 971. lia.
Qed.

Lemma Prim2SF_nearest_double (s : bool) (N P : Z) :
  0 < P -> Prim2SF (SF2Prim (nearest_double s N P)) = nearest_double s N P.
Proof. intros HP. apply Prim2SF_SF2Prim, nearest_double_valid, HP. Qed.

(** *** Rounding to seven places *)

Abbreviation P7 := (10 ^ 7).

(** Below [2^29] the doubles are closer to each other than [10^-7];
    from [2^29] on they are farther apart. *)
Lemma step_small (k : Z) : 0 <= k <= 1050 -> P7 * 2 ^ k < U.
Proof.
  intros Hk. unfold unit_exponent.
  assert (H : 2 ^ k <= 2 ^ 1050) by (apply Z.pow_le_mono_r; lia).
  change (2 ^ 1074) with (2 ^ 24 * 2 ^ 1050).
  pose proof (pow2_pos 1050 ltac:(lia)).
  change (10 ^ 7) with 10000000. change (2 ^ 24) with 16777216.
  generalize dependent (2 ^ 1050). generalize dependent (2 ^ k). intros. nia.
Qed.

Lemma step_large (k : Z) : 1051 <= k -> U < P7 * 2 ^ k.
Proof.
  intros Hk. unfold unit_exponent.
  assert (H : 2 ^ 1051 <= 2 ^ k) by (apply Z.pow_le_mono_r; lia).
  change (2 ^ 1074) with (2 ^ 23 * 2 ^ 1051).
  pose proof (pow2_pos 1051 ltac:(lia)).
  change (10 ^ 7) with 10000000. change (2 ^ 23) with 8388608.
  generalize dependent (2 ^ 1051). generalize dependent (2 ^ k). intros. nia.
Qed.

Lemma scaled_digits_finite (s : bool) (m : positive) (k : Z) :
  scaled_digits (S754_finite s m (k - unit_exponent)) 7
  = div_half_even (Z.pos m * 2 ^ k * P7) U.
Proof.
  unfold scaled_digits. replace (k - unit_exponent + unit_exponent) with k by lia.
  reflexivity.
Qed.

(** A double from [2^29] on is its own rounding to seven places. *)
Lemma nearest_double_of_large (s : bool) (m : positive) (k : Z) :
  1051 <= k <= 2045 -> 2 ^ 52 <= Z.pos m < 2 ^ 53 ->
  nearest_double s (div_half_even (Z.pos m * 2 ^ k * P7) U) P7
  = S754_finite s m (k - unit_exponent).
Proof.
  intros Hk Hm.
  assert (HU : 0 < U) by (apply pow2_pos; unfold unit_exponent; lia).
  assert (H2k : 0 < 2 ^ k) by (apply pow2_pos; lia).
  pose proof (step_large k ltac:(lia)) as Hstep.
  assert (HP : 0 < P7) by reflexivity.
  assert (Hexact : exists c, 2 ^ 52 * (P7 * 2 ^ k) = c * U /\ 0 < c).
  { exists (2 ^ (k - 1022) * P7). split.
    - unfold unit_exponent.
      replace (2 ^ 52 * (P7 * 2 ^ k)) with (P7 * (2 ^ 52 * 2 ^ k)) by ring.
      rewrite <- Z.pow_add_r by lia.
      replace (52 + k) with ((k - 1022) + 1074) by lia.
      rewrite Z.pow_add_r by lia. ring.
    - pose proof (pow2_pos (k - 1022)). nia. }
  revert Hexact.
  replace (Z.pos m * 2 ^ k * P7) with (Z.pos m * (P7 * 2 ^ k)) by ring.
  change (2 ^ 52) with 4503599627370496 in *.
  change (2 ^ 53) with 9007199254740992 in *.
  set (D := P7 * 2 ^ k) in *. set (u := U) in *.
  assert (HD : 0 < D) by (unfold D; nia).
  intros Hexact.
  pose proof (div_half_even_error (Z.pos m * D) u HU) as Herr.
  assert (HND : exponent_of (div_half_even (Z.pos m * D) u * u) P7 k
                /\ 0 < div_half_even (Z.pos m * D) u
                /\ 2 * Z.abs (Z.pos m * D - div_half_even (Z.pos m * D) u * u) < D).
  { unfold exponent_of. fold D.
    change (2 ^ 52) with 4503599627370496. change (2 ^ 53) with 9007199254740992.
    destruct (Z.eq_dec (Z.pos m) 4503599627370496) as [Heq | Hne].
    - destruct Hexact as (c & Hc & Hc0).
      rewrite Heq in *. rewrite Hc in *.
      rewrite div_half_even_exact in * by assumption.
      rewrite Z.sub_diag. simpl Z.abs.
      repeat split; try lia.
    - set (n := div_half_even (Z.pos m * D) u) in *.
      assert (HmD : 4503599627370497 * D <= Z.pos m * D <= 9007199254740991 * D) by nia.
      assert (Hn : 4503599627370496 * D <= n * u) by lia.
      repeat split; try lia. }
  destruct HND as (Hexp & Hpos & Herr').
  apply nearest_double_intro; try lia; try assumption.
  fold D. fold u. apply div_half_even_unique; [assumption|]. lia.
Qed.

(** The result of a rounding to seven places is its own rounding. *)
Lemma round_7_nearest_double (s : bool) (N : Z) :
  round (SF2Prim (nearest_double s N P7)) 7 = SF2Prim (nearest_double s N P7).
Proof.
  assert (HP : 0 < P7) by reflexivity.
  unfold round at 1. rewrite (Prim2SF_nearest_double s N P7 HP).
  destruct (nearest_double s N P7) as [s'|s'| |s' m e] eqn:Hnd; try reflexivity.
  destruct (nearest_double_finite_inv s s' N P7 m e HP Hnd)
    as (-> & HN & k & -> & Hk & Hlow & Hhi & Herr).
  f_equal. rewrite scaled_digits_finite.
  assert (HU : 0 < U) by (apply pow2_pos; unfold unit_exponent; lia).
  destruct (Z.le_gt_cases k 1050) as [Hsmall | Hlarge].
  - pose proof (step_small k ltac:(lia)) as Hstep.
    rewrite (div_half_even_unique (Z.pos m * 2 ^ k * P7) U N HU); [exact Hnd|].
    replace (N * U - Z.pos m * 2 ^ k * P7) with (- (Z.pos m * (P7 * 2 ^ k) - N * U)) by lia.
    rewrite Z.abs_opp. lia.
  - apply nearest_double_of_large; lia.
Qed.

Theorem round_7_idempotent (x : float) : round (round x 7) 7 = round x 7.
Proof.
  destruct (Prim2SF x) as [s|s| |s m e] eqn:Hx.
  - assert (H : round x 7 = x) by (unfold round; rewrite Hx; reflexivity).
    rewrite !H. reflexivity.
  - assert (H : round x 7 = x) by (unfold round; rewrite Hx; reflexivity).
    rewrite !H. reflexivity.
  - assert (H : round x 7 = x) by (unfold round; rewrite Hx; reflexivity).
    rewrite !H. reflexivity.
  - assert (H : round x 7
                = SF2Prim (nearest_double s (scaled_digits (Prim2SF x) 7) P7))
      by (unfold round; rewrite Hx; reflexivity).
    rewrite H. apply round_7_nearest_double.
Qed.

(** The mantissa and the exponent (in units) of a finite double. *)
Lemma Prim2SF_finite_inv (x : float) (s : bool) (m : positive) (e : Z) :
  Prim2SF x = S754_finite s m e ->
  exists k : Z,
    e = k - unit_exponent /\ 0 <= k <= 2045 /\
    (k = 0 \/ 2 ^ 52 <= Z.pos m) /\ Z.pos m < 2 ^ 53.
Proof.
  intros Hx. pose proof (Prim2SF_valid x) as Hv. rewrite Hx in Hv.
  unfold SpecFloat.valid_binary, bounded, canonical_mantissa in Hv.
  apply andb_prop in Hv as [Hc He].
  apply Z.eqb_eq in Hc. apply Z.leb_le in He.
  change (emax - prec) with 971 in He.
  change (fexp prec emax (Z.pos (digits2_pos m) + e))
    with (Z.max (Z.pos (digits2_pos m) + e - 53) (-1074)) in Hc.
  change (Z.pos (digits2_pos m)) with (Zdigits2 (Z.pos m)) in Hc.
  rewrite FloatArith.Zdigits2_log2 in Hc by lia.
  destruct (Z.log2_spec (Z.pos m) ltac:(lia)) as [Hlo Hhi].
  pose proof (Z.log2_nonneg (Z.pos m)) as Hl0.
  exists (e + 1074). unfold unit_exponent.
  split; [lia|]. split; [lia|].
  assert (Hcase : (e = -1074 /\ Z.log2 (Z.pos m) <= 52) \/ Z.log2 (Z.pos m) = 52) by lia.
  destruct Hcase as [[He0 Hl] | Hl].
  - split; [left; lia|].
    assert (2 ^ Z.succ (Z.log2 (Z.pos m)) <= 2 ^ 53) by (apply Z.pow_le_mono_r; lia).
    lia.
  - rewrite Hl in Hlo, Hhi. split; [right; exact Hlo | exact Hhi].
Qed.

Lemma nearest_double_no_overflow (s : bool) (N P : Z) :
  0 < P -> N * U < 2 ^ 52 * (P * 2 ^ 2045) ->
  PyFloatFacts.SFfinite (nearest_double s N P) = true.
Proof.
  intros HP Hbound. unfold nearest_double.
  destruct (Z.leb_spec N 0) as [H|HN]; [reflexivity|]. cbv zeta.
  assert (HU : 0 < U) by (apply pow2_pos; unfold unit_exponent; lia).
  assert (HN2 : 0 < N * U) by nia.
  destruct (ratio_exponent_spec (N * U) P HN2 HP) as (Hk0 & Hlow & Hup).
  set (k := ratio_exponent (N * U) P) in *.
  assert (Hk : k <= 2044).
  { destruct (Z.le_gt_cases k 2044) as [H | H]; [exact H|].
    destruct Hlow as [Hz | Hlow]; [lia|].
    assert (2 ^ 2045 <= 2 ^ k) by (apply Z.pow_le_mono_r; lia).
    pose proof (pow2_pos 2045 ltac:(lia)).
    change (2 ^ 52) with 4503599627370496 in *.
    generalize dependent (2 ^ 2045). generalize dependent (2 ^ k). intros. nia. }
  destruct (div_half_even (N * U) (P * 2 ^ k) =? 2 ^ 53).
  - change (2 ^ 52) with (Z.pos 4503599627370496).
    destruct (Z.leb_spec (k + 1 - unit_exponent) 971) as [_|H];
      [reflexivity | unfold unit_exponent in H; lia].
  - destruct (div_half_even (N * U) (P * 2 ^ k)); try reflexivity.
    destruct (Z.leb_spec (k - unit_exponent) 971) as [_|H];
      [reflexivity | unfold unit_exponent in H; lia].
Qed.

(** Rounding a number to seven places gives a number. *)
Lemma round_7_finite (x : float) :
  is_finite x = true -> is_finite (round x 7) = true.
Proof.
  rewrite !PyFloatFacts.is_finite_SF. intros Hfin. unfold round.
  destruct (Prim2SF x) as [s|s| |s m e] eqn:Hx; try discriminate.
  - rewrite Hx. reflexivity.
  - assert (HP : 0 < P7) by reflexivity.
    rewrite (Prim2SF_nearest_double _ _ _ HP).
    destruct (Prim2SF_finite_inv x s m e Hx) as (k & -> & Hk & Hlow & Hhi).
    rewrite scaled_digits_finite.
    assert (HU : 0 < U) by (apply pow2_pos; unfold unit_exponent; lia).
    destruct (Z.le_gt_cases k 1050) as [Hsmall | Hlarge].
    + apply nearest_double_no_overflow; [assumption|].
      pose proof (div_half_even_error (Z.pos m * 2 ^ k * P7) U HU) as Herr.
      pose proof (step_small k ltac:(lia)) as Hstep.
      assert (H2k : 0 < 2 ^ k) by (apply pow2_pos; lia).
      assert (H2045 : 2 * 2 ^ 1051 <= 2 ^ 2045) by (apply pow2_lt_double; lia).
      assert (H1051 : 2 * 2 ^ k <= 2 ^ 1051) by (apply pow2_lt_double; lia).
      assert (HU1051 : U <= P7 * 2 ^ 1051).
      { pose proof (step_large 1051 ltac:(lia)). lia. }
      change (2 ^ 52) with 4503599627370496 in *.
      change (2 ^ 53) with 9007199254740992 in *.
      set (n := div_half_even (Z.pos m * 2 ^ k * P7) U) in *.
      set (D := P7 * 2 ^ 1051) in *.
      assert (Hm : Z.pos m * 2 ^ k * P7 <= 4503599627370496 * D).
      { unfold D. generalize dependent (2 ^ 1051). generalize dependent (2 ^ k).
        intros. nia. }
      assert (Hn : n * U <= 4503599627370497 * D) by lia.
      assert (HD : 2 * D <= P7 * 2 ^ 2045) by (unfold D; nia).
      nia.
    + destruct Hlow as [Hz | Hlow]; [lia|].
      rewrite nearest_double_of_large by lia. reflexivity.
Qed.

(** *** Rounding inside a binade *)

(** A double between two positive doubles of one exponent has that
    exponent, and its mantissa lies between theirs. *)
Lemma between_same_exponent (a b x : float) (ma mb : positive) (e : Z) :
  Prim2SF a = S754_finite false ma e -> Prim2SF b = S754_finite false mb e ->
  (a <=? x)%float = true -> (x <=? b)%float = true ->
  exists m : positive,
    Prim2SF x = S754_finite false m e /\ Z.pos ma <= Z.pos m /\ Z.pos m <= Z.pos mb.
Proof.
  intros Ha Hb. rewrite !leb_spec, Ha, Hb. unfold SFleb.
  destruct (Prim2SF x) as [s|s| |s m ex]; cbn [SFcompare];
    try discriminate; try (destruct s; discriminate).
  destruct s; [discriminate|].
  change (PosDef.Pos.compare_cont Eq ma m) with (Pos.compare ma m).
  change (PosDef.Pos.compare_cont Eq m mb) with (Pos.compare m mb).
  destruct (Z.compare_spec e ex) as [<-|Hlt|Hgt]; [| |discriminate].
  - rewrite Z.compare_refl. intros H1 H2. exists m. split; [reflexivity|].
    change (Z.pos ma <= Z.pos m) with ((ma ?= m)%positive <> Gt).
    change (Z.pos m <= Z.pos mb) with ((m ?= mb)%positive <> Gt).
    split.
    + destruct (ma ?= m)%positive; congruence.
    + destruct (m ?= mb)%positive; congruence.
  - intros _. destruct (Z.compare_spec ex e); [lia | lia | discriminate].
Qed.

Lemma leb_same_exponent (a x : float) (ma m : positive) (e : Z) :
  Prim2SF a = S754_finite false ma e -> Prim2SF x = S754_finite false m e ->
  Z.pos ma <= Z.pos m -> (a <=? x)%float = true.
Proof.
  intros Ha Hx Hle. rewrite leb_spec, Ha, Hx. unfold SFleb. cbn [SFcompare].
  rewrite Z.compare_refl.
  change (PosDef.Pos.compare_cont Eq ma m) with (Pos.compare ma m).
  change (Z.pos ma <= Z.pos m) with ((ma ?= m)%positive <> Gt) in Hle.
  destruct (ma ?= m)%positive; congruence.
Qed.

(** Between two whole numbers [A <= B] of one binade, rounding to seven
    places stays between them; [c] is the number of mantissa steps in a
    whole. *)
Lemma round_7_same_exponent (x : float) (m : positive) (k A B c : Z) :
  0 <= k <= 2045 -> 0 < c -> c * 2 ^ k = U ->
  2 ^ 52 <= A * c -> B * c < 2 ^ 53 ->
  Prim2SF x = S754_finite false m (k - unit_exponent) ->
  A * c <= Z.pos m <= B * c ->
  exists m' : positive,
    Prim2SF (round x 7) = S754_finite false m' (k - unit_exponent) /\
    A * c <= Z.pos m' <= B * c.
Proof.
  intros Hk Hc HcU HA HB Hx Hm.
  assert (HP : 0 < P7) by reflexivity.
  assert (HU : 0 < U) by (apply pow2_pos; unfold unit_exponent; lia).
  assert (H2k : 0 < 2 ^ k) by (apply pow2_pos; lia).
  unfold round. rewrite Hx, scaled_digits_finite.
  rewrite (Prim2SF_nearest_double _ _ _ HP).
  change (2 ^ 52) with 4503599627370496 in *.
  change (2 ^ 53) with 9007199254740992 in *.
  set (N := div_half_even (Z.pos m * 2 ^ k * P7) U).
  assert (HA0 : 0 < A) by nia.
  assert (HN : A * P7 <= N <= B * P7).
  { apply div_half_even_between; [assumption|]. rewrite <- HcU. nia. }
  set (D := P7 * 2 ^ k).
  assert (HD : 0 < D) by (unfold D; nia).
  assert (HNU : (A * c) * D <= N * U <= (B * c) * D).
  { unfold D. rewrite <- HcU. nia. }
  pose proof (div_half_even_between (N * U) D (A * c) (B * c) HD HNU) as Hm'.
  destruct (div_half_even (N * U) D) as [|m'|m'] eqn:Hdiv; try lia.
  exists m'. split; [|exact Hm'].
  apply nearest_double_intro; try lia.
  - fold D. unfold exponent_of.
    change (2 ^ 52) with 4503599627370496. change (2 ^ 53) with 9007199254740992.
    split; [lia|]. split; [right; nia | nia].
  - exact Hdiv.
Qed.

End RoundFacts.

(** ** The precision checks *)

(** A station record with a name and two finite floats as coordinates. *)
Definition numeric_station (s : pydict) : Prop :=
  is_Some (s !! "name"%string) /\
  exists lat lng : float,
    s !! "latitude"%string = Some (VFloat lat) /\
    s !! "longitude"%string = Some (VFloat lng) /\
    is_finite lat = true /\ is_finite lng = true.

Lemma decimals_format_7f (x : float) :
  is_finite x = true -> decimals (PyFloat.format_f x 7) = 7%nat.
Proof.
  intros Hx. apply PyFloatFacts.decimals_format_f.
  rewrite <- PyFloatFacts.is_finite_SF. exact Hx.
Qed.

(** The check of [verify_coordinate_precision] cannot fail on numbers: the
    seven places it counts are the ones it has just asked the formatting
    for. *)
Lemma verify_loop_numeric (stations : list pydict) (all_correct : bool) :
  Forall numeric_station stations ->
  verify_loop stations all_correct = Ok all_correct.
Proof.
  intros Hall. revert all_correct.
  induction Hall as [|s rest Hs Hrest IH]; intros all_correct; [reflexivity|].
  destruct Hs as ([name Hname] & lat & lng & Hlat & Hlng & Hflat & Hflng).
  cbn [verify_loop]. unfold get_or_zero, getitem.
  rewrite Hlat, Hlng, Hname. cbn [default from_option id format_7f bind].
  rewrite !decimals_format_7f by assumption.
  cbn [Nat.eqb andb negb]. apply IH.
Qed.

Lemma verify_accepts_every_number (stations : list pydict) :
  Forall numeric_station stations ->
  verify_coordinate_precision stations = Ok true.
Proof. apply verify_loop_numeric. Qed.

(** C5, at the failing input. Shahid Khudiram is stored as (22.48,
    88.381): two and three places, which is what rounding to two and to
    three places leaving the values unchanged says.  Rendered with seven
    places both have seven places, and the check answers [True]. *)
Theorem verify_accepts_short_coordinates :
  PyFloat.round 22.48 2 = 22.48%float /\
  PyFloat.round 88.381 3 = 88.381%float /\
  PyFloat.format_f 22.48 7 = "22.4800000"%string /\
  decimals (PyFloat.format_f 22.48 7) = 7%nat /\
  verify_coordinate_precision [shahid_khudiram] = Ok true.
Proof. conjuncts; vm_compute; reflexivity. Qed.

Section ScraperFacts.

Variable get_coordinates : value -> value * value.

Lemma already_precise_numeric (s : pydict) :
  numeric_station s -> already_precise s = Ok true.
Proof.
  intros (_ & lat & lng & Hlat & Hlng & Hflat & Hflng).
  unfold already_precise. rewrite Hlat, Hlng.
  cbn [is_number andb format_7f bind].
  rewrite !decimals_format_7f by assumption. reflexivity.
Qed.

(** A resolve-all pass never touches a station that has numbers as
    coordinates, and never asks the resolver about it. *)
Lemma scrape_loop_numeric (stations : list pydict) :
  Forall numeric_station stations ->
  forall (done : list pydict) (updated_count : Z) (failed_stations : list value),
    scrape_loop get_coordinates stations done updated_count failed_stations
    = Ok (done ++ stations, updated_count, failed_stations).
Proof.
  intros Hall. induction Hall as [|s rest Hs Hrest IH]; intros done n failed.
  - rewrite app_nil_r. reflexivity.
  - cbn [scrape_loop].
    rewrite (already_precise_numeric s Hs).
    destruct Hs as ([name Hname] & _). unfold getitem. rewrite Hname.
    cbn [bind]. rewrite IH, <- app_assoc. reflexivity.
Qed.

(** C6, at the failing input. Shahid Khudiram's coordinates are present
    with two and three places only; whatever the resolver would answer,
    the resolve-all pass leaves the station as it is, counts no update
    and no failure. *)
Theorem scrape_all_keeps_short_coordinates :
  PyFloat.round 22.48 2 = 22.48%float /\
  PyFloat.round 88.381 3 = 88.381%float /\
  already_precise shahid_khudiram = Ok true /\
  scrape_all_coordinates get_coordinates [kavi_subhash; shahid_khudiram]
  = Ok (Some ([kavi_subhash; shahid_khudiram], 0, [])).
Proof.
  split; [vm_compute; reflexivity|]. split; [vm_compute; reflexivity|].
  split; [vm_compute; reflexivity|].
  unfold scrape_all_coordinates.
  rewrite scrape_loop_numeric; [reflexivity|].
  repeat constructor; try (eexists; vm_compute; reflexivity);
    do 2 eexists; conjuncts; vm_compute; reflexivity.
Qed.

(** The same pass does resolve a station whose coordinates are missing. *)
Lemma scrape_all_resolves_missing (name : string) (lat lng : float) :
  get_coordinates (VStr name) = (VFloat lat, VFloat lng) ->
  scrape_all_coordinates get_coordinates [ {[ "name"%string := VStr name ]} ]
  = Ok (Some ([ <[ "longitude"%string := VFloat (PyFloat.round lng 7) ]>
                (<[ "latitude"%string := VFloat (PyFloat.round lat 7) ]>
                 {[ "name"%string := VStr name ]}) ], 1, [])).
Proof.
  intros Hget. unfold scrape_all_coordinates. cbn [scrape_loop].
  unfold getitem, already_precise.
  rewrite lookup_singleton_eq.
  rewrite !lookup_singleton_ne by (intro; discriminate).
  cbn [bind]. rewrite Hget. reflexivity.
Qed.

End ScraperFacts.

(** ** The great-circle distance *)

Section HaversineFacts.

Variables libm_sin libm_cos libm_asin : float -> float.
Variable libm_pow : float -> float -> float.

Let msin := math_sin libm_sin.
Let mcos := math_cos libm_cos.
Let masin := math_asin libm_asin.
Let haversine := haversine_distance libm_sin libm_cos libm_asin libm_pow.

(** [math.sin(z / 2) ** 2], the term that occurs twice in the formula. *)
Definition half_chord (z : float) : result float :=
  let* s := msin (z / 2)%float in PyFloat.float_pow_2 libm_pow s.

(** The last steps of the formula, from the two squared half-chords and
    the product of the cosines. *)
Definition central_angle (p1 cc p2 : float) : result float :=
  let a := (p1 + cc * p2)%float in
  let* q := PyFloat.math_sqrt a in
  let* t := masin q in
  Ok (2 * t * 6371000)%float.

Lemma haversine_floats (lat1 lon1 lat2 lon2 : float) :
  haversine (VFloat lat1) (VFloat lon1) (VFloat lat2) (VFloat lon2)
  = let r1 := (lat1 * PyFloat.degToRad)%float in
    let r2 := (lat2 * PyFloat.degToRad)%float in
    let* p1 := half_chord (r2 - r1)%float in
    let* c1 := mcos r1 in
    let* c2 := mcos r2 in
    let* p2 := half_chord (lon2 * PyFloat.degToRad - lon1 * PyFloat.degToRad)%float in
    central_angle p1 (c1 * c2)%float p2.
Proof.
  unfold haversine, haversine_distance, half_chord, central_angle, msin, mcos, masin.
  cbn [PyFloat.math_radians PyFloat.as_double bind].
  destruct (math_sin libm_sin _) as [s1|e1]; [|reflexivity]. cbn [bind].
  destruct (PyFloat.float_pow_2 libm_pow s1) as [p1|e1]; [|reflexivity]. cbn [bind].
  destruct (math_cos libm_cos _) as [c1|e1]; [|reflexivity]. cbn [bind].
  destruct (math_cos libm_cos _) as [c2|e1]; [|reflexivity]. cbn [bind].
  destruct (math_sin libm_sin _) as [s2|e1]; [|reflexivity]. cbn [bind].
  destruct (PyFloat.float_pow_2 libm_pow s2) as [p2|e1]; reflexivity.
Qed.

Lemma math_1_zero (func : float -> float) :
  func 0%float = 0%float -> PyFloat.math_1 func false 0 = Ok 0%float.
Proof. intros H. unfold PyFloat.math_1. rewrite H. reflexivity. Qed.

Lemma math_1_unit (func : float -> float) (x : float) :
  (abs (func x) <=? 1)%float = true -> PyFloat.math_1 func false x = Ok (func x).
Proof.
  intros H. apply FloatArith.unit_finite in H.
  unfold is_finite in H. apply negb_true_iff, orb_false_iff in H as [Hnan Hinf].
  unfold PyFloat.math_1. rewrite Hnan, Hinf. reflexivity.
Qed.

Lemma math_1_raises (func : float -> float) (x : float) (e : exn) :
  PyFloat.math_1 func false x = Raise e -> e = ValueError.
Proof.
  unfold PyFloat.math_1.
  destruct (is_nan (func x) && negb (is_nan x)); [congruence|].
  destruct (is_infinity (func x) && is_finite x); congruence.
Qed.

Lemma math_1_opp (func : float -> float) (x : float) :
  func (- x)%float = (- func x)%float ->
  PyFloat.math_1 func false (- x)
  = match PyFloat.math_1 func false x with
    | Ok r => Ok (- r)%float
    | Raise e => Raise e
    end.
Proof.
  intros H. unfold PyFloat.math_1. rewrite H.
  rewrite !FloatArith.is_nan_opp, !FloatArith.is_infinity_opp, FloatArith.is_finite_opp.
  destruct (is_nan (func x) && negb (is_nan x)); [reflexivity|].
  destruct (is_infinity (func x) && is_finite x); reflexivity.
Qed.

Lemma float_pow_2_opp (s : float) :
  PyFloat.float_pow_2 libm_pow (- s) = PyFloat.float_pow_2 libm_pow s.
Proof.
  unfold PyFloat.float_pow_2.
  rewrite FloatArith.is_nan_opp, FloatArith.is_infinity_opp, FloatArith.eqb_zero_opp,
    FloatArith.abs_opp.
  destruct (is_nan s) eqn:Hnan; [rewrite (FloatArith.opp_nan s Hnan); reflexivity|].
  destruct (is_infinity s); [reflexivity|].
  destruct (s =? 0)%float eqn:Hz; [reflexivity|].
  rewrite (FloatArith.ltb_zero_opp s Hnan Hz), FloatArith.opp_involutive.
  destruct (s <? 0)%float; reflexivity.
Qed.

Lemma half_chord_opp (z : float) :
  (forall x : float, libm_sin (- x) = (- libm_sin x)%float) ->
  half_chord (- z) = half_chord z.
Proof.
  intros Hodd. unfold half_chord, msin, math_sin.
  rewrite FloatArith.div_opp_l, (math_1_opp libm_sin _ (Hodd _)).
  destruct (PyFloat.math_1 libm_sin false (z / 2)) as [s|e]; [|reflexivity].
  cbn [bind]. apply float_pow_2_opp.
Qed.

Lemma half_chord_sub_sym (u v : float) :
  (forall x : float, libm_sin (- x) = (- libm_sin x)%float) ->
  half_chord (u - v) = half_chord (v - u).
Proof.
  intros Hodd. destruct (FloatArith.sub_antisym u v) as [H | [H1 H2]].
  - rewrite H. apply half_chord_opp, Hodd.
  - rewrite H1, H2. reflexivity.
Qed.

Lemma half_chord_zero :
  libm_sin 0%float = 0%float -> half_chord 0 = Ok 0%float.
Proof.
  intros H. unfold half_chord, msin, math_sin.
  change (0 / 2)%float with 0%float. rewrite (math_1_zero libm_sin H). reflexivity.
Qed.

(** C8. For finite coordinates, and a C library whose [sin] and [asin]
    map zero to zero and whose [cos] of a finite number lies in [-1, 1],
    the distance
    from a point to itself is [0.0]; for a C library whose [sin] is odd,
    the distance between two points of float coordinates is the same
    float (or the same exception) in both directions. *)
Theorem haversine_zero_and_symmetric :
  libm_sin 0%float = 0%float ->
  libm_asin 0%float = 0%float ->
  (forall x : float, is_finite x = true -> (abs (libm_cos x) <=? 1)%float = true) ->
  (forall x : float, libm_sin (- x) = (- libm_sin x)%float) ->
  (forall lat lon : float,
      is_finite lat = true -> is_finite lon = true ->
      haversine_distance libm_sin libm_cos libm_asin libm_pow
        (VFloat lat) (VFloat lon) (VFloat lat) (VFloat lon) = Ok 0%float) /\
  (forall lat1 lon1 lat2 lon2 : float,
      haversine_distance libm_sin libm_cos libm_asin libm_pow
        (VFloat lat1) (VFloat lon1) (VFloat lat2) (VFloat lon2)
      = haversine_distance libm_sin libm_cos libm_asin libm_pow
          (VFloat lat2) (VFloat lon2) (VFloat lat1) (VFloat lon1)).
Proof.
  intros Hsin0 Hasin0 Hcos Hodd. split.
  - intros lat lon Hlat Hlon. fold haversine. rewrite haversine_floats. cbv zeta.
    pose proof (FloatArith.mul_degToRad_finite lat Hlat) as Hr1.
    pose proof (FloatArith.mul_degToRad_finite lon Hlon) as Hr2.
    rewrite !FloatArith.sub_diag by assumption.
    rewrite (half_chord_zero Hsin0). cbn [bind].
    unfold mcos, math_cos. rewrite (math_1_unit libm_cos _ (Hcos _ Hr1)). cbn [bind].
    unfold central_angle.
    set (cc := (libm_cos (lat * PyFloat.degToRad) * libm_cos (lat * PyFloat.degToRad))%float).
    assert (Ha : (0 + cc * 0 = 0)%float).
    { destruct (FloatArith.mul_zero_r cc) as [-> | ->]; try reflexivity.
      apply FloatArith.mul_unit_finite; apply Hcos, Hr1. }
    rewrite Ha. change (PyFloat.math_sqrt 0) with (@Ok float 0%float). cbn [bind].
    unfold masin, math_asin. rewrite (math_1_zero libm_asin Hasin0). reflexivity.
  - intros lat1 lon1 lat2 lon2. fold haversine. rewrite !haversine_floats. cbv zeta.
    rewrite (half_chord_sub_sym (lat2 * PyFloat.degToRad) (lat1 * PyFloat.degToRad) Hodd).
    rewrite (half_chord_sub_sym (lon2 * PyFloat.degToRad) (lon1 * PyFloat.degToRad) Hodd).
    destruct (half_chord (lat1 * PyFloat.degToRad - lat2 * PyFloat.degToRad))
      as [p1|e]; [|reflexivity]. cbn [bind].
    destruct (mcos (lat1 * PyFloat.degToRad)) as [c1|e1] eqn:H1;
      destruct (mcos (lat2 * PyFloat.degToRad)) as [c2|e2] eqn:H2; cbn [bind];
      try reflexivity.
    + rewrite (FloatArith.mul_comm c2 c1). reflexivity.
    + apply math_1_raises in H1, H2. subst. reflexivity.
Qed.

End HaversineFacts.

(** C8 with the small-angle stand-in for the C library. *)
Lemma haversine_zero_and_symmetric_witness :
  (forall lat lon : float,
      is_finite lat = true -> is_finite lon = true ->
      haversine_distance SmallAngle.sin SmallAngle.cos SmallAngle.asin SmallAngle.pow
        (VFloat lat) (VFloat lon) (VFloat lat) (VFloat lon) = Ok 0%float) /\
  (forall lat1 lon1 lat2 lon2 : float,
      haversine_distance SmallAngle.sin SmallAngle.cos SmallAngle.asin SmallAngle.pow
        (VFloat lat1) (VFloat lon1) (VFloat lat2) (VFloat lon2)
      = haversine_distance SmallAngle.sin SmallAngle.cos SmallAngle.asin SmallAngle.pow
          (VFloat lat2) (VFloat lon2) (VFloat lat1) (VFloat lon1)).
Proof.
  apply (haversine_zero_and_symmetric SmallAngle.sin SmallAngle.cos SmallAngle.asin
           SmallAngle.pow).
  - reflexivity.
  - reflexivity.
  - intros x _. reflexivity.
  - intros x. reflexivity.
Defined.

(** The two fixture points of central Kolkata, both ways. *)
Example haversine_fixture_both_ways :
  haversine_distance SmallAngle.sin SmallAngle.cos SmallAngle.asin SmallAngle.pow
    (VFloat 22.5726) (VFloat 88.3639) (VFloat 22.5448) (VFloat 88.3426)
  = Ok 3894.2520775490407%float /\
  haversine_distance SmallAngle.sin SmallAngle.cos SmallAngle.asin SmallAngle.pow
    (VFloat 22.5448) (VFloat 88.3426) (VFloat 22.5726) (VFloat 88.3639)
  = Ok 3894.2520775490407%float.
Proof. conjuncts; vm_compute; reflexivity. Qed.

(** ** Reading a rendering back

  [float] reads the rendering of a finite double with [nd] places back
  as the rounding of the double to [nd] places. *)

Module ReadBack.

Import PyFloat.

Lemma text_of_string_cons (c : ascii) (s : string) :
  text_of_string (String c s) = code c :: text_of_string s.
Proof. reflexivity. Qed.

Lemma text_of_string_app (a b : string) :
  text_of_string (a ++ b) = text_of_string a ++ text_of_string b.
Proof.
  induction a as [|c a IH].
  - rewrite PyFloatFacts.append_nil_l. reflexivity.
  - rewrite PyFloatFacts.append_cons, !text_of_string_cons, IH. reflexivity.
Qed.

(** The number that a string of decimal digits adds to [acc]. *)
Fixpoint uint_read (d : Decimal.uint) (acc : Z) : Z :=
  match d with
  | Decimal.Nil => acc
  | Decimal.D0 l => uint_read l (10 * acc + 0)
  | Decimal.D1 l => uint_read l (10 * acc + 1)
  | Decimal.D2 l => uint_read l (10 * acc + 2)
  | Decimal.D3 l => uint_read l (10 * acc + 3)
  | Decimal.D4 l => uint_read l (10 * acc + 4)
  | Decimal.D5 l => uint_read l (10 * acc + 5)
  | Decimal.D6 l => uint_read l (10 * acc + 6)
  | Decimal.D7 l => uint_read l (10 * acc + 7)
  | Decimal.D8 l => uint_read l (10 * acc + 8)
  | Decimal.D9 l => uint_read l (10 * acc + 9)
  end.

Lemma read_digits_digit (k : Z) (t : text) (acc : Z) (count : nat) :
  0 <= k <= 9 ->
  read_digits ((48 + k) :: t) acc count = read_digits t (10 * acc + k) (S count).
Proof.
  intros Hk. cbn [read_digits].
  replace ((48 <=? 48 + k) && (48 + k <=? 57)) with true
    by (symmetry; apply andb_true_intro; split; apply Z.leb_le; lia).
  replace (48 + k - 48) with k by lia. reflexivity.
Qed.

Lemma read_digits_stop (c : Z) (t : text) (acc : Z) (count : nat) :
  (48 <=? c) && (c <=? 57) = false ->
  read_digits (c :: t) acc count = (acc, count, c :: t).
Proof. intros Hc. cbn [read_digits]. rewrite Hc. reflexivity. Qed.

Ltac read_one_digit k IH :=
  rewrite text_of_string_cons;
  match goal with
  | |- context [code ?c] => change (code c) with (48 + k)
  end;
  rewrite <- app_comm_cons, read_digits_digit by lia;
  rewrite IH; f_equal; lia.

Lemma read_digits_uint (d : Decimal.uint) (rest : text) :
  forall (acc : Z) (count : nat),
    read_digits (text_of_string (NilEmpty.string_of_uint d) ++ rest) acc count
    = read_digits rest (uint_read d acc) (count + Decimal.nb_digits d)%nat.
Proof.
  induction d as [|d IH|d IH|d IH|d IH|d IH|d IH|d IH|d IH|d IH|d IH];
    intros acc count; cbn [NilEmpty.string_of_uint uint_read Decimal.nb_digits].
  - cbn [text_of_string list_ascii_of_string map app]. f_equal. lia.
  - read_one_digit 0 IH.
  - read_one_digit 1 IH.
  - read_one_digit 2 IH.
  - read_one_digit 3 IH.
  - read_one_digit 4 IH.
  - read_one_digit 5 IH.
  - read_one_digit 6 IH.
  - read_one_digit 7 IH.
  - read_one_digit 8 IH.
  - read_one_digit 9 IH.
Qed.

Lemma uint_read_acc (d : Decimal.uint) (acc : positive) :
  uint_read d (Z.pos acc) = Z.pos (Pos.of_uint_acc d acc).
Proof.
  revert acc. induction d; intros acc; cbn [uint_read Pos.of_uint_acc];
    [reflexivity | ..];
    match goal with
    | |- uint_read _ ?z = Z.pos (Pos.of_uint_acc _ ?p) =>
        replace z with (Z.pos p) by lia
    end; apply IHd.
Qed.

Lemma uint_read_of_uint (d : Decimal.uint) : uint_read d 0 = Z.of_N (Pos.of_uint d).
Proof.
  induction d; cbn [uint_read Pos.of_uint]; [reflexivity | exact IHd | ..];
    match goal with
    | |- uint_read _ ?z = Z.of_N (N.pos (Pos.of_uint_acc _ ?p)) =>
        change z with (Z.pos p)
    end; apply uint_read_acc.
Qed.

(** The digits of an integer read back as the integer. *)
Lemma read_digits_int (q : Z) (rest : text) (count : nat) :
  0 <= q ->
  exists ni : nat,
    read_digits (text_of_string (int_digits q) ++ rest) 0 count
    = read_digits rest q (count + ni)%nat.
Proof.
  intros Hq. unfold int_digits. rewrite read_digits_uint, uint_read_of_uint.
  change (Pos.of_uint (N.to_uint (Z.to_N q))) with (N.of_uint (N.to_uint (Z.to_N q))).
  rewrite DecimalN.Unsigned.of_to, Z2N.id by exact Hq.
  eexists. reflexivity.
Qed.

Lemma code_digit_char (k : Z) : 0 <= k <= 9 -> code (digit_char k) = 48 + k.
Proof.
  intros Hk. unfold code, digit_char.
  rewrite nat_ascii_embedding by lia. lia.
Qed.

Lemma read_digits_fixed (k : nat) :
  forall (n : Z) (rest : text) (acc : Z) (count : nat),
    read_digits (text_of_string (fixed_digits k n) ++ rest) acc count
    = read_digits rest (acc * 10 ^ Z.of_nat k + n mod 10 ^ Z.of_nat k) (count + k)%nat.
Proof.
  induction k as [|k IH]; intros n rest acc count.
  - cbn [fixed_digits text_of_string list_ascii_of_string map app].
    change (10 ^ Z.of_nat 0) with 1. rewrite Z.mod_1_r. f_equal; lia.
  - rewrite PyFloatFacts.fixed_digits_S, text_of_string_app, <- app_assoc.
    rewrite text_of_string_cons.
    cbn [text_of_string list_ascii_of_string map app].
    rewrite IH.
    pose proof (Z.mod_pos_bound n 10 ltac:(lia)) as Hd.
    rewrite code_digit_char by lia.
    rewrite read_digits_digit by lia.
    f_equal; [|lia].
    rewrite Nat2Z.inj_succ, Z.pow_succ_r by lia.
    assert (Hp : 0 < 10 ^ Z.of_nat k) by (apply Z.pow_pos_nonneg; lia).
    rewrite Z.rem_mul_r by lia. ring.
Qed.

Lemma int_digits_head (q : Z) :
  exists (k : Z) (t : text),
    0 <= k <= 9 /\ text_of_string (int_digits q) = (48 + k) :: t.
Proof.
  unfold int_digits.
  assert (Hd : N.to_uint (Z.to_N q) <> Decimal.Nil).
  { destruct (Z.to_N q) as [|p]; [discriminate | apply Unsigned.to_uint_nonnil]. }
  destruct (N.to_uint (Z.to_N q)) as [|d|d|d|d|d|d|d|d|d|d]; [congruence | ..];
    cbn [NilEmpty.string_of_uint]; rewrite text_of_string_cons;
    [exists 0 | exists 1 | exists 2 | exists 3 | exists 4
    | exists 5 | exists 6 | exists 7 | exists 8 | exists 9];
    eexists; (split; [lia | reflexivity]).
Qed.

(** [float] of a sign, an integer part, a point and [nd] places. *)
Lemma float_of_capture_digits (neg : bool) (q r : Z) (nd : nat) :
  0 <= q -> (0 < nd)%nat ->
  float_of_capture
    (text_of_string ((if neg then "-" else "") ++ int_digits q ++ "." ++ fixed_digits nd r))
  = Ok (SF2Prim (nearest_double neg (q * 10 ^ Z.of_nat nd + r mod 10 ^ Z.of_nat nd)
                   (10 ^ Z.of_nat nd))).
Proof.
  intros Hq Hnd.
  rewrite !text_of_string_app.
  change (text_of_string ".") with [46].
  destruct (int_digits_head q) as (k & t & Hk & Hhead).
  destruct (read_digits_int q ([46] ++ text_of_string (fixed_digits nd r)) 0 Hq)
    as [ni Hint].
  assert (Hfrac : read_digits (text_of_string (fixed_digits nd r)) q 0
                  = (q * 10 ^ Z.of_nat nd + r mod 10 ^ Z.of_nat nd, nd, [])).
  { rewrite <- (app_nil_r (text_of_string (fixed_digits nd r))).
    rewrite read_digits_fixed. reflexivity. }
  assert (Hstop : read_digits ([46] ++ text_of_string (fixed_digits nd r)) q (0 + ni)
                  = (q, ni, 46 :: text_of_string (fixed_digits nd r))).
  { cbn [app]. apply read_digits_stop. reflexivity. }
  rewrite Hstop in Hint. cbn [app] in Hint.
  assert (Hsum : (ni + nd =? 0)%nat = false) by (apply Nat.eqb_neq; lia).
  unfold float_of_capture.
  destruct neg.
  - change (text_of_string "-") with [45]. cbn [app].
    change (45 =? 45) with true. cbv iota.
    rewrite Hint. change (46 =? 46) with true. cbv iota.
    rewrite Hfrac, Hsum. reflexivity.
  - change (text_of_string "") with (@nil Z). cbn [app].
    rewrite Hhead in *. cbn [app] in *.
    replace (48 + k =? 45) with false by (symmetry; apply Z.eqb_neq; lia).
    cbv iota. rewrite Hint. change (46 =? 46) with true. cbv iota.
    rewrite Hfrac, Hsum. reflexivity.
Qed.

Lemma scaled_digits_nonneg (x : spec_float) (nd : Z) : 0 <= nd -> 0 <= scaled_digits x nd.
Proof.
  intros Hnd. destruct x as [| | |s m e]; cbn [scaled_digits]; try lia.
  assert (HU : 0 < 2 ^ unit_exponent) by (apply Z.pow_pos_nonneg; unfold unit_exponent; lia).
  assert (Hnum : 0 <= Z.pos m * 2 ^ (e + unit_exponent) * 10 ^ nd).
  { apply Z.mul_nonneg_nonneg; [apply Z.mul_nonneg_nonneg; [lia|]|];
      apply Z.pow_nonneg; lia. }
  pose proof (RoundFacts.div_half_even_cases
                (Z.pos m * 2 ^ (e + unit_exponent) * 10 ^ nd) (2 ^ unit_exponent) HU) as H.
  cbv zeta in H. destruct H as [[Hq | Hq] _]; rewrite Hq.
  - apply Z.div_pos; lia.
  - pose proof (Z.div_pos _ _ Hnum HU). lia.
Qed.

(** [float(f'{y:.{nd}f}') == round(y, nd)] for a finite [y]. *)
Lemma float_of_format (y : float) (nd : nat) :
  (0 < nd)%nat -> PyFloatFacts.SFfinite (Prim2SF y) = true ->
  float_of_capture (text_of_string (format_f y nd)) = Ok (round y (Z.of_nat nd)).
Proof.
  intros Hnd Hy. unfold format_f, round.
  assert (Hp : 0 < 10 ^ Z.of_nat nd) by (apply Z.pow_pos_nonneg; lia).
  destruct (Prim2SF y) as [s|s| |s m e] eqn:Hsf; try discriminate.
  - cbn [scaled_digits]. rewrite Z.div_0_l, Z.mod_0_l by lia.
    rewrite float_of_capture_digits by (lia || exact Hnd).
    rewrite Z.mod_0_l by lia.
    replace (0 * 10 ^ Z.of_nat nd + 0) with 0 by lia.
    unfold nearest_double. change (0 <=? 0) with true. cbv iota.
    rewrite <- Hsf, SF2Prim_Prim2SF. reflexivity.
  - set (n := scaled_digits (S754_finite s m e) (Z.of_nat nd)).
    assert (Hn : 0 <= n) by (apply scaled_digits_nonneg; lia).
    rewrite float_of_capture_digits by (try exact Hnd; apply Z.div_pos; lia).
    rewrite Z.mod_mod by lia.
    replace (n / 10 ^ Z.of_nat nd * 10 ^ Z.of_nat nd + n mod 10 ^ Z.of_nat nd) with n
      by (pose proof (Z.div_mod n (10 ^ Z.of_nat nd) ltac:(lia)); lia).
    reflexivity.
Qed.

End ReadBack.

(** ** Normalization to seven places *)

(** C9. For every number [x], normalizing twice is normalizing once, and
    the normalized value is a number that is rendered with exactly seven
    places after the point.  Those seven places are all that the
    normalized value has: it is the float that the rendering of [x] with
    seven places denotes, and reading its own rendering with seven places
    back gives it again. *)
Theorem normalize_idempotent (x : float) :
  is_finite x = true ->
  normalize (normalize x) = normalize x /\
  is_finite (normalize x) = true /\
  decimals (PyFloat.format_f (normalize x) 7) = 7%nat /\
  PyFloat.float_of_capture (text_of_string (PyFloat.format_f x 7)) = Ok (normalize x) /\
  PyFloat.float_of_capture (text_of_string (PyFloat.format_f (normalize x) 7))
  = Ok (normalize x).
Proof.
  intros Hx. unfold normalize.
  pose proof (RoundFacts.round_7_finite x Hx) as Hfin.
  split; [apply RoundFacts.round_7_idempotent|].
  split; [exact Hfin|].
  split; [apply decimals_format_7f, Hfin|].
  split.
  - apply (ReadBack.float_of_format x 7); [lia|].
    rewrite <- PyFloatFacts.is_finite_SF. exact Hx.
  - rewrite (ReadBack.float_of_format (PyFloat.round x 7) 7);
      [|lia|rewrite <- PyFloatFacts.is_finite_SF; exact Hfin].
    change (Z.of_nat 7) with 7. rewrite RoundFacts.round_7_idempotent. reflexivity.
Qed.

(** C9 at a coordinate with eight places. *)
Lemma normalize_idempotent_witness :
  normalize (normalize 22.47217964) = normalize 22.47217964 /\
  is_finite (normalize 22.47217964) = true /\
  decimals (PyFloat.format_f (normalize 22.47217964) 7) = 7%nat /\
  PyFloat.float_of_capture (text_of_string (PyFloat.format_f 22.47217964 7))
  = Ok (normalize 22.47217964) /\
  PyFloat.float_of_capture (text_of_string (PyFloat.format_f (normalize 22.47217964) 7))
  = Ok (normalize 22.47217964).
Proof. apply (normalize_idempotent 22.47217964). reflexivity. Defined.

(** A coordinate with eight places is not the float that its rendering
    with seven places denotes; its normalization is. *)
Example normalize_changes_long_coordinates :
  PyFloat.float_of_capture (text_of_string (PyFloat.format_f 22.47217964 7))
  = Ok 22.4721796%float /\
  normalize 22.47217964 = 22.4721796%float /\
  (22.4721796 =? 22.47217964)%float = false.
Proof. conjuncts; vm_compute; reflexivity. Qed.

Example normalize_examples :
  normalize 22.47217964 = 22.4721796%float /\
  normalize 22.48 = 22.48%float /\
  normalize 88.39529195 = 88.395292%float /\
  PyFloat.format_f (normalize 22.47217964) 7 = "22.4721796"%string /\
  PyFloat.format_f (normalize 22.48) 7 = "22.4800000"%string /\
  PyFloat.round 2.675 2 = 2.67%float /\
  PyFloat.round 0.5 0 = 0%float /\
  PyFloat.round 1.5 0 = 2%float.
Proof. conjuncts; vm_compute; reflexivity. Qed.

(** ** What the patterns capture *)

Module ReFacts.

Import Re.

(** Every repetition inside a capture group of [p] ranges over a class
    within [A]; [inside] tells whether a group is open where [p] starts. *)
Fixpoint groups_in (A : Z -> bool) (inside : bool) (p : pattern) : Prop :=
  match p with
  | [] => True
  | GroupOpen :: p' => groups_in A true p'
  | GroupClose :: p' => groups_in A false p'
  | Chars cls _ _ :: p' =>
      (inside = true -> forall c : Z, cls c = true -> A c = true) /\ groups_in A inside p'
  end.

(** The number of capture groups that [p] closes. *)
Fixpoint closes (p : pattern) : nat :=
  match p with
  | [] => O
  | GroupClose :: p' => S (closes p')
  | _ :: p' => closes p'
  end.

Definition is_open (cur : option text) : bool :=
  match cur with Some _ => true | None => false end.

Definition over (A : Z -> bool) (s : text) : Prop := Forall (fun c => A c = true) s.

Lemma try_counts_some {R : Type} (k : nat -> option R) (lo n : nat) (r : R) :
  try_counts k lo n = Some r -> exists m : nat, (m <= n)%nat /\ k m = Some r.
Proof.
  induction n as [|n IH]; cbn [try_counts].
  - destruct (0 <? lo)%nat; [discriminate|].
    destruct (k 0%nat) eqn:Hk; [|discriminate].
    intros H. injection H as <-. exists 0%nat. auto.
  - destruct (S n <? lo)%nat; [discriminate|].
    destruct (k (S n)) eqn:Hk.
    + intros H. injection H as <-. exists (S n). auto.
    + intros H. destruct (IH H) as (m & Hm & Hr). exists m. split; [lia | exact Hr].
Qed.

Lemma run_length_take (cls : Z -> bool) (s : text) :
  forall (limit : option nat) (n : nat),
    (n <= run_length cls limit s)%nat -> over cls (take n s).
Proof.
  induction s as [|c s IH]; intros limit n Hn.
  - rewrite take_nil. constructor.
  - destruct n as [|n]; [constructor|].
    destruct limit as [[|k]|]; cbn [run_length] in Hn; try lia;
      destruct (cls c) eqn:Hc; try lia;
      (constructor; [exact Hc | eapply IH; apply le_S_n; exact Hn]).
Qed.

Lemma match_here_groups (A : Z -> bool) (p : pattern) :
  forall (s : text) (cur : option text) (done : list text) (consumed : nat)
         (gs : list text) (n : nat),
    groups_in A (is_open cur) p ->
    (forall g : text, cur = Some g -> over A g) ->
    Forall (over A) done ->
    match_here p s cur done consumed = Some (gs, n) ->
    Forall (over A) gs /\ length gs = (length done + closes p)%nat.
Proof.
  induction p as [|x p IH]; intros s cur done consumed gs n Hp Hcur Hdone Hm.
  - cbn in Hm. injection Hm as <- <-. split; [exact Hdone | cbn; lia].
  - destruct x as [cls lo hi| |]; cbn [match_here] in Hm; cbn [groups_in] in Hp;
      cbn [closes].
    + apply try_counts_some in Hm as (m & Hle & Hm).
      destruct Hp as [Hcls Hp].
      eapply (IH _ (option_map (fun g => g ++ take m s) cur)); [| |exact Hdone|exact Hm].
      * destruct cur; exact Hp.
      * intros g Hg. destruct cur as [g0|]; [|discriminate].
        cbn in Hg. injection Hg as <-.
        apply Forall_app. split; [apply Hcur; reflexivity|].
        eapply Forall_impl; [eapply run_length_take; exact Hle|].
        intros c Hc. apply Hcls; [reflexivity | exact Hc].
    + eapply (IH s (Some [])); [exact Hp| |exact Hdone|exact Hm].
      intros g Hg. injection Hg as <-. constructor.
    + destruct (IH s None (done ++ [default [] cur]) consumed gs n) as [Hgs Hlen];
        [exact Hp | discriminate | | exact Hm |].
      * apply Forall_app. split; [exact Hdone|]. constructor; [|constructor].
        destruct cur as [g|]; [apply Hcur; reflexivity | constructor].
      * split; [exact Hgs|]. rewrite Hlen, length_app. cbn. lia.
Qed.

Lemma findall_groups (A : Z -> bool) (p : pattern) (s : text) :
  groups_in A false p ->
  Forall (fun gs => Forall (over A) gs /\ length gs = closes p) (findall p s).
Proof.
  intros Hp. unfold findall. generalize 0%nat as skip.
  assert (Hm : forall s' gs n, match_here p s' None [] 0 = Some (gs, n) ->
                 Forall (over A) gs /\ length gs = closes p).
  { intros s' gs n H.
    apply (match_here_groups A p s' None [] 0%nat gs n Hp) in H;
      [exact H | discriminate | constructor]. }
  induction s as [|c s IH]; intros skip; cbn [findall_from].
  - destruct skip; [|constructor].
    destruct (match_here p [] None [] 0) as [[gs n]|] eqn:H; [|constructor].
    constructor; [eapply Hm; exact H | constructor].
  - destruct skip as [|k]; [|apply IH].
    destruct (match_here p (c :: s) None [] 0) as [[gs n]|] eqn:H; [|apply IH].
    constructor; [eapply Hm; exact H | apply IH].
Qed.

End ReFacts.

(** The five patterns capture two groups each, and only characters of
    [[0-9.-]]. *)
Lemma patterns_groups :
  Forall (fun p => ReFacts.groups_in Re.coord false p /\ ReFacts.closes p = 2%nat) patterns.
Proof.
  assert (Hd : forall c : Z, Re.digit c = true -> Re.coord c = true).
  { intros c Hc. unfold Re.coord. rewrite Hc. reflexivity. }
  assert (He : forall c : Z, (46 =? c) = true -> Re.coord c = true).
  { intros c Hc. apply Z.eqb_eq in Hc. subst c. reflexivity. }
  repeat constructor;
    cbv -[Re.coord Re.digit Re.space Z.eqb];
    repeat match goal with
           | |- _ /\ _ => split
           | |- false = true -> _ => discriminate
           | |- true = true -> _ => intros _
           | |- True => exact I
           end; auto.
Qed.

(** ** The coordinate resolvers *)

(** The pairs that the patterns extract from a response, in the order in
    which [get_google_maps_coordinates] examines them: pattern by pattern,
    and the matches of a pattern from left to right. *)
Definition candidates (response_text : text) : list (list text) :=
  concat (map (fun p => Re.findall p response_text) patterns).






(** Every pair that a resolver examines has exactly two groups, written
    over [[0-9.-]]: the alphabet on which [PyFloat.float_of_capture] is
    [float]. *)
Lemma candidates_shape (response_text : text) :
  Forall (fun c => exists a b : text,
            c = [a; b] /\ ReFacts.over Re.coord a /\ ReFacts.over Re.coord b)
    (candidates response_text).
Proof.
  unfold candidates. apply Forall_concat. apply List.Forall_map.
  eapply Forall_impl; [exact patterns_groups|].
  intros p [Hp Hn]. cbn beta.
  eapply Forall_impl; [apply (ReFacts.findall_groups Re.coord p response_text Hp)|].
  intros gs [Hgs Hlen]. cbn beta in Hlen. rewrite Hn in Hlen.
  destruct gs as [|a [|b [|d gs]]]; try discriminate.
  exists a, b. apply Forall_cons in Hgs as [Ha Hgs]. apply Forall_cons in Hgs as [Hb _].
  auto.
Qed.



Lemma scan_matches_app (l1 l2 : list (list text)) :
  scan_matches (l1 ++ l2)
  = match scan_matches l1 with
    | Ok None => scan_matches l2
    | r => r
    end.
Proof.
  induction l1 as [|c l1 IH]; [reflexivity|].
  rewrite <- app_comm_cons. cbn [scan_matches].
  destruct c as [|a [|b [|d c]]]; try reflexivity.
  destruct (PyFloat.float_of_capture a) as [x|e]; [|reflexivity]. cbn [bind].
  destruct (PyFloat.float_of_capture b) as [y|e]; [|reflexivity]. cbn [bind].
  destruct (in_kolkata x y); [reflexivity | exact IH].
Qed.

Lemma scan_patterns_candidates (ps : list Re.pattern) (response_text : text) :
  scan_patterns ps response_text
  = scan_matches (concat (map (fun p => Re.findall p response_text) ps)).
Proof.
  induction ps as [|p ps IH]; [reflexivity|].
  cbn [scan_patterns map concat]. rewrite scan_matches_app.
  destruct (scan_matches (Re.findall p response_text)) as [[r|]|e]; cbn [bind];
    [reflexivity | exact IH | reflexivity].
Qed.




(** What a successful scan returns: a validated pair, rounded. *)
Lemma scan_matches_some (ms : list (list text)) (lat lng : float) :
  scan_matches ms = Ok (Some (lat, lng)) ->
  exists lat_f lng_f : float,
    in_kolkata lat_f lng_f = true /\
    lat = PyFloat.round lat_f 7 /\ lng = PyFloat.round lng_f 7.
Proof.
  induction ms as [|c ms IH]; [discriminate|]. cbn [scan_matches].
  destruct c as [|a [|b [|d c]]]; try discriminate.
  destruct (PyFloat.float_of_capture a) as [x|e]; [|discriminate]. cbn [bind].
  destruct (PyFloat.float_of_capture b) as [y|e]; [|discriminate]. cbn [bind].
  destruct (in_kolkata x y) eqn:Hin; [|exact IH].
  intros H. injection H as <- <-. exists x, y. auto.
Qed.

Lemma round_7_latitude (x : float) (m : positive) :
  Prim2SF x = S754_finite false m (-48) ->
  6192449487634432 <= Z.pos m <= 6473924464345088 ->
  exists m' : positive,
    Prim2SF (PyFloat.round x 7) = S754_finite false m' (-48) /\
    6192449487634432 <= Z.pos m' <= 6473924464345088.
Proof.
  intros Hx Hm.
  apply (RoundFacts.round_7_same_exponent x m 1026 22 23 281474976710656).
  - split; discriminate.
  - reflexivity.
  - vm_compute. reflexivity.
  - vm_compute. discriminate.
  - vm_compute. reflexivity.
  - exact Hx.
  - exact Hm.
Qed.

Lemma round_7_longitude (x : float) (m : positive) :
  Prim2SF x = S754_finite false m (-46) ->
  6122080743456768 <= Z.pos m <= 6262818231812096 ->
  exists m' : positive,
    Prim2SF (PyFloat.round x 7) = S754_finite false m' (-46) /\
    6122080743456768 <= Z.pos m' <= 6262818231812096.
Proof.
  intros Hx Hm.
  apply (RoundFacts.round_7_same_exponent x m 1028 87 89 70368744177664).
  - split; discriminate.
  - reflexivity.
  - vm_compute. reflexivity.
  - vm_compute. discriminate.
  - vm_compute. reflexivity.
  - exact Hx.
  - exact Hm.
Qed.

(** The bounding box is closed under rounding to seven places. *)
Lemma in_kolkata_round (lat_f lng_f : float) :
  in_kolkata lat_f lng_f = true ->
  in_kolkata (PyFloat.round lat_f 7) (PyFloat.round lng_f 7) = true.
Proof.
  unfold in_kolkata. intros H.
  apply andb_prop in H as [H Hlng2]. apply andb_prop in H as [H Hlng1].
  apply andb_prop in H as [Hlat1 Hlat2].
  destruct (RoundFacts.between_same_exponent 22.0 23.0 lat_f
              6192449487634432 6473924464345088 (-48) eq_refl eq_refl Hlat1 Hlat2)
    as (m & Hm & Hm12).
  destruct (RoundFacts.between_same_exponent 87.0 89.0 lng_f
              6122080743456768 6262818231812096 (-46) eq_refl eq_refl Hlng1 Hlng2)
    as (n & Hn & Hn12).
  destruct (round_7_latitude lat_f m Hm Hm12) as (m' & Hm' & Hm'1 & Hm'2).
  destruct (round_7_longitude lng_f n Hn Hn12) as (n' & Hn' & Hn'1 & Hn'2).
  rewrite (RoundFacts.leb_same_exponent 22.0 _ 6192449487634432 m' (-48) eq_refl Hm' Hm'1).
  rewrite (RoundFacts.leb_same_exponent _ 23.0 m' 6473924464345088 (-48) Hm' eq_refl Hm'2).
  rewrite (RoundFacts.leb_same_exponent 87.0 _ 6122080743456768 n' (-46) eq_refl Hn' Hn'1).
  rewrite (RoundFacts.leb_same_exponent _ 89.0 n' 6262818231812096 (-46) Hn' eq_refl Hn'2).
  reflexivity.
Qed.








Section ResolverFacts.

Variable quote : string -> string.
Variable requests_get : string -> result (Z * text).



(** C10. Whatever the request answers, the primary resolver returns either
    [(None, None)] or two floats inside the bounding box, each of them the
    rounding to seven places of a float inside the box (and so equal to
    its own rounding). *)
Theorem resolver_returns_none_or_valid (station_name location : string) :
  get_google_maps_coordinates quote requests_get station_name location = (VNone, VNone)
  \/ exists lat lng : float,
       get_google_maps_coordinates quote requests_get station_name location
       = (VFloat lat, VFloat lng) /\
       (22.0 <=? lat)%float = true /\ (lat <=? 23.0)%float = true /\
       (87.0 <=? lng)%float = true /\ (lng <=? 89.0)%float = true /\
       PyFloat.round lat 7 = lat /\ PyFloat.round lng 7 = lng /\
       exists lat_f lng_f : float,
         in_kolkata lat_f lng_f = true /\
         lat = PyFloat.round lat_f 7 /\ lng = PyFloat.round lng_f 7.
Proof.
  unfold get_google_maps_coordinates.
  destruct (requests_get _) as [[status_code response_text]|e]; [|left; reflexivity].
  cbn [bind]. destruct (status_code =? 200); [|left; reflexivity].
  rewrite scan_patterns_candidates.
  destruct (scan_matches _) as [[[lat lng]|]|e] eqn:Hscan; cbn [bind];
    [|left; reflexivity|left; reflexivity].
  right. exists lat, lng. split; [reflexivity|].
  destruct (scan_matches_some _ lat lng Hscan) as (lat_f & lng_f & Hin & -> & ->).
  pose proof (in_kolkata_round lat_f lng_f Hin) as Hbox.
  unfold in_kolkata in Hbox.
  apply andb_prop in Hbox as [Hbox H4]. apply andb_prop in Hbox as [Hbox H3].
  apply andb_prop in Hbox as [H1 H2].
  repeat (split; [assumption|]).
  split; [apply RoundFacts.round_7_idempotent|].
  split; [apply RoundFacts.round_7_idempotent|].
  exists lat_f, lng_f. auto.
Qed.











End ResolverFacts.

(** A mocked request: every URL is answered with status 200 and the given
    text. *)
Definition mock (response : string) (url : string) : result (Z * text) :=
  Ok (200, text_of_string response).

Definition no_quote (s : string) : string := s.



(** The two responses of the specification's test, through both
    resolvers. *)
Example resolver_on_mocked_responses :
  get_google_maps_coordinates no_quote (mock "@22.5726,88.3639") "Kalighat" "Kolkata"
  = (VFloat 22.5726, VFloat 88.3639) /\
  get_coordinates_alternative no_quote (mock "@22.5726,88.3639") "Kalighat" "Kolkata"
  = (VFloat 22.5726, VFloat 88.3639) /\
  get_google_maps_coordinates no_quote (mock "@28.6139,77.2090") "Kalighat" "Kolkata"
  = (VNone, VNone) /\
  get_coordinates_alternative no_quote (mock "@28.6139,77.2090") "Kalighat" "Kolkata"
  = (VNone, VNone).
Proof. conjuncts; vm_compute; reflexivity. Qed.

(** A literal that [float] does not accept ends the search: the match
    before ["@22.5726,88.3639"] captures ["1.2.3"], the [ValueError] is
    caught, and both resolvers answer [(None, None)]. *)
Example resolver_stops_at_malformed_match :
  get_google_maps_coordinates no_quote (mock "@1.2.3,4 @22.5726,88.3639")
    "Kalighat" "Kolkata" = (VNone, VNone) /\
  get_coordinates_alternative no_quote (mock "@1.2.3,4 @22.5726,88.3639")
    "Kalighat" "Kolkata" = (VNone, VNone).
Proof. conjuncts; vm_compute; reflexivity. Qed.


(** * Further properties of [find_nearest_metro.py] *)

Section NearestMetroEdges.

Variables libm_sin libm_cos libm_asin : float -> float.
Variable libm_pow : float -> float -> float.
Variables pandal_lat pandal_lon : value.

Let dist : pydict -> result float :=
  station_distance libm_sin libm_cos libm_asin libm_pow pandal_lat pandal_lon.
Let scan := nearest_loop libm_sin libm_cos libm_asin libm_pow pandal_lat pandal_lon.
Let nearest :=
  find_nearest_metro_station libm_sin libm_cos libm_asin libm_pow pandal_lat pandal_lon.

(** The stations that can win the comparison [distance < min_distance]:
    their distance is a number below [float('inf')]. *)
Definition within_reach (dist : pydict -> result float) (s : pydict) : bool :=
  match dist s with
  | Ok d => (d <? infinity)%float
  | Raise _ => false
  end.

Lemma leb_infinity (m : float) : FloatOrder.ordered m -> (m <=? infinity)%float = true.
Proof.
  intros Hm. rewrite FloatOrder.leb_true_iff; [|exact Hm|discriminate].
  unfold FloatOrder.ordered, FloatOrder.not_nan in Hm.
  change (Prim2SF infinity) with (S754_infinity false).
  destruct (Prim2SF m) as [s|[|]| |[|] p e]; try congruence; simpl; lia.
Qed.

(** Neither NaN nor [inf] is below any bound. *)
Lemma ltb_false_of_unreachable (d m : float) :
  (d <? infinity)%float = false -> (d <? m)%float = false.
Proof.
  intros Hd. destruct (d <? m)%float eqn:Hlt; [|reflexivity].
  destruct (FloatOrder.ordered_of_ltb _ _ Hlt) as [_ Hm].
  rewrite (FloatOrder.ltb_leb_trans d m infinity) in Hd;
    [discriminate | discriminate | exact Hlt | apply leb_infinity; exact Hm].
Qed.

Lemma nearest_loop_filter (stations : list pydict) :
  Forall (fun s => exists d : float, dist s = Ok d) stations ->
  forall (m : float) (best : option pydict),
    scan stations m best = scan (List.filter (within_reach dist) stations) m best.
Proof.
  induction 1 as [|s rest [d Hd] _ IH]; intros m best; [reflexivity|].
  cbn [List.filter]. unfold within_reach at 1. rewrite Hd.
  destruct (d <? infinity)%float eqn:Hreach.
  - unfold scan; cbn [nearest_loop]. fold dist. rewrite Hd. cbn [bind]. fold scan.
    destruct (d <? m)%float; apply IH.
  - unfold scan at 1; cbn [nearest_loop]. fold dist. rewrite Hd. cbn [bind]. fold scan.
    rewrite (ltb_false_of_unreachable d m Hreach). apply IH.
Qed.

Lemma filter_within_reach_measurable (stations : list pydict) :
  Forall (measurable dist) (List.filter (within_reach dist) stations).
Proof.
  apply List.Forall_forall. intros s Hs. apply List.filter_In in Hs as [_ Hs].
  unfold within_reach in Hs. destruct (dist s) as [d|e] eqn:Hd; [|discriminate].
  exists d. auto.
Qed.

(** X1. When the distance of every station is computed, the stations whose
    distance is NaN or infinite play no part: the search returns what it
    returns on the list of the other stations.  If there is no other
    station the result is [(None, inf)], although the list is not empty;
    otherwise it is the first station of minimal distance among them. *)
Theorem find_nearest_skips_unordered_distances (metro_stations : list pydict) :
  Forall (fun s => exists d : float, dist s = Ok d) metro_stations ->
  let reachable := List.filter (within_reach dist) metro_stations in
  nearest metro_stations = nearest reachable /\
  (reachable = [] -> nearest metro_stations = Ok (None, infinity)) /\
  (reachable <> [] ->
   exists (i : nat) (s : pydict) (d : float),
     nearest metro_stations = Ok (Some s, d) /\ first_minimum dist reachable i s d).
Proof.
  intros Hall reachable.
  assert (Heq : nearest metro_stations = nearest reachable).
  { apply (nearest_loop_filter metro_stations Hall). }
  split; [exact Heq|]. split.
  - intros Hnil. rewrite Heq, Hnil. reflexivity.
  - intros Hne. rewrite Heq.
    apply (nearest_search_spec libm_sin libm_cos libm_asin libm_pow pandal_lat pandal_lon
             reachable Hne).
    apply filter_within_reach_measurable.
Qed.

Lemma nearest_loop_raises (stations : list pydict) :
  forall (i : nat) (s : pydict) (e : exn) (m : float) (best : option pydict),
    stations !! i = Some s -> dist s = Raise e ->
    (forall (j : nat) (s' : pydict),
        (j < i)%nat -> stations !! j = Some s' -> exists d : float, dist s' = Ok d) ->
    scan stations m best = Raise e.
Proof.
  induction stations as [|x rest IH]; intros i s e m best Hi Hs Hbefore.
  - discriminate.
  - unfold scan; cbn [nearest_loop]. fold dist. fold scan.
    destruct i as [|i].
    + injection Hi as ->. rewrite Hs. reflexivity.
    + destruct (Hbefore 0%nat x) as [d Hd]; [lia | reflexivity |].
      rewrite Hd. cbn [bind].
      destruct (d <? m)%float; (eapply IH; [exact Hi | exact Hs |]);
        intros j s' Hj Hl; apply (Hbefore (S j) s'); (lia || exact Hl).
Qed.

(** X2. The search fails as a whole on the first station whose distance
    cannot be computed, with the exception of that station: a station
    record without ['latitude'] ends it with [KeyError('latitude')],
    whatever the stations after it are. *)
Theorem find_nearest_raises_first_error (metro_stations : list pydict) (i : nat)
    (s : pydict) :
  metro_stations !! i = Some s ->
  (forall (j : nat) (s' : pydict),
      (j < i)%nat -> metro_stations !! j = Some s' -> exists d : float, dist s' = Ok d) ->
  (forall e : exn, dist s = Raise e -> nearest metro_stations = Raise e) /\
  (s !! "latitude"%string = None ->
   nearest metro_stations = Raise (KeyError "latitude")) /\
  (is_Some (s !! "latitude"%string) -> s !! "longitude"%string = None ->
   nearest metro_stations = Raise (KeyError "longitude")).
Proof.
  intros Hi Hbefore.
  assert (Hraise : forall e : exn, dist s = Raise e -> nearest metro_stations = Raise e).
  { intros e He. apply (nearest_loop_raises metro_stations i s e _ _ Hi He Hbefore). }
  split; [exact Hraise|]. split.
  - intros Hlat. apply Hraise. unfold dist, station_distance, getitem.
    rewrite Hlat. reflexivity.
  - intros [v Hlat] Hlon. apply Hraise. unfold dist, station_distance, getitem.
    rewrite Hlat, Hlon. reflexivity.
Qed.

End NearestMetroEdges.

(** A station record whose latitude is NaN ([json.load] reads the literal
    [NaN]), and one without a latitude. *)
Definition station_nan : pydict :=
  station "Uncharted" "KUNC" "Nowhere" ["Blue Line"]%string nan 88.381.
Definition station_no_latitude : pydict :=
  <[ "name"%string := VStr "Unsurveyed" ]> (<[ "longitude"%string := VFloat 88.381 ]> ∅).

(** X1 on a list that starts with a station at a NaN distance. *)
Lemma find_nearest_skips_unordered_distances_witness :
  let dist :=
    station_distance SmallAngle.sin SmallAngle.cos SmallAngle.asin SmallAngle.pow
      (VFloat 22.49) (VFloat 88.38) in
  let nearest :=
    find_nearest_metro_station SmallAngle.sin SmallAngle.cos SmallAngle.asin SmallAngle.pow
      (VFloat 22.49) (VFloat 88.38) in
  let reachable := List.filter (within_reach dist) [station_nan; kavi_subhash] in
  nearest [station_nan; kavi_subhash] = nearest reachable /\
  (reachable = [] -> nearest [station_nan; kavi_subhash] = Ok (None, infinity)) /\
  (reachable <> [] ->
   exists (i : nat) (s : pydict) (d : float),
     nearest [station_nan; kavi_subhash] = Ok (Some s, d) /\
     first_minimum dist reachable i s d).
Proof.
  apply (find_nearest_skips_unordered_distances SmallAngle.sin SmallAngle.cos
           SmallAngle.asin SmallAngle.pow (VFloat 22.49) (VFloat 88.38)
           [station_nan; kavi_subhash]).
  repeat constructor; eexists; vm_compute; reflexivity.
Defined.

(** A list of stations that are all at a NaN distance is searched in
    vain, and a NaN station in front does not hide the one behind it. *)
Example find_nearest_nan_stations :
  find_nearest_metro_station SmallAngle.sin SmallAngle.cos SmallAngle.asin SmallAngle.pow
    (VFloat 22.49) (VFloat 88.38) [station_nan; station_nan] = Ok (None, infinity) /\
  found_name
    (find_nearest_metro_station SmallAngle.sin SmallAngle.cos SmallAngle.asin
       SmallAngle.pow (VFloat 22.49) (VFloat 88.38) [station_nan; kavi_subhash])
  = found_name
    (find_nearest_metro_station SmallAngle.sin SmallAngle.cos SmallAngle.asin
       SmallAngle.pow (VFloat 22.49) (VFloat 88.38) [kavi_subhash]).
Proof. conjuncts; vm_compute; reflexivity. Qed.

(** X2 on a list whose second station has no latitude. *)
Lemma find_nearest_raises_first_error_witness :
  let dist :=
    station_distance SmallAngle.sin SmallAngle.cos SmallAngle.asin SmallAngle.pow
      (VFloat 22.49) (VFloat 88.38) in
  let nearest :=
    find_nearest_metro_station SmallAngle.sin SmallAngle.cos SmallAngle.asin SmallAngle.pow
      (VFloat 22.49) (VFloat 88.38) in
  let stations := [kavi_subhash; station_no_latitude; shahid_khudiram] in
  (forall e : exn, dist station_no_latitude = Raise e -> nearest stations = Raise e) /\
  (station_no_latitude !! "latitude"%string = None ->
   nearest stations = Raise (KeyError "latitude")) /\
  (is_Some (station_no_latitude !! "latitude"%string) ->
   station_no_latitude !! "longitude"%string = None ->
   nearest stations = Raise (KeyError "longitude")).
Proof.
  apply (find_nearest_raises_first_error SmallAngle.sin SmallAngle.cos
           SmallAngle.asin SmallAngle.pow (VFloat 22.49) (VFloat 88.38)
           [kavi_subhash; station_no_latitude; shahid_khudiram] 1%nat).
  - reflexivity.
  - intros [|j] s' Hj Hs'; [|lia]. injection Hs' as <-.
    eexists. vm_compute. reflexivity.
Defined.

Section HaversineEdges.

Variables libm_sin libm_cos libm_asin : float -> float.
Variable libm_pow : float -> float -> float.

Lemma math_radians_number (v : value) (x : float) :
  PyFloat.math_radians v = Ok x -> is_number v = true.
Proof. destruct v; (reflexivity || discriminate). Qed.

(** X3. The distance is computed only between numbers: when
    [haversine_distance] returns, each of its four arguments is an [int],
    a [float] or a [bool]; [None], a string or a list in any place makes
    it raise. *)
Theorem haversine_distance_needs_numbers (lat1 lon1 lat2 lon2 : value) (d : float) :
  haversine_distance libm_sin libm_cos libm_asin libm_pow lat1 lon1 lat2 lon2 = Ok d ->
  is_number lat1 = true /\ is_number lon1 = true /\
  is_number lat2 = true /\ is_number lon2 = true.
Proof.
  unfold haversine_distance. intros H.
  destruct (PyFloat.math_radians lat1) as [x1|] eqn:E1; [|discriminate H].
  destruct (PyFloat.math_radians lon1) as [y1|] eqn:E2; [|discriminate H].
  destruct (PyFloat.math_radians lat2) as [x2|] eqn:E3; [|discriminate H].
  destruct (PyFloat.math_radians lon2) as [y2|] eqn:E4; [|discriminate H].
  repeat split; eapply math_radians_number; eassumption.
Qed.

End HaversineEdges.

(** X3 between the two seed stations. *)
Lemma haversine_distance_needs_numbers_witness :
  is_number (VFloat 22.4721796) = true /\ is_number (VFloat 88.3952919) = true /\
  is_number (VFloat 22.48) = true /\ is_number (VInt 88) = true.
Proof.
  apply (haversine_distance_needs_numbers SmallAngle.sin SmallAngle.cos SmallAngle.asin
           SmallAngle.pow (VFloat 22.4721796) (VFloat 88.3952919) (VFloat 22.48) (VInt 88)
           43963.054894166344%float).
  vm_compute. reflexivity.
Defined.

(** A coordinate that is [None] or a string is a [TypeError], in the
    order of the arguments. *)
Example haversine_distance_type_errors :
  haversine_distance SmallAngle.sin SmallAngle.cos SmallAngle.asin SmallAngle.pow
    (VFloat 22.47) VNone (VFloat 22.48) (VFloat 88.38) = Raise TypeError /\
  haversine_distance SmallAngle.sin SmallAngle.cos SmallAngle.asin SmallAngle.pow
    (VFloat 22.47) (VFloat 88.39) (VStr "22.48") (VFloat 88.38) = Raise TypeError.
Proof. conjuncts; vm_compute; reflexivity. Qed.

(** * Further properties of the enrichment run *)

Section EnrichmentEdges.

Variables libm_sin libm_cos libm_asin : float -> float.
Variable libm_pow : float -> float -> float.

Let enrich := enrich_pandal libm_sin libm_cos libm_asin libm_pow.
Let loop := enrich_loop libm_sin libm_cos libm_asin libm_pow.
Let process := process_pandals_with_metro_data libm_sin libm_cos libm_asin libm_pow.

(** X4. Without stations the run cannot enrich a query point: the first
    query point, when it has both coordinates, finds [None] as its nearest
    station, and reading [None['short_code']] ends the run with a
    [TypeError], before any document is written. *)
Theorem process_without_stations (p : pydict) (rest : list pydict) :
  is_Some (p !! "latitude"%string) -> is_Some (p !! "longitude"%string) ->
  process (p :: rest) [] = (None, Raise TypeError).
Proof.
  intros [lat Hlat] [lon Hlon].
  unfold process, process_pandals_with_metro_data. cbn [enrich_loop].
  unfold enrich_pandal, getitem. rewrite Hlat, Hlon. reflexivity.
Qed.

(** The seven insertions of [enrich_pandal]. *)
Definition with_metro (p : pydict) (v1 v2 v3 v4 v5 v6 v7 : value) : pydict :=
  <[ "nearest_metro_distance_meters"%string := v7 ]>
  (<[ "nearest_metro_longitude"%string := v6 ]>
  (<[ "nearest_metro_latitude"%string := v5 ]>
  (<[ "nearest_metro_lines"%string := v4 ]>
  (<[ "nearest_metro_location"%string := v3 ]>
  (<[ "nearest_metro_name"%string := v2 ]>
  (<[ "nearest_metro_id"%string := v1 ]> p)))))).

Lemma lookup_with_metro (p : pydict) (v1 v2 v3 v4 v5 v6 v7 : value) (k : string) :
  with_metro p v1 v2 v3 v4 v5 v6 v7 !! k
  = if decide ("nearest_metro_distance_meters"%string = k) then Some v7
    else if decide ("nearest_metro_longitude"%string = k) then Some v6
    else if decide ("nearest_metro_latitude"%string = k) then Some v5
    else if decide ("nearest_metro_lines"%string = k) then Some v4
    else if decide ("nearest_metro_location"%string = k) then Some v3
    else if decide ("nearest_metro_name"%string = k) then Some v2
    else if decide ("nearest_metro_id"%string = k) then Some v1
    else p !! k.
Proof.
  unfold with_metro.
  repeat (case_decide; [subst k; apply lookup_insert_eq
                       | rewrite lookup_insert_ne by assumption]).
  reflexivity.
Qed.

Lemma with_metro_twice (p : pydict) (v1 v2 v3 v4 v5 v6 v7 : value) :
  with_metro (with_metro p v1 v2 v3 v4 v5 v6 v7) v1 v2 v3 v4 v5 v6 v7
  = with_metro p v1 v2 v3 v4 v5 v6 v7.
Proof.
  apply map_eq. intros k. rewrite !lookup_with_metro.
  repeat (case_decide; [reflexivity|]). reflexivity.
Qed.

Lemma enrich_pandal_with_metro (metro_stations : list pydict) (p u : pydict) :
  enrich metro_stations p = Ok u ->
  exists (lat lon : value) (s : pydict) (d : float) (v1 v2 v3 v4 v5 v6 : value),
    p !! "latitude"%string = Some lat /\ p !! "longitude"%string = Some lon /\
    find_nearest_metro_station libm_sin libm_cos libm_asin libm_pow lat lon metro_stations
    = Ok (Some s, d) /\
    s !! "short_code"%string = Some v1 /\ s !! "name"%string = Some v2 /\
    s !! "location"%string = Some v3 /\ s !! "lines"%string = Some v4 /\
    s !! "latitude"%string = Some v5 /\ s !! "longitude"%string = Some v6 /\
    u = with_metro p v1 v2 v3 v4 v5 v6 (VFloat (PyFloat.round d 2)).
Proof.
  unfold enrich, enrich_pandal, getitem. intros H.
  destruct (p !! "latitude"%string) as [lat|] eqn:Hlat; [|discriminate H].
  destruct (p !! "longitude"%string) as [lon|] eqn:Hlon; [|discriminate H].
  cbn [bind] in H.
  destruct (find_nearest_metro_station _ _ _ _ lat lon metro_stations)
    as [[[s|] d]|] eqn:Hfound; cbn [bind subscript] in H; try discriminate H.
  unfold getitem in H.
  destruct (s !! "short_code"%string) as [v1|] eqn:Hv1; [|discriminate H].
  destruct (s !! "name"%string) as [v2|] eqn:Hv2; [|discriminate H].
  destruct (s !! "location"%string) as [v3|] eqn:Hv3; [|discriminate H].
  destruct (s !! "lines"%string) as [v4|] eqn:Hv4; [|discriminate H].
  destruct (s !! "latitude"%string) as [v5|] eqn:Hv5; [|discriminate H].
  destruct (s !! "longitude"%string) as [v6|] eqn:Hv6; [|discriminate H].
  cbn [bind] in H. injection H as <-.
  exists lat, lon, s, d, v1, v2, v3, v4, v5, v6. repeat split; assumption.
Qed.

Lemma enrich_pandal_fixed (metro_stations : list pydict) (p u : pydict) :
  enrich metro_stations p = Ok u -> enrich metro_stations u = Ok u.
Proof.
  intros H.
  destruct (enrich_pandal_with_metro metro_stations p u H)
    as (lat & lon & s & d & v1 & v2 & v3 & v4 & v5 & v6
        & Hlat & Hlon & Hfound & H1 & H2 & H3 & H4 & H5 & H6 & ->).
  unfold enrich, enrich_pandal, getitem.
  replace (with_metro p v1 v2 v3 v4 v5 v6 (VFloat (PyFloat.round d 2)) !! "latitude"%string)
    with (Some lat) by (unfold with_metro; map_lookup; symmetry; exact Hlat).
  replace (with_metro p v1 v2 v3 v4 v5 v6 (VFloat (PyFloat.round d 2)) !! "longitude"%string)
    with (Some lon) by (unfold with_metro; map_lookup; symmetry; exact Hlon).
  cbn [bind]. rewrite Hfound. cbn [bind subscript]. unfold getitem.
  rewrite H1, H2, H3, H4, H5, H6. cbn [bind].
  f_equal. apply with_metro_twice.
Qed.

Lemma enrich_loop_fixed (metro_stations : list pydict) (pandals : list pydict) :
  forall acc out : list pydict,
    loop metro_stations pandals acc = Ok out ->
    exists us : list pydict,
      out = acc ++ us /\ length us = length pandals /\
      Forall (fun u => enrich metro_stations u = Ok u) us.
Proof.
  induction pandals as [|p rest IH]; intros acc out H.
  - injection H as <-. exists []. rewrite app_nil_r. repeat constructor.
  - unfold loop in H; cbn [enrich_loop] in H. fold enrich in H.
    destruct (enrich metro_stations p) as [u|] eqn:Hu; [|discriminate H].
    cbn [bind] in H. fold loop in H.
    destruct (IH _ _ H) as (us & -> & Hlen & Hus).
    exists (u :: us). rewrite <- app_assoc. split; [reflexivity|].
    split; [cbn; lia|]. constructor; [|exact Hus].
    apply (enrich_pandal_fixed metro_stations p u Hu).
Qed.

Lemma enrich_loop_on_fixed (metro_stations : list pydict) (us : list pydict) :
  Forall (fun u => enrich metro_stations u = Ok u) us ->
  forall acc : list pydict, loop metro_stations us acc = Ok (acc ++ us).
Proof.
  induction 1 as [|u us Hu _ IH]; intros acc.
  - rewrite app_nil_r. reflexivity.
  - unfold loop; cbn [enrich_loop]. fold enrich. rewrite Hu. cbn [bind]. fold loop.
    rewrite IH, <- app_assoc. reflexivity.
Qed.

(** X5. Enrichment is idempotent: a run on the records that a run has
    written, with the same stations, writes the same document again and
    ends in the same way.  The fields that a run writes do not influence
    the search, and writing them a second time changes nothing. *)
Theorem process_again_is_identity (pandals metro_stations : list pydict)
    (out : output_data) (r : result (float * float)) :
  process pandals metro_stations = (Some out, r) ->
  process (data out) metro_stations = (Some out, r) /\
  length (data out) = length pandals.
Proof.
  unfold process, process_pandals_with_metro_data. fold loop. intros H.
  destruct (loop metro_stations pandals []) as [us|] eqn:Hloop; [|discriminate H].
  injection H as <- <-. cbn [data].
  destruct (enrich_loop_fixed metro_stations pandals [] us Hloop) as (us' & -> & Hlen & Hus).
  cbn [app]. rewrite (enrich_loop_on_fixed metro_stations us' Hus []). cbn [app].
  split; [reflexivity | exact Hlen].
Qed.

End EnrichmentEdges.

(** X4 on the first test query point. *)
Lemma process_without_stations_witness :
  process_pandals_with_metro_data SmallAngle.sin SmallAngle.cos SmallAngle.asin
    SmallAngle.pow [pandal_garia; pandal_briji] [] = (None, Raise TypeError).
Proof.
  apply (process_without_stations SmallAngle.sin SmallAngle.cos SmallAngle.asin
           SmallAngle.pow pandal_garia [pandal_briji]);
    eexists; vm_compute; reflexivity.
Defined.

(** X5 on two of the test query points and the two seed stations. *)
Lemma process_again_is_identity_witness :
  exists (out : output_data) (r : result (float * float)),
    process_pandals_with_metro_data SmallAngle.sin SmallAngle.cos SmallAngle.asin
      SmallAngle.pow [pandal_garia; pandal_briji] [kavi_subhash; shahid_khudiram]
    = (Some out, r) /\
    process_pandals_with_metro_data SmallAngle.sin SmallAngle.cos SmallAngle.asin
      SmallAngle.pow (data out) [kavi_subhash; shahid_khudiram] = (Some out, r) /\
    length (data out) = 2%nat.
Proof.
  destruct (process_pandals_with_metro_data SmallAngle.sin SmallAngle.cos SmallAngle.asin
              SmallAngle.pow [pandal_garia; pandal_briji] [kavi_subhash; shahid_khudiram])
    as [[out|] r] eqn:H.
  - exists out, r. split; [reflexivity|].
    apply (process_again_is_identity SmallAngle.sin SmallAngle.cos SmallAngle.asin
             SmallAngle.pow [pandal_garia; pandal_briji] [kavi_subhash; shahid_khudiram]
             out r H).
  - exfalso. vm_compute in H. discriminate H.
Defined.

(** * Further properties of [fetch_metro_details.py] *)

(** ** Integers as coordinates

  [PyFloat.of_int] never answers NaN: the conversion of an integer is a
  finite double or an [OverflowError]. *)

Module OfIntFacts.

Lemma round_aux_not_nan (s : bool) (m e : Z) (l : location) :
  0 <= m -> binary_round_aux prec emax s m e l <> S754_nan.
Proof.
  intros Hm. unfold binary_round_aux.
  destruct (FloatArith.shr_fexp_spec m e l Hm) as (mrs' & e' & -> & _ & Hm').
  pose proof (FloatArith.round_nearest_even_bounds (shr_m mrs') (loc_of_shr_record mrs'))
    as Hr.
  assert (Hm1 : 0 <= round_nearest_even (shr_m mrs') (loc_of_shr_record mrs')).
  { assert (0 <= shr_m mrs') by (rewrite Hm'; apply Z.shiftr_nonneg; exact Hm). lia. }
  destruct (FloatArith.shr_fexp_spec _ e' loc_Exact Hm1) as (mrs'' & e'' & -> & _ & Hm'').
  assert (Hpos : 0 <= shr_m mrs'') by (rewrite Hm''; apply Z.shiftr_nonneg; exact Hm1).
  destruct (shr_m mrs'') as [|p|p]; [discriminate | | lia].
  destruct (e'' <=? emax - prec); discriminate.
Qed.

Lemma binary_round_not_nan (s : bool) (m : positive) (e : Z) :
  binary_round prec emax s m e <> S754_nan.
Proof.
  unfold binary_round.
  destruct (shl_align m e (fexp prec emax (Z.pos (digits2_pos m) + e))) as [mz ez].
  apply round_aux_not_nan. lia.
Qed.

Lemma binary_normalize_not_nan (m e : Z) (szero : bool) :
  binary_normalize prec emax m e szero <> S754_nan.
Proof.
  destruct m; cbn [binary_normalize]; [discriminate | |]; apply binary_round_not_nan.
Qed.

Lemma SF2Prim_not_nan (x : spec_float) :
  x <> S754_nan -> Prim2SF (SF2Prim x) <> S754_nan.
Proof.
  destruct x as [[|]|[|]| |s m e]; intros Hx; try discriminate; [congruence|].
  cbn [SF2Prim].
  assert (Hf : Prim2SF (Z.ldexp (of_uint63 (Uint63Axioms.of_Z (Z.pos m))) e) <> S754_nan).
  { unfold Z.ldexp. rewrite ldshiftexp_spec, of_uint63_spec.
    pose proof (binary_normalize_not_nan
                  (Uint63Axioms.to_Z (Uint63Axioms.of_Z (Z.pos m))) 0 false) as Hn.
    destruct (binary_normalize prec emax _ 0 false) as [| | |s' m' e'];
      cbn [SFldexp]; try discriminate; [congruence|].
    apply binary_round_not_nan. }
  destruct s; [|exact Hf].
  rewrite opp_spec. destruct (Prim2SF _); (discriminate || congruence).
Qed.

Lemma of_int_finite (z : Z) (f : float) : PyFloat.of_int z = Ok f -> is_finite f = true.
Proof.
  unfold PyFloat.of_int.
  set (x := SF2Prim (binary_normalize prec emax z 0 false)).
  destruct (is_infinity x) eqn:Hinf; [discriminate|].
  intros H. injection H as <-.
  pose proof (SF2Prim_not_nan _ (binary_normalize_not_nan z 0 false)) as Hnan.
  fold x in Hnan.
  rewrite PyFloatFacts.is_finite_SF. rewrite PyFloatFacts.is_infinity_SF in Hinf.
  destruct (Prim2SF x); (reflexivity || discriminate || congruence).
Qed.

End OfIntFacts.

(** ** The precision check *)

(** A coordinate that is no NaN and no infinity; everything that is not a
    float counts as finite. *)
Definition finite_coordinate (v : value) : bool :=
  match v with
  | VFloat f => is_finite f
  | _ => true
  end.

Definition finite_coordinates (s : pydict) : bool :=
  finite_coordinate (get_or_zero s "latitude")
  && finite_coordinate (get_or_zero s "longitude").

(** The places that the check counts: seven for a finite number, three or
    four (the letters of [nan], [inf], [-inf]) otherwise. *)
Lemma format_7f_decimals (v : value) (str : string) :
  format_7f v = Ok str ->
  if finite_coordinate v then decimals str = 7%nat else (decimals str < 7)%nat.
Proof.
  destruct v as [|b|z|f|s|l]; cbn [format_7f finite_coordinate]; try discriminate.
  - intros H. injection H as <-. apply decimals_format_7f. destruct b; reflexivity.
  - destruct (PyFloat.of_int z) as [f|] eqn:Hz; [|discriminate]. cbn [bind].
    intros H. injection H as <-. apply decimals_format_7f.
    apply (OfIntFacts.of_int_finite z f Hz).
  - intros H. injection H as <-.
    destruct (is_finite f) eqn:Hf; [apply decimals_format_7f; exact Hf|].
    rewrite PyFloatFacts.is_finite_SF in Hf. unfold PyFloat.format_f.
    destruct (Prim2SF f) as [s|[|]| |s m e]; try discriminate; vm_compute; lia.
Qed.

Lemma verify_loop_answer (stations : list pydict) :
  forall all_correct b : bool,
    verify_loop stations all_correct = Ok b ->
    b = all_correct && forallb finite_coordinates stations.
Proof.
  induction stations as [|s rest IH]; intros acc b H.
  - injection H as <-. rewrite andb_true_r. reflexivity.
  - cbn [verify_loop] in H.
    destruct (format_7f (get_or_zero s "latitude")) as [lat_str|] eqn:Hlat;
      [|discriminate H].
    destruct (format_7f (get_or_zero s "longitude")) as [lng_str|] eqn:Hlng;
      [|discriminate H].
    cbn [bind] in H.
    destruct (getitem s "name") as [name|]; [|discriminate H]. cbn [bind] in H.
    apply IH in H. subst b. cbn [forallb]. unfold finite_coordinates at 2.
    pose proof (format_7f_decimals _ _ Hlat) as H1.
    pose proof (format_7f_decimals _ _ Hlng) as H2.
    destruct (finite_coordinate (get_or_zero s "latitude")),
             (finite_coordinate (get_or_zero s "longitude"));
      repeat match goal with
             | E : decimals _ = 7%nat |- _ => rewrite E; clear E
             | E : (decimals ?x < 7)%nat |- _ =>
                 replace (decimals x =? 7)%nat with false
                   by (symmetry; apply Nat.eqb_neq; lia); clear E
             end;
      cbn [Nat.eqb andb negb]; destruct acc; reflexivity.
Qed.

(** X6. When the precision check returns, its answer does not depend on
    how many decimals a coordinate was stored with: it is [False] exactly
    when some station has NaN or an infinity as a coordinate, and [True]
    for all other numbers, a missing coordinate counting as [0]. *)
Theorem verify_answers_finiteness (stations : list pydict) (b : bool) :
  verify_coordinate_precision stations = Ok b ->
  b = forallb finite_coordinates stations.
Proof. intros H. apply verify_loop_answer in H. exact H. Qed.

(** A coordinate that the formatting with [.7f] accepts without further
    condition: a float or a boolean, or no entry at all. *)
Definition plain_coordinate (o : option value) : Prop :=
  match o with
  | None | Some (VFloat _) | Some (VBool _) => True
  | _ => False
  end.

Definition plain_coordinates (s : pydict) : Prop :=
  plain_coordinate (s !! "latitude"%string) /\ plain_coordinate (s !! "longitude"%string).

Definition has_name (s : pydict) : bool := bool_decide (is_Some (s !! "name"%string)).

Lemma format_7f_plain (s : pydict) (key : string) :
  plain_coordinate (s !! key) -> exists str : string, format_7f (get_or_zero s key) = Ok str.
Proof.
  unfold get_or_zero. destruct (s !! key) as [[]|]; cbn; intros H; try contradiction;
    eexists; reflexivity.
Qed.

Lemma verify_loop_plain (stations : list pydict) :
  Forall plain_coordinates stations ->
  forall all_correct : bool,
    verify_loop stations all_correct
    = if forallb has_name stations
      then Ok (all_correct && forallb finite_coordinates stations)
      else Raise (KeyError "name").
Proof.
  induction 1 as [|s rest [Hlat Hlng] _ IH]; intros acc.
  - cbn. rewrite andb_true_r. reflexivity.
  - destruct (verify_loop (s :: rest) acc) as [b|e] eqn:Hrun.
    + pose proof (verify_loop_answer _ _ _ Hrun) as ->.
      cbn [verify_loop] in Hrun.
      destruct (format_7f_plain s "latitude" Hlat) as [lat_str Hlat'].
      destruct (format_7f_plain s "longitude" Hlng) as [lng_str Hlng'].
      rewrite Hlat', Hlng' in Hrun. cbn [bind] in Hrun.
      cbn [forallb]. unfold getitem in Hrun. unfold has_name at 1.
      destruct (s !! "name"%string) as [name|]; [|discriminate Hrun].
      cbn [bind] in Hrun. rewrite IH in Hrun.
      rewrite bool_decide_true by eauto. cbn [andb].
      destruct (forallb has_name rest); [reflexivity | discriminate Hrun].
    + cbn [verify_loop] in Hrun.
      destruct (format_7f_plain s "latitude" Hlat) as [lat_str Hlat'].
      destruct (format_7f_plain s "longitude" Hlng) as [lng_str Hlng'].
      rewrite Hlat', Hlng' in Hrun. cbn [bind] in Hrun.
      cbn [forallb]. unfold getitem in Hrun. unfold has_name at 1.
      destruct (s !! "name"%string) as [name|].
      * cbn [bind] in Hrun. rewrite IH in Hrun.
        rewrite bool_decide_true by eauto. cbn [andb].
        destruct (forallb has_name rest); [discriminate Hrun | exact (eq_sym Hrun)].
      * cbn [bind] in Hrun. rewrite bool_decide_false by (intros [? ?]; discriminate).
        cbn [andb]. exact (eq_sym Hrun).
Qed.

(** X7. On stations whose coordinates are floats (or booleans, or
    absent), the precision check is decided by two things only: it
    raises [KeyError('name')] when some station has no name, because the
    report line of every station reads it; otherwise it returns, and its
    answer is whether all coordinates are finite. *)
Theorem verify_on_float_coordinates (stations : list pydict) :
  Forall plain_coordinates stations ->
  verify_coordinate_precision stations
  = if forallb has_name stations
    then Ok (forallb finite_coordinates stations)
    else Raise (KeyError "name").
Proof. intros H. apply (verify_loop_plain stations H true). Qed.

(** X6 on a station with a NaN latitude behind the two seed stations. *)
Lemma verify_answers_finiteness_witness :
  false = forallb finite_coordinates [kavi_subhash; shahid_khudiram; station_nan].
Proof.
  apply (verify_answers_finiteness [kavi_subhash; shahid_khudiram; station_nan] false).
  vm_compute. reflexivity.
Defined.

(** X7 on the seed stations and on a station without a name. *)
Lemma verify_on_float_coordinates_witness :
  verify_coordinate_precision [kavi_subhash; {[ "latitude"%string := VFloat 22.5 ]}]
  = if forallb has_name [kavi_subhash; {[ "latitude"%string := VFloat 22.5 ]}]
    then Ok (forallb finite_coordinates
               [kavi_subhash; {[ "latitude"%string := VFloat 22.5 ]}])
    else Raise (KeyError "name").
Proof.
  apply (verify_on_float_coordinates [kavi_subhash; {[ "latitude"%string := VFloat 22.5 ]}]).
  repeat constructor.
Defined.

(** The three outcomes of the check. *)
Example verify_outcomes :
  verify_coordinate_precision [kavi_subhash; shahid_khudiram] = Ok true /\
  verify_coordinate_precision [kavi_subhash; station_nan] = Ok false /\
  verify_coordinate_precision [kavi_subhash; {[ "latitude"%string := VFloat 22.5 ]}]
  = Raise (KeyError "name") /\
  verify_coordinate_precision [ {[ "name"%string := VStr "Unsurveyed" ]} ] = Ok true /\
  verify_coordinate_precision
    [ <[ "latitude"%string := VNone ]> {[ "name"%string := VStr "Unsurveyed" ]} ]
  = Raise TypeError.
Proof. conjuncts; vm_compute; reflexivity. Qed.

(** ** The resolve-all pass *)

(** The stations that [scrape_all_coordinates] passes over: both
    coordinates are stored, and they are finite numbers. *)
Definition stored_numbers (s : pydict) : bool :=
  match s !! "latitude"%string, s !! "longitude"%string with
  | Some lat, Some lng =>
      is_number lat && is_number lng && finite_coordinate lat && finite_coordinate lng
  | _, _ => false
  end.

Lemma already_precise_answer (s : pydict) (b : bool) :
  already_precise s = Ok b -> b = stored_numbers s.
Proof.
  unfold already_precise, stored_numbers.
  destruct (s !! "latitude"%string) as [lat|]; [|intros H; injection H as <-; reflexivity].
  destruct (s !! "longitude"%string) as [lng|]; [|intros H; injection H as <-; reflexivity].
  destruct (is_number lat && is_number lng); [|intros H; injection H as <-; reflexivity].
  destruct (format_7f lat) as [lat_str|] eqn:Hlat; [|discriminate].
  destruct (format_7f lng) as [lng_str|] eqn:Hlng; [|discriminate].
  cbn [bind].
  pose proof (format_7f_decimals _ _ Hlat) as H1.
  pose proof (format_7f_decimals _ _ Hlng) as H2.
  assert (E1 : (7 <=? decimals lat_str)%nat = finite_coordinate lat).
  { destruct (finite_coordinate lat); [rewrite H1; reflexivity | apply Nat.leb_gt; exact H1]. }
  assert (E2 : (7 <=? decimals lng_str)%nat = finite_coordinate lng).
  { destruct (finite_coordinate lng); [rewrite H2; reflexivity | apply Nat.leb_gt; exact H2]. }
  rewrite E1, E2. intros H. injection H as <-. reflexivity.
Qed.

Section ScraperStructure.

Variable get_coordinates : value -> value * value.

(** What one turn of the loop does to a station [s], giving [s']; [u] and
    [f] tell whether the turn counts an update or records a failure. *)
Definition scrape_step (s s' : pydict) (u f : bool) : Prop :=
  (stored_numbers s = true /\ s' = s /\ u = false /\ f = false)
  \/ exists name lat lng : value,
       s !! "name"%string = Some name /\ stored_numbers s = false /\
       get_coordinates name = (lat, lng) /\
       ((is_none lat || is_none lng = true /\ s' = s /\ u = false /\ f = true)
        \/ (is_none lat || is_none lng = false /\ u = true /\ f = false /\
            exists lat' lng' : value,
              round_7 lat = Ok lat' /\ round_7 lng = Ok lng' /\
              s' = <[ "longitude"%string := lng' ]> (<[ "latitude"%string := lat' ]> s))).

Lemma scrape_step_keeps (s s' : pydict) (u f : bool) :
  scrape_step s s' u f ->
  (stored_numbers s = true -> s' = s) /\
  (forall k : string, k <> "latitude"%string -> k <> "longitude"%string -> s' !! k = s !! k).
Proof.
  intros [(Hs & -> & _) | (name & lat & lng & _ & Hs & _ & [(_ & -> & _) | H])].
  - auto.
  - split; [reflexivity | auto].
  - destruct H as (_ & _ & _ & lat' & lng' & _ & _ & ->). split; [congruence|].
    intros k H1 H2. rewrite !lookup_insert_ne by congruence. reflexivity.
Qed.

(** The number of turns that count an update, and of those that record a
    failure. *)
Inductive scrape_run : list pydict -> list pydict -> nat -> nat -> Prop :=
| scrape_run_nil : scrape_run [] [] 0 0
| scrape_run_cons (s s' : pydict) (u f : bool) (rest rest' : list pydict) (nu nf : nat) :
    scrape_step s s' u f -> scrape_run rest rest' nu nf ->
    scrape_run (s :: rest) (s' :: rest')
      ((if u then 1 else 0) + nu) ((if f then 1 else 0) + nf).

Lemma scrape_loop_run (stations : list pydict) :
  forall (done : list pydict) (n : Z) (failed : list value)
         (out : list pydict) (n' : Z) (failed' : list value),
    scrape_loop get_coordinates stations done n failed = Ok (out, n', failed') ->
    exists (outs : list pydict) (nu nf : nat) (names : list value),
      out = done ++ outs /\ scrape_run stations outs nu nf /\
      n' = n + Z.of_nat nu /\ failed' = failed ++ names /\ length names = nf.
Proof.
  induction stations as [|s rest IH]; intros done n failed out n' failed' H.
  - injection H as <- <- <-. exists [], 0%nat, 0%nat, [].
    rewrite !app_nil_r. repeat split; [constructor | lia].
  - cbn [scrape_loop] in H. unfold getitem in H.
    destruct (s !! "name"%string) as [name|] eqn:Hname; [|discriminate H].
    cbn [bind] in H.
    destruct (already_precise s) as [precise|] eqn:Hp; [|discriminate H].
    cbn [bind] in H. apply already_precise_answer in Hp. subst precise.
    destruct (stored_numbers s) eqn:Hs.
    + destruct (IH _ _ _ _ _ _ H) as (outs & nu & nf & names & -> & Hrun & -> & -> & Hlen).
      exists (s :: outs), nu, nf, names. rewrite <- app_assoc.
      repeat split; try assumption.
      apply (scrape_run_cons s s false false); [|exact Hrun]. left. auto.
    + destruct (get_coordinates name) as [lat lng] eqn:Hget.
      destruct (negb (is_none lat) && negb (is_none lng)) eqn:Hfound.
      * destruct (round_7 lat) as [lat'|] eqn:Hlat; [|discriminate H].
        destruct (round_7 lng) as [lng'|] eqn:Hlng; [|discriminate H].
        cbn [bind] in H.
        destruct (IH _ _ _ _ _ _ H) as (outs & nu & nf & names & -> & Hrun & -> & -> & Hlen).
        exists (<[ "longitude"%string := lng' ]> (<[ "latitude"%string := lat' ]> s) :: outs),
          (1 + nu)%nat, nf, names.
        rewrite <- app_assoc. repeat split; try assumption; [|lia].
        apply (scrape_run_cons s _ true false); [|exact Hrun].
        right. exists name, lat, lng. repeat split; try assumption.
        right. split; [destruct (is_none lat), (is_none lng); (reflexivity || discriminate)|].
        repeat split. exists lat', lng'. auto.
      * destruct (IH _ _ _ _ _ _ H) as (outs & nu & nf & names & -> & Hrun & -> & -> & Hlen).
        exists (s :: outs), nu, (1 + nf)%nat, (name :: names).
        rewrite <- !app_assoc. repeat split; try assumption; [|cbn; lia].
        apply (scrape_run_cons s s false true); [|exact Hrun].
        right. exists name, lat, lng. repeat split; try assumption.
        left. split; [destruct (is_none lat), (is_none lng); (reflexivity || discriminate)|].
        auto.
Qed.

Lemma scrape_run_structure (stations outs : list pydict) (nu nf : nat) :
  scrape_run stations outs nu nf ->
  Forall2 (fun s s' =>
             (stored_numbers s = true -> s' = s) /\
             (forall k : string,
                 k <> "latitude"%string -> k <> "longitude"%string -> s' !! k = s !! k))
    stations outs /\
  (nu + nf = length (List.filter (fun s => negb (stored_numbers s)) stations))%nat.
Proof.
  induction 1 as [|s s' u f rest rest' nu nf Hstep _ [IH1 IH2]].
  - split; [constructor | reflexivity].
  - split; [constructor; [exact (scrape_step_keeps _ _ _ _ Hstep) | exact IH1]|].
    cbn [List.filter].
    destruct Hstep as [(Hs & _ & -> & ->) | (name & lat & lng & _ & Hs & _ & Hcase)].
    + rewrite Hs. cbn. exact IH2.
    + rewrite Hs. cbn [negb length].
      destruct Hcase as [(_ & _ & -> & ->) | (_ & -> & -> & _)]; cbn; lia.
Qed.

(** X8. A resolve-all pass that completes keeps the list in shape: the
    saved list has the stations of the loaded list in the same order; a
    station that stores two finite numbers is saved as it is; in any
    other station only ['latitude'] and ['longitude'] can differ; and
    every station that does not store two finite numbers is either
    counted as updated or listed as failed. *)
Theorem scrape_all_keeps_structure (stations out : list pydict) (updated_count : Z)
    (failed_stations : list value) :
  scrape_all_coordinates get_coordinates stations
  = Ok (Some (out, updated_count, failed_stations)) ->
  length out = length stations /\
  (forall (i : nat) (s : pydict),
      stations !! i = Some s ->
      exists s' : pydict,
        out !! i = Some s' /\
        (stored_numbers s = true -> s' = s) /\
        (forall k : string,
            k <> "latitude"%string -> k <> "longitude"%string -> s' !! k = s !! k)) /\
  0 <= updated_count /\
  updated_count + Z.of_nat (length failed_stations)
  = Z.of_nat (length (List.filter (fun s => negb (stored_numbers s)) stations)).
Proof.
  unfold scrape_all_coordinates. intros H.
  destruct stations as [|s0 rest]; [discriminate H|].
  destruct (scrape_loop get_coordinates (s0 :: rest) [] 0 []) as [[[out' n'] failed']|] eqn:Hloop;
    [|discriminate H].
  cbn [bind] in H. injection H as <- <- <-.
  destruct (scrape_loop_run _ _ _ _ _ _ _ Hloop)
    as (outs & nu & nf & names & -> & Hrun & -> & -> & Hlen).
  cbn [app] in *.
  destruct (scrape_run_structure _ _ _ _ Hrun) as [Hshape Hcount].
  split; [symmetry; exact (Forall2_length _ _ _ Hshape)|]. split.
  - intros i s Hi.
    destruct (Forall2_lookup_l _ _ _ _ _ Hshape Hi) as (s' & Hs' & Hkeep).
    exists s'. split; [exact Hs' | exact Hkeep].
  - split; [lia|]. rewrite <- Hcount, Hlen. lia.
Qed.

End ScraperStructure.

(** X8 on a seed station and a station without coordinates, with a
    resolver that answers the centre of the city. *)
Lemma scrape_all_keeps_structure_witness :
  let stations := [kavi_subhash; {[ "name"%string := VStr "Unsurveyed" ]}] in
  let out :=
    [kavi_subhash;
     <[ "longitude"%string := VFloat 88.3639 ]>
       (<[ "latitude"%string := VFloat 22.5726 ]> {[ "name"%string := VStr "Unsurveyed" ]})] in
  length out = length stations /\
  (forall (i : nat) (s : pydict),
      stations !! i = Some s ->
      exists s' : pydict,
        out !! i = Some s' /\
        (stored_numbers s = true -> s' = s) /\
        (forall k : string,
            k <> "latitude"%string -> k <> "longitude"%string -> s' !! k = s !! k)) /\
  0 <= 1 /\
  1 + Z.of_nat (length (@nil value))
  = Z.of_nat (length (List.filter (fun s => negb (stored_numbers s)) stations)).
Proof.
  apply (scrape_all_keeps_structure (fun _ => (VFloat 22.5726, VFloat 88.3639))
           [kavi_subhash; {[ "name"%string := VStr "Unsurveyed" ]}]).
  vm_compute. reflexivity.
Defined.

(** ** The resolvers as the passes use them *)

Section ScraperWithResolver.

Variable quote : string -> string.
Variable requests_get : string -> result (Z * text).

(** The text that an f-string puts for [station_name]; for a string it
    is the string itself. *)
Variable format_name : value -> string.

(** [self.get_google_maps_coordinates(station_name)], with the default
    location. *)
Definition resolve_by_name (station_name : value) : value * value :=
  get_google_maps_coordinates quote requests_get (format_name station_name) "Kolkata".

Lemma get_google_maps_coordinates_shape (station_name location : string) :
  get_google_maps_coordinates quote requests_get station_name location = (VNone, VNone)
  \/ exists x y : float,
       in_kolkata x y = true /\
       get_google_maps_coordinates quote requests_get station_name location
       = (VFloat (PyFloat.round x 7), VFloat (PyFloat.round y 7)).
Proof.
  unfold get_google_maps_coordinates.
  destruct (requests_get _) as [[status_code response_text]|e]; [|left; reflexivity].
  cbn [bind]. destruct (status_code =? 200); [|left; reflexivity].
  rewrite scan_patterns_candidates.
  destruct (scan_matches _) as [[[lat lng]|]|e] eqn:Hscan; cbn [bind];
    [|left; reflexivity|left; reflexivity].
  destruct (scan_matches_some _ lat lng Hscan) as (x & y & Hin & -> & ->).
  right. exists x, y. auto.
Qed.

Lemma scrape_run_steps (get_coordinates : value -> value * value)
    (stations outs : list pydict) (nu nf : nat) :
  scrape_run get_coordinates stations outs nu nf ->
  Forall2 (fun s s' => exists u f : bool, scrape_step get_coordinates s s' u f) stations outs.
Proof. induction 1; constructor; eauto. Qed.

(** X9. In a resolve-all pass with the primary resolver, every station
    of the saved list is either the loaded station, unchanged, or the
    loaded station with the very pair that the resolver returned for its
    name stored as ['latitude'] and ['longitude']: the second rounding
    of the pass changes nothing, and the stored pair lies in the
    bounding box. *)
Theorem scrape_all_stores_resolver_answer (stations out : list pydict)
    (updated_count : Z) (failed_stations : list value) :
  scrape_all_coordinates resolve_by_name stations
  = Ok (Some (out, updated_count, failed_stations)) ->
  forall (i : nat) (s s' : pydict),
    stations !! i = Some s -> out !! i = Some s' ->
    s' = s
    \/ exists (name : value) (lat lng : float),
         s !! "name"%string = Some name /\
         resolve_by_name name = (VFloat lat, VFloat lng) /\
         in_kolkata lat lng = true /\
         s' = <[ "longitude"%string := VFloat lng ]> (<[ "latitude"%string := VFloat lat ]> s).
Proof.
  unfold scrape_all_coordinates. intros H i s s' Hs Hs'.
  destruct stations as [|s0 rest]; [discriminate H|].
  destruct (scrape_loop resolve_by_name (s0 :: rest) [] 0 [])
    as [[[out' n'] failed']|] eqn:Hloop; [|discriminate H].
  cbn [bind] in H. injection H as <- <- <-.
  destruct (scrape_loop_run _ _ _ _ _ _ _ _ Hloop)
    as (outs & nu & nf & names & -> & Hrun & _).
  cbn [app] in Hs'.
  pose proof (scrape_run_steps _ _ _ _ _ Hrun) as Hsteps.
  destruct (Forall2_lookup_l _ _ _ _ _ Hsteps Hs) as (s'' & Hs'' & u & f & Hstep).
  rewrite Hs' in Hs''. injection Hs'' as <-.
  destruct Hstep as [(_ & -> & _) | (name & lat & lng & Hname & _ & Hget & Hcase)];
    [left; reflexivity|].
  destruct Hcase as [(_ & -> & _) | (Hfound & _ & _ & lat' & lng' & Hlat & Hlng & ->)];
    [left; reflexivity|].
  right. unfold resolve_by_name in *.
  destruct (get_google_maps_coordinates_shape (format_name name) "Kolkata")
    as [Hnone | (x & y & Hin & Hxy)].
  - rewrite Hnone in Hget. injection Hget as <- <-. discriminate Hfound.
  - rewrite Hxy in Hget. injection Hget as <- <-.
    cbn [round_7] in Hlat, Hlng. rewrite RoundFacts.round_7_idempotent in Hlat, Hlng.
    injection Hlat as <-. injection Hlng as <-.
    exists name, (PyFloat.round x 7), (PyFloat.round y 7).
    split; [exact Hname|]. split; [exact Hxy|].
    split; [apply in_kolkata_round; exact Hin | reflexivity].
Qed.

Lemma first_match_valid_box (matches : list (list text)) (lat lng : float) :
  first_match_valid matches = Ok (Some (lat, lng)) -> in_kolkata lat lng = true.
Proof.
  unfold first_match_valid, in_kolkata.
  destruct matches as [|[|a [|b [|d c]]] rest]; try discriminate.
  destruct (PyFloat.float_of_capture a) as [x|]; [|discriminate]. cbn [bind].
  destruct ((22.0 <=? x)%float && (x <=? 23.0)%float) eqn:Hx; [|discriminate].
  destruct (PyFloat.float_of_capture b) as [y|]; [|discriminate]. cbn [bind].
  destruct ((87.0 <=? y)%float && (y <=? 89.0)%float) eqn:Hy; [|discriminate].
  intros H. injection H as <- <-. rewrite Hx. cbn [andb].
  apply andb_prop in Hy as [-> ->]. reflexivity.
Qed.

Lemma scan_patterns_alternative_box (ps : list Re.pattern) (response_text : text)
    (lat lng : float) :
  scan_patterns_alternative ps response_text = Ok (Some (lat, lng)) ->
  in_kolkata lat lng = true.
Proof.
  induction ps as [|p ps IH]; [discriminate|]. cbn [scan_patterns_alternative].
  destruct (first_match_valid (Re.findall p response_text)) as [[[x y]|]|] eqn:Hp;
    cbn [bind]; [|exact IH|discriminate].
  intros H. injection H as <- <-. apply (first_match_valid_box _ _ _ Hp).
Qed.

Lemma try_url_box (url : string) (lat lng : float) :
  try_url requests_get url = Some (lat, lng) -> in_kolkata lat lng = true.
Proof.
  unfold try_url.
  destruct (requests_get url) as [[status_code response_text]|]; [|discriminate].
  cbn [bind]. destruct (status_code =? 200); [|discriminate].
  destruct (scan_patterns_alternative patterns response_text) as [r|] eqn:Hscan;
    [|discriminate].
  intros ->. apply (scan_patterns_alternative_box _ _ _ _ Hscan).
Qed.

Lemma try_urls_box (urls : list string) (lat lng : float) :
  try_urls requests_get urls = Some (lat, lng) -> in_kolkata lat lng = true.
Proof.
  induction urls as [|url urls IH]; [discriminate|]. cbn [try_urls].
  destruct (try_url requests_get url) as [[x y]|] eqn:Hurl; [|exact IH].
  intros H. injection H as <- <-. apply (try_url_box _ _ _ Hurl).
Qed.

Lemma try_queries_box (queries : list string) (lat lng : float) :
  try_queries quote requests_get queries = Some (lat, lng) -> in_kolkata lat lng = true.
Proof.
  induction queries as [|q queries IH]; [discriminate|]. cbn [try_queries].
  destruct (try_urls requests_get _) as [[x y]|] eqn:Hurls; [|exact IH].
  intros H. injection H as <- <-. apply (try_urls_box _ _ _ Hurls).
Qed.

(** X10. Whatever the nine requests answer, the alternative resolver
    returns either [(None, None)] or two floats inside the bounding box;
    it never returns one coordinate without the other, and never a pair
    outside the box. *)
Theorem alternative_returns_none_or_in_box (station_name location : string) :
  get_coordinates_alternative quote requests_get station_name location = (VNone, VNone)
  \/ exists lat lng : float,
       get_coordinates_alternative quote requests_get station_name location
       = (VFloat lat, VFloat lng) /\
       (22.0 <=? lat)%float = true /\ (lat <=? 23.0)%float = true /\
       (87.0 <=? lng)%float = true /\ (lng <=? 89.0)%float = true.
Proof.
  unfold get_coordinates_alternative.
  destruct (try_queries quote requests_get _) as [[lat lng]|] eqn:Hq; [|left; reflexivity].
  right. exists lat, lng. split; [reflexivity|].
  pose proof (try_queries_box _ _ _ Hq) as Hbox. unfold in_kolkata in Hbox.
  apply andb_prop in Hbox as [Hbox H4]. apply andb_prop in Hbox as [Hbox H3].
  apply andb_prop in Hbox as [H1 H2]. auto.
Qed.

End ScraperWithResolver.

(** The text of a station name in an f-string, for names that are
    strings. *)
Definition name_text (name : value) : string :=
  match name with
  | VStr s => s
  | _ => EmptyString
  end.

(** A station without coordinates, and the same station with the centre
    of the city as its coordinates. *)
Definition kalighat_bare : pydict := {[ "name"%string := VStr "Kalighat" ]}.
Definition kalighat_resolved : pydict :=
  <[ "longitude"%string := VFloat 88.3639 ]>
    (<[ "latitude"%string := VFloat 22.5726 ]> kalighat_bare).

Lemma kalighat_pass :
  scrape_all_coordinates (resolve_by_name no_quote (mock "@22.5726,88.3639") name_text)
    [kavi_subhash; kalighat_bare]
  = Ok (Some ([kavi_subhash; kalighat_resolved], 1, [])).
Proof. vm_compute. reflexivity. Qed.

(** X9 on a seed station followed by a station without coordinates, the
    page answering with the centre of the city. *)
Lemma scrape_all_stores_resolver_answer_witness :
  kalighat_resolved = kalighat_bare
  \/ exists (name : value) (lat lng : float),
       kalighat_bare !! "name"%string = Some name /\
       resolve_by_name no_quote (mock "@22.5726,88.3639") name_text name
       = (VFloat lat, VFloat lng) /\
       in_kolkata lat lng = true /\
       kalighat_resolved
       = <[ "longitude"%string := VFloat lng ]> (<[ "latitude"%string := VFloat lat ]> kalighat_bare).
Proof.
  exact (scrape_all_stores_resolver_answer no_quote (mock "@22.5726,88.3639") name_text
           [kavi_subhash; kalighat_bare] [kavi_subhash; kalighat_resolved] 1 []
           kalighat_pass 1%nat kalighat_bare kalighat_resolved eq_refl eq_refl).
Defined.

(** ** [final_fix_coordinates]

  The pass that rounds every stored coordinate to seven places.  What
  [float] makes of a string is a parameter of the section. *)

Section FinalFix.

(** [float(s)] for a [str]. *)
Variable float_of_str : string -> result float.

(** [float(v)] for a JSON value. *)
Definition py_float (v : value) : result float :=
  match v with
  | VFloat f => Ok f
  | VInt z => PyFloat.of_int z
  | VBool b => Ok (if b then 1 else 0)%float
  | VStr s => float_of_str s
  | VNone | VList _ => Raise TypeError
  end.

(** The loop of [final_fix_coordinates]: [done] are the stations already
    visited, as they stand in the list after the visit. *)
Fixpoint final_fix_loop (stations done : list pydict) (updated_count : Z)
  : result (list pydict * Z) :=
  match stations with
  | [] => Ok (done, updated_count)
  | station :: rest =>
      let* station_name := getitem station "name" in
      let current_lat := get_or_zero station "latitude" in
      let current_lng := get_or_zero station "longitude" in
      let* lat_f := py_float current_lat in
      let lat_7_decimals := PyFloat.round lat_f 7 in
      let* lng_f := py_float current_lng in
      let lng_7_decimals := PyFloat.round lng_f 7 in
      let station :=
        <[ "longitude"%string := VFloat lng_7_decimals ]>
          (<[ "latitude"%string := VFloat lat_7_decimals ]> station) in
      final_fix_loop rest (done ++ [station]) (updated_count + 1)
  end.

(** [final_fix_coordinates] on the loaded list: [None] is the early
    [return] on an empty list; otherwise the list that is saved and the
    number of updated stations. *)
Definition final_fix_coordinates (stations : list pydict)
  : result (option (list pydict * Z)) :=
  match stations with
  | [] => Ok None
  | _ :: _ => let* r := final_fix_loop stations [] 0 in Ok (Some r)
  end.

(** What the pass makes of one station. *)
Definition final_fixed (s s' : pydict) : Prop :=
  is_Some (s !! "name"%string) /\
  exists lat_f lng_f : float,
    py_float (get_or_zero s "latitude") = Ok lat_f /\
    py_float (get_or_zero s "longitude") = Ok lng_f /\
    s' = <[ "longitude"%string := VFloat (PyFloat.round lng_f 7) ]>
           (<[ "latitude"%string := VFloat (PyFloat.round lat_f 7) ]> s).

Lemma final_fix_loop_spec (stations : list pydict) :
  forall (done : list pydict) (n : Z) (out : list pydict) (n' : Z),
    final_fix_loop stations done n = Ok (out, n') ->
    exists outs : list pydict,
      out = done ++ outs /\ Forall2 final_fixed stations outs /\
      n' = n + Z.of_nat (length stations).
Proof.
  induction stations as [|s rest IH]; intros done n out n' H.
  - injection H as <- <-. exists []. rewrite app_nil_r. repeat split; [constructor | cbn; lia].
  - cbn [final_fix_loop] in H. unfold getitem in H.
    destruct (s !! "name"%string) as [name|] eqn:Hname; [|discriminate H].
    cbn [bind] in H.
    destruct (py_float (get_or_zero s "latitude")) as [lat_f|] eqn:Hlat; [|discriminate H].
    cbn [bind] in H.
    destruct (py_float (get_or_zero s "longitude")) as [lng_f|] eqn:Hlng; [|discriminate H].
    cbn [bind] in H.
    destruct (IH _ _ _ _ H) as (outs & -> & Hrest & ->).
    eexists (_ :: outs). rewrite <- app_assoc. split; [reflexivity|]. split.
    + constructor; [|exact Hrest]. split; [eauto|]. exists lat_f, lng_f. auto.
    + cbn [length]. lia.
Qed.

Lemma lookup_coordinates (m : pydict) (lat lng : value) (k : string) :
  (<[ "longitude"%string := lng ]> (<[ "latitude"%string := lat ]> m)) !! k
  = if decide ("longitude"%string = k) then Some lng
    else if decide ("latitude"%string = k) then Some lat
    else m !! k.
Proof.
  repeat (case_decide; [subst k; apply lookup_insert_eq
                       | rewrite lookup_insert_ne by assumption]).
  reflexivity.
Qed.

Lemma final_fixed_twice (s s' : pydict) :
  final_fixed s s' -> final_fixed s' s'.
Proof.
  intros ([name Hname] & lat_f & lng_f & Hlat & Hlng & ->).
  split; [exists name; rewrite !lookup_insert_ne by discriminate; exact Hname|].
  exists (PyFloat.round lat_f 7), (PyFloat.round lng_f 7).
  unfold get_or_zero.
  rewrite lookup_insert_eq.
  rewrite (lookup_insert_ne _ "longitude"%string "latitude"%string) by discriminate.
  rewrite lookup_insert_eq. cbn [default from_option id py_float].
  split; [reflexivity|]. split; [reflexivity|].
  rewrite !RoundFacts.round_7_idempotent.
  apply map_eq. intros k. rewrite !lookup_coordinates.
  repeat case_decide; reflexivity.
Qed.

Lemma final_fix_loop_fixed (outs : list pydict) :
  Forall (fun s' => final_fixed s' s') outs ->
  forall (done : list pydict) (n : Z),
    final_fix_loop outs done n = Ok (done ++ outs, n + Z.of_nat (length outs)).
Proof.
  induction 1 as [|s' outs Hs' _ IH]; intros done n.
  - rewrite app_nil_r. cbn. f_equal. f_equal. lia.
  - destruct Hs' as ([name Hname] & lat_f & lng_f & Hlat & Hlng & Heq).
    cbn [final_fix_loop]. unfold getitem. rewrite Hname, Hlat, Hlng. cbn [bind].
    rewrite <- Heq, IH, <- app_assoc. cbn [app length]. f_equal. f_equal. lia.
Qed.

Lemma py_float_zero : py_float (VInt 0) = Ok 0%float.
Proof. reflexivity. Qed.

Lemma round_zero : PyFloat.round 0 7 = 0%float.
Proof. reflexivity. Qed.

(** X11. A final fix that completes has visited every station: the
    count of updates is the number of stations, the saved list has the
    stations in the same order, and each saved station stores two floats
    that are equal to their own rounding to seven places, namely the
    rounding of the loaded coordinate, or [0.0] where the loaded station
    had no such key.  No other key is touched. *)
Theorem final_fix_rounds_every_station (stations out : list pydict) (updated_count : Z) :
  final_fix_coordinates stations = Ok (Some (out, updated_count)) ->
  updated_count = Z.of_nat (length stations) /\
  length out = length stations /\
  forall (i : nat) (s : pydict),
    stations !! i = Some s ->
    exists (s' : pydict) (lat lng : float),
      out !! i = Some s' /\
      s' !! "latitude"%string = Some (VFloat lat) /\
      s' !! "longitude"%string = Some (VFloat lng) /\
      PyFloat.round lat 7 = lat /\ PyFloat.round lng 7 = lng /\
      (forall x : float, s !! "latitude"%string = Some (VFloat x) -> lat = PyFloat.round x 7) /\
      (forall x : float, s !! "longitude"%string = Some (VFloat x) -> lng = PyFloat.round x 7) /\
      (s !! "latitude"%string = None -> lat = 0%float) /\
      (s !! "longitude"%string = None -> lng = 0%float) /\
      (forall k : string,
          k <> "latitude"%string -> k <> "longitude"%string -> s' !! k = s !! k).
Proof.
  unfold final_fix_coordinates. intros H.
  destruct stations as [|s0 rest]; [discriminate H|].
  destruct (final_fix_loop (s0 :: rest) [] 0) as [[out' n']|] eqn:Hloop; [|discriminate H].
  cbn [bind] in H. injection H as <- <-.
  destruct (final_fix_loop_spec _ _ _ _ _ Hloop) as (outs & -> & Hall & ->).
  cbn [app]. split; [lia|]. split; [symmetry; exact (Forall2_length _ _ _ Hall)|].
  intros i s Hs.
  destruct (Forall2_lookup_l _ _ _ _ _ Hall Hs)
    as (s' & Hs' & _ & lat_f & lng_f & Hlat & Hlng & ->).
  eexists _, (PyFloat.round lat_f 7), (PyFloat.round lng_f 7).
  split; [exact Hs'|].
  split; [rewrite lookup_insert_ne by discriminate; apply lookup_insert_eq|].
  split; [apply lookup_insert_eq|].
  split; [apply RoundFacts.round_7_idempotent|].
  split; [apply RoundFacts.round_7_idempotent|].
  unfold get_or_zero in Hlat, Hlng.
  split; [intros x Hx; rewrite Hx in Hlat; injection Hlat as <-; reflexivity|].
  split; [intros x Hx; rewrite Hx in Hlng; injection Hlng as <-; reflexivity|].
  split; [intros Hx; rewrite Hx in Hlat; cbn [default from_option id] in Hlat;
          rewrite py_float_zero in Hlat; injection Hlat as <-; exact round_zero|].
  split; [intros Hx; rewrite Hx in Hlng; cbn [default from_option id] in Hlng;
          rewrite py_float_zero in Hlng; injection Hlng as <-; exact round_zero|].
  intros k H1 H2. rewrite !lookup_insert_ne by congruence. reflexivity.
Qed.

(** X12. The final fix is idempotent: on the list that a final fix has
    saved, a second final fix succeeds and saves the same list, with the
    same count. *)
Theorem final_fix_twice (stations out : list pydict) (updated_count : Z) :
  final_fix_coordinates stations = Ok (Some (out, updated_count)) ->
  final_fix_coordinates out = Ok (Some (out, updated_count)).
Proof.
  unfold final_fix_coordinates. intros H.
  destruct stations as [|s0 rest]; [discriminate H|].
  destruct (final_fix_loop (s0 :: rest) [] 0) as [[out' n']|] eqn:Hloop; [|discriminate H].
  cbn [bind] in H. injection H as <- <-.
  destruct (final_fix_loop_spec _ _ _ _ _ Hloop) as (outs & -> & Hall & ->).
  cbn [app].
  assert (Hfixed : Forall (fun s' => final_fixed s' s') outs).
  { clear Hloop. induction Hall as [|s s' l l' Hs _ IH]; constructor;
      [exact (final_fixed_twice _ _ Hs) | exact IH]. }
  pose proof (Forall2_length _ _ _ Hall) as Hlen.
  destruct outs as [|o outs]; [discriminate Hlen|].
  rewrite (final_fix_loop_fixed _ Hfixed [] 0). cbn [bind app].
  rewrite <- Hlen. reflexivity.
Qed.

(** X13. After a final fix whose saved list holds no NaN and no
    infinity, the precision check succeeds on the saved list, and a
    resolve-all pass, whatever its resolver would answer, asks it
    nothing and saves the list as it is. *)
Theorem final_fix_settles_the_list (stations out : list pydict) (updated_count : Z)
    (get_coordinates : value -> value * value) :
  final_fix_coordinates stations = Ok (Some (out, updated_count)) ->
  forallb finite_coordinates out = true ->
  verify_coordinate_precision out = Ok true /\
  scrape_all_coordinates get_coordinates out = Ok (Some (out, 0, [])).
Proof.
  unfold final_fix_coordinates. intros H Hfin.
  destruct stations as [|s0 rest]; [discriminate H|].
  destruct (final_fix_loop (s0 :: rest) [] 0) as [[out' n']|] eqn:Hloop; [|discriminate H].
  cbn [bind] in H. injection H as <- <-.
  destruct (final_fix_loop_spec _ _ _ _ _ Hloop) as (outs & -> & Hall & ->).
  cbn [app] in *.
  assert (Hnum : Forall numeric_station outs).
  { clear Hloop. induction Hall as [|s s' l l' Hs _ IH]; constructor.
    - cbn [forallb] in Hfin. apply andb_prop in Hfin as [Hs' _].
      destruct Hs as ([name Hname] & lat_f & lng_f & _ & _ & ->).
      split; [exists name; rewrite !lookup_insert_ne by discriminate; exact Hname|].
      exists (PyFloat.round lat_f 7), (PyFloat.round lng_f 7).
      unfold finite_coordinates, get_or_zero in Hs'.
      rewrite lookup_insert_eq in Hs'.
      rewrite (lookup_insert_ne _ "longitude"%string "latitude"%string) in Hs' by discriminate.
      rewrite lookup_insert_eq in Hs'. cbn [default from_option id finite_coordinate] in Hs'.
      apply andb_prop in Hs' as [H1 H2].
      split; [rewrite lookup_insert_ne by discriminate; apply lookup_insert_eq|].
      split; [apply lookup_insert_eq|]. auto.
    - apply IH. cbn [forallb] in Hfin. apply andb_prop in Hfin as [_ Hfin]. exact Hfin. }
  split; [apply verify_accepts_every_number; exact Hnum|].
  pose proof (Forall2_length _ _ _ Hall) as Hlen.
  destruct outs as [|o outs]; [discriminate Hlen|].
  unfold scrape_all_coordinates.
  rewrite (scrape_loop_numeric get_coordinates _ Hnum [] 0 []). reflexivity.
Qed.

End FinalFix.

(** A station stored with eight places, the station without coordinates,
    and what a final fix makes of them. *)
Definition kavi_subhash_long : pydict :=
  <[ "longitude"%string := VFloat 88.39529191 ]>
    (<[ "latitude"%string := VFloat 22.47217964 ]> {[ "name"%string := VStr "Kavi Subhash" ]}).
Definition kavi_subhash_fixed : pydict :=
  <[ "longitude"%string := VFloat 88.3952919 ]>
    (<[ "latitude"%string := VFloat 22.4721796 ]> kavi_subhash_long).
Definition kalighat_zero : pydict :=
  <[ "longitude"%string := VFloat 0 ]> (<[ "latitude"%string := VFloat 0 ]> kalighat_bare).

(** A [float] that accepts no string at all. *)
Definition no_float (s : string) : result float := Raise ValueError.

Lemma final_fix_example :
  final_fix_coordinates no_float [kavi_subhash_long; kalighat_bare]
  = Ok (Some ([kavi_subhash_fixed; kalighat_zero], 2)).
Proof. vm_compute. reflexivity. Qed.

(** X11 on these two stations, at the station without coordinates. *)
Lemma final_fix_rounds_every_station_witness :
  2 = Z.of_nat (length [kavi_subhash_long; kalighat_bare]) /\
  length [kavi_subhash_fixed; kalighat_zero] = length [kavi_subhash_long; kalighat_bare] /\
  forall (i : nat) (s : pydict),
    [kavi_subhash_long; kalighat_bare] !! i = Some s ->
    exists (s' : pydict) (lat lng : float),
      [kavi_subhash_fixed; kalighat_zero] !! i = Some s' /\
      s' !! "latitude"%string = Some (VFloat lat) /\
      s' !! "longitude"%string = Some (VFloat lng) /\
      PyFloat.round lat 7 = lat /\ PyFloat.round lng 7 = lng /\
      (forall x : float, s !! "latitude"%string = Some (VFloat x) -> lat = PyFloat.round x 7) /\
      (forall x : float, s !! "longitude"%string = Some (VFloat x) -> lng = PyFloat.round x 7) /\
      (s !! "latitude"%string = None -> lat = 0%float) /\
      (s !! "longitude"%string = None -> lng = 0%float) /\
      (forall k : string,
          k <> "latitude"%string -> k <> "longitude"%string -> s' !! k = s !! k).
Proof.
  exact (final_fix_rounds_every_station no_float [kavi_subhash_long; kalighat_bare]
           [kavi_subhash_fixed; kalighat_zero] 2 final_fix_example).
Defined.

(** X12 on the same list. *)
Lemma final_fix_twice_witness :
  final_fix_coordinates no_float [kavi_subhash_fixed; kalighat_zero]
  = Ok (Some ([kavi_subhash_fixed; kalighat_zero], 2)).
Proof.
  exact (final_fix_twice no_float [kavi_subhash_long; kalighat_bare]
           [kavi_subhash_fixed; kalighat_zero] 2 final_fix_example).
Defined.

(** X13 on the same list, with a resolver that would answer the centre
    of the city. *)
Lemma final_fix_settles_the_list_witness :
  verify_coordinate_precision [kavi_subhash_fixed; kalighat_zero] = Ok true /\
  scrape_all_coordinates (fun _ => (VFloat 22.5726, VFloat 88.3639))
    [kavi_subhash_fixed; kalighat_zero]
  = Ok (Some ([kavi_subhash_fixed; kalighat_zero], 0, [])).
Proof.
  exact (final_fix_settles_the_list no_float [kavi_subhash_long; kalighat_bare]
           [kavi_subhash_fixed; kalighat_zero] 2 (fun _ => (VFloat 22.5726, VFloat 88.3639))
           final_fix_example ltac:(vm_compute; reflexivity)).
Defined.

(** The final fix stops at the first station that it cannot read: a
    coordinate that is [None], or a station without a name. *)
Example final_fix_errors :
  final_fix_coordinates no_float
    [kavi_subhash_long; <[ "latitude"%string := VNone ]> kalighat_bare] = Raise TypeError /\
  final_fix_coordinates no_float
    [kavi_subhash_long; {[ "latitude"%string := VFloat 22.5 ]}] = Raise (KeyError "name") /\
  final_fix_coordinates no_float [] = Ok None.
Proof. conjuncts; vm_compute; reflexivity. Qed.
